(** * EasyMint: transaction assembly and fee estimation

    A shallow embedding of the transaction-assembly code of the EasyMint
    front-end ([src/lib/createTokenWithUpload.ts] and the revoke, freeze,
    mint and burn client components), with the properties its specification
    states about it, and of the code around it: the creation pages, the
    token resolution of the tool pages, the metadata upload (client and
    API route) and the mint list of the freeze page.

    Layout: the JavaScript number model, the Solana data the code handles,
    the external collaborators (SDK, RPC connection, wallet), the embedded
    functions, and then the lemmas. *)

From Stdlib Require Import ZArith Lia List String Bool.
From Stdlib Require Import Floats.PrimFloat Floats.FloatOps Uint63.
From Stdlib Require DecimalString.
Import ListNotations.

Local Open Scope Z_scope.

(* ===================================================================== *)
(** * JavaScript numbers *)
(* ===================================================================== *)

(** A JavaScript [number] is an IEEE-754 binary64 value.  The model keeps
    [NaN] and the finite values, a finite value being [mant * 2^expo]; the
    arithmetic rounds to 53 significant bits, to nearest, ties to even, as
    binary64 does in its normal range.  Infinities, overflow and subnormal
    results are outside the model (the quantities of this program stay far
    from both ends of the exponent range). *)
Module JS.

Inductive number : Type :=
| NaN
| Fin (mant expo : Z).

(** Number of significant bits of a mantissa. *)
Definition bitlen (m : Z) : Z :=
  if m =? 0 then 0 else Z.log2 (Z.abs m) + 1.

(** [m / 2^k] rounded to the nearest integer, ties to even ([0 <= m], [0 < k]). *)
Definition div_half_even (m k : Z) : Z :=
  let q := m / 2 ^ k in
  let r := m mod 2 ^ k in
  let half := 2 ^ (k - 1) in
  if r <? half then q
  else if half <? r then q + 1
  else if Z.even q then q else q + 1.

(** Rounding of an exact result to binary64 precision. *)
Definition round53 (x : number) : number :=
  match x with
  | NaN => NaN
  | Fin m e =>
      let k := bitlen m - 53 in
      if k <=? 0 then Fin m e
      else Fin (Z.sgn m * div_half_even (Z.abs m) k) (e + k)
  end.

(** An integer literal, [parseInt] of a decimal numeral, [Number(bigint)]. *)
Definition of_Z (n : Z) : number := round53 (Fin n 0).

(** [x * y], for a product within the finite range of binary64: the model
    has no infinities, and the lemmas that read a value off a product
    bound its factors. *)
Definition mul (x y : number) : number :=
  match x, y with
  | Fin mx ex, Fin my ey => round53 (Fin (mx * my) (ex + ey))
  | _, _ => NaN
  end.

(** [x / y] for a divisor other than zero: the exact quotient rounded to
    binary64 precision.  The quotient of the mantissas is computed to at
    least 55 bits and a last bit records a remainder other than zero, so
    that [round53] rounds as it would the exact quotient.  (A zero divisor
    gives an infinity in JavaScript, or [NaN] for [0 / 0]; the program
    divides by powers of ten only.) *)
Definition div (x y : number) : number :=
  match x, y with
  | Fin mx ex, Fin my ey =>
      if my =? 0 then NaN
      else
        let s := Z.max 0 (55 + bitlen my - bitlen mx) in
        let n := Z.abs mx * 2 ^ s in
        let q := n / Z.abs my in
        let sticky := if n mod Z.abs my =? 0 then 0 else 1 in
        round53 (Fin (Z.sgn mx * Z.sgn my * (2 * q + sticky)) (ex - ey - s - 1))
  | _, _ => NaN
  end.

(** [x + y]. *)
Definition add (x y : number) : number :=
  match x, y with
  | Fin mx ex, Fin my ey =>
      let e := Z.min ex ey in
      round53 (Fin (mx * 2 ^ (ex - e) + my * 2 ^ (ey - e)) e)
  | _, _ => NaN
  end.

(** [Math.floor(x)]. *)
Definition floor (x : number) : number :=
  match x with
  | NaN => NaN
  | Fin m e => if 0 <=? e then Fin m e else Fin (m / 2 ^ (- e)) 0
  end.

(** Ordering of two numbers; [None] when one of them is [NaN]. *)
Definition compare (x y : number) : option comparison :=
  match x, y with
  | Fin mx ex, Fin my ey =>
      let e := Z.min ex ey in
      Some (mx * 2 ^ (ex - e) ?= my * 2 ^ (ey - e))
  | _, _ => None
  end.

(** [x > y]. *)
Definition gtb (x y : number) : bool :=
  match compare x y with Some Gt => true | _ => false end.

(** [x < y]. *)
Definition ltb (x y : number) : bool :=
  match compare x y with Some Lt => true | _ => false end.

(** [x <= y]. *)
Definition leb (x y : number) : bool :=
  match compare x y with Some Lt | Some Eq => true | _ => false end.

(** [x === y]. *)
Definition strict_eqb (x y : number) : bool :=
  match compare x y with Some Eq => true | _ => false end.

(** [!x] for a number: [0] and [NaN] are falsy. *)
Definition falsy (x : number) : bool :=
  match x with
  | NaN => true
  | Fin m _ => m =? 0
  end.

(** The integer a number denotes, when it denotes one ([BigInt(x)]). *)
Definition to_integer (x : number) : option Z :=
  match x with
  | NaN => None
  | Fin m e =>
      if 0 <=? e then Some (m * 2 ^ e)
      else if m mod 2 ^ (- e) =? 0 then Some (m / 2 ^ (- e)) else None
  end.

(** [Math.pow(10, d)] for a natural exponent: the double nearest to [10^d]
    (the power itself up to [d = 22]). *)
Definition pow10 (d : nat) : number := of_Z (10 ^ Z.of_nat d).

(** [Math.pow(10, d)] where [d] may be [undefined]. *)
Definition pow10_opt (d : option nat) : number :=
  match d with
  | Some n => pow10 n
  | None => NaN
  end.

(** [ToNumber(v)] for a value that is a number or [null]: [null] is [+0]. *)
Definition of_nullable (v : option number) : number :=
  match v with
  | Some n => n
  | None => of_Z 0
  end.

(** The literal [0.01]: the double [0x1.47ae147ae147bp-7]. *)
Definition lit_0_01 : number := Fin 5764607523034235 (-59).

(** The literal [0.5]. *)
Definition lit_0_5 : number := Fin 1 (-1).

(** The literal [0.000000001]: the double [0x1.12e0be826d695p-30]. *)
Definition lit_1e_9 : number := Fin 4835703278458517 (-82).

(** [Number.isNaN(x)]. *)
Definition is_nan (x : number) : bool :=
  match x with
  | NaN => true
  | Fin _ _ => false
  end.

(** The binary64 value of a number, in the kernel's primitive floats. *)
Definition to_binary64 (x : number) : float :=
  match x with
  | NaN => PrimFloat.nan
  | Fin m e =>
      let a := Z.ldexp (PrimFloat.of_uint63 (Uint63.of_Z (Z.abs m))) e in
      if m <? 0 then PrimFloat.opp a else a
  end.

End JS.

Local Open Scope string_scope.

(* ===================================================================== *)
(** * Promises that resolve or reject *)
(* ===================================================================== *)

(** The outcome of an awaited call: a value, or a thrown [Error] with its
    message. *)
Inductive result (A : Type) : Type :=
| Ok (a : A)
| Throw (message : string).

Arguments Ok {A} a.
Arguments Throw {A} message.

Definition bind {A B : Type} (r : result A) (k : A -> result B) : result B :=
  match r with
  | Ok a => k a
  | Throw m => Throw m
  end.

Notation "x <- e ;; k" := (bind e (fun x => k))
  (at level 61, e at next level, right associativity).

(** [try { r } catch (error) { h(error.message) }]. *)
Definition catch {A : Type} (r : result A) (h : string -> result A) : result A :=
  match r with
  | Ok a => Ok a
  | Throw m => h m
  end.

(** Whether an awaited call resolved. *)
Definition resolved {A : Type} (r : result A) : bool :=
  match r with
  | Ok _ => true
  | Throw _ => false
  end.

(** A thrown value: an [Error] with its message, or a value that is not an
    [Error] ([error instanceof Error] is false).  The calls into the SDK
    and the connection reject with [Error]s, which is what [result]
    records; a callback handed in from outside, as [sendTransaction] is to
    the creation functions, may throw any value. *)
Inductive Thrown : Type :=
| ErrorInstance (message : string)
| OtherValue.

(** The outcome of an awaited call that may throw any value. *)
Inductive Attempt (A : Type) : Type :=
| Returned (a : A)
| Threw (error : Thrown).

Arguments Returned {A} a.
Arguments Threw {A} error.

(** A call that rejects with [Error]s only. *)
Definition attempted {A : Type} (r : result A) : Attempt A :=
  match r with
  | Ok a => Returned a
  | Throw message => Threw (ErrorInstance message)
  end.

Definition andThen {A B : Type} (r : Attempt A) (k : A -> Attempt B) : Attempt B :=
  match r with
  | Returned a => k a
  | Threw error => Threw error
  end.

Notation "x <~ e ;; k" := (andThen e (fun x => k))
  (at level 61, e at next level, right associativity).

(* ===================================================================== *)
(** * Strings *)
(* ===================================================================== *)

(** [text.includes(needle)]. *)
Fixpoint includes (needle text : string) : bool :=
  if String.prefix needle text then true
  else match text with
       | EmptyString => false
       | String _ rest => includes needle rest
       end.

(* ===================================================================== *)
(** * Solana data *)
(* ===================================================================== *)

(** A public key, as its base58 text ([publicKey.toString()]). *)
Definition PublicKey : Type := string.

Definition TOKEN_PROGRAM_ID : PublicKey :=
  "TokenkegQfeZyiNwAJbNbGKPFXCWuBvf9Ss623VQ5DA".

Definition TOKEN_METADATA_PROGRAM_ID : PublicKey :=
  "metaqbxxUerdq28cj1RbAWkYQm3ybzjb6a8bt518x1s".

(** Sizes of the token program's account layouts. *)
Definition MINT_SIZE : Z := 82.
Definition AccountLayout_span : Z := 165.

(** The [AuthorityType] enumeration of the token library, as far as the
    source uses it. *)
Module AuthorityType.

Inductive t : Type :=
| MintTokens
| FreezeAccount.

End AuthorityType.

(** The instructions the program composes, each with the arguments the
    source hands to the instruction builder of the token, system or
    metadata library. *)
Inductive Instruction : Type :=
| SystemProgram_createAccount
    (fromPubkey newAccountPubkey : PublicKey) (space : Z)
    (lamports : JS.number) (programId : PublicKey)
| createInitializeMintInstruction
    (mint : PublicKey) (decimals : nat) (mintAuthority freezeAuthority : PublicKey)
| createCreateMetadataAccountV3Instruction
    (metadata mint mintAuthority payer updateAuthority : PublicKey)
    (name symbol uri : string) (sellerFeeBasisPoints : Z) (isMutable : bool)
| createAssociatedTokenAccountInstruction
    (payer associatedToken owner mint : PublicKey)
| createMintToInstruction
    (mint destination authority : PublicKey) (amount : JS.number)
| createSetAuthorityInstruction
    (account currentAuthority : PublicKey) (authorityType : AuthorityType.t)
    (newAuthority : option PublicKey)
| createFreezeAccountInstruction (account mint authority : PublicKey)
| createThawAccountInstruction (account mint authority : PublicKey)
| createBurnInstruction (account mint owner : PublicKey) (amount : JS.number).

(** The type of an instruction, without its field values. *)
Inductive InstructionKind : Type :=
| CreateAccount
| InitializeMint
| CreateMetadata
| CreateAssociatedAccount
| MintTo
| SetAuthority (authorityType : AuthorityType.t) (newAuthority : option PublicKey)
| FreezeAccount
| ThawAccount
| Burn.

Definition kind (i : Instruction) : InstructionKind :=
  match i with
  | SystemProgram_createAccount _ _ _ _ _ => CreateAccount
  | createInitializeMintInstruction _ _ _ _ => InitializeMint
  | createCreateMetadataAccountV3Instruction _ _ _ _ _ _ _ _ _ _ => CreateMetadata
  | createAssociatedTokenAccountInstruction _ _ _ _ => CreateAssociatedAccount
  | createMintToInstruction _ _ _ _ => MintTo
  | createSetAuthorityInstruction _ _ t n => SetAuthority t n
  | createFreezeAccountInstruction _ _ _ => FreezeAccount
  | createThawAccountInstruction _ _ _ => ThawAccount
  | createBurnInstruction _ _ _ _ => Burn
  end.

(** The amount of a [MintTo] instruction. *)
Definition mintTo_amount (i : Instruction) : option JS.number :=
  match i with
  | createMintToInstruction _ _ _ amount => Some amount
  | _ => None
  end.

Record Transaction : Type := mkTransaction {
  feePayer : option PublicKey;
  recentBlockhash : option string;
  instructions : list Instruction
}.

(** [transaction.add(i)]. *)
Definition Transaction_add (t : Transaction) (i : Instruction) : Transaction :=
  mkTransaction (feePayer t) (recentBlockhash t) (instructions t ++ [i]).

Definition shape (t : Transaction) : list InstructionKind :=
  map kind (instructions t).

(** The amounts of the [MintTo] instructions of a transaction, in order. *)
Definition mintTo_amounts (t : Transaction) : list JS.number :=
  flat_map
    (fun i => match mintTo_amount i with Some a => [a] | None => [] end)
    (instructions t).

(** A compiled message; only the header field the source reads is kept. *)
Record Message : Type := mkMessage {
  numRequiredSignatures : JS.number;
  message_transaction : Transaction
}.

Record File : Type := mkFile {
  file_type : string;
  file_size : Z
}.

(* ===================================================================== *)
(** * External collaborators *)
(* ===================================================================== *)

Record TokenMetadataRequest : Type := mkTokenMetadataRequest {
  req_mintId : string;
  req_name : string;
  req_symbol : string;
  req_description : string;
  req_image : option File
}.

Record TokenMetadataResult : Type := mkTokenMetadataResult {
  metadataUrl : string;
  imageUrl : option string
}.

(** The library calls the source makes that do not touch the ledger, and
    the metadata upload service. *)
Class SDK : Type := {
  (** [new PublicKey(text)] *)
  newPublicKey : string -> result PublicKey;
  (** [PublicKey.findProgramAddressSync(['metadata', programId, mint], programId)[0]]
      for the metadata program [TOKEN_METADATA_PROGRAM_ID] *)
  findMetadataAddress : PublicKey -> PublicKey;
  (** [getAssociatedTokenAddress(mint, owner)] *)
  getAssociatedTokenAddress : PublicKey -> PublicKey -> result PublicKey;
  (** [transaction.compileMessage()] *)
  compileMessage : Transaction -> Message;
  (** [createTokenMetadata(...)] of [lib/uploadImage.ts], a POST to the upload API *)
  createTokenMetadata : TokenMetadataRequest -> result TokenMetadataResult
}.

Record BlockhashWithExpiryBlockHeight : Type := mkBlockhash {
  blockhash : string;
  lastValidBlockHeight : JS.number
}.

Record FeeCalculator : Type := mkFeeCalculator {
  lamportsPerSignature : JS.number
}.

(** [parsed.info] of a parsed account; [info_decimals] is absent when the
    parsed account is not a mint. *)
Record ParsedInfo : Type := mkParsedInfo {
  parsed_type : string;
  info_decimals : option nat;
  info_supply : string;
  info_mintAuthority : option string;
  info_freezeAuthority : option string
}.

(** [accountInfo.value.data]: raw bytes, or an object with a [parsed] field. *)
Inductive AccountData : Type :=
| RawData
| ParsedData (parsed : ParsedInfo).

(** A token account as [getAccount] returns it. *)
Record TokenAccount : Type := mkTokenAccount {
  account_amount : Z;
  isFrozen : bool
}.

(** The answers of the RPC node during one run of a function. *)
Record Connection : Type := mkConnection {
  getMinimumBalanceForRentExemption : Z -> result JS.number;
  getLatestBlockhash : result BlockhashWithExpiryBlockHeight;
  getBalance : PublicKey -> result JS.number;
  (** absent on a client library without the method; the resolved [value] may be [null] *)
  getFeeForMessage : option (Message -> result (option JS.number));
  getFeeCalculatorForBlockhash : string -> result (option FeeCalculator);
  (** resolves to [confirmation.value.err] *)
  confirmTransaction : string -> result (option string);
  (** resolves to [mintInfo.value], with its [data] *)
  getParsedAccountInfo : PublicKey -> result (option AccountData);
  (** [getAccount(connection, address)] of the token library *)
  getAccount : PublicKey -> result TokenAccount
}.

(** [getMinimumBalanceForRentExemptMint(connection)] of the token library. *)
Definition getMinimumBalanceForRentExemptMint (connection : Connection)
  : result JS.number :=
  getMinimumBalanceForRentExemption connection MINT_SIZE.

(** [useWallet()]: the connected key, if any, and the wallet's
    [sendTransaction(transaction, connection, {signers})]. *)
Record Wallet : Type := mkWallet {
  publicKey : option PublicKey;
  sendTransaction : Transaction -> list PublicKey -> result string
}.

(* ===================================================================== *)
(** * [src/lib/createTokenWithUpload.ts] *)
(* ===================================================================== *)

Module CreateTokenWithUpload.

(** The form values of the token creator.  [supply] and [decimals] come
    from [parseInt] in the form; [decimals] is validated to 0..9. *)
Record CoinFormData : Type := mkCoinFormData {
  name : string;
  symbol : string;
  description : string;
  decimals : nat;
  supply : JS.number;
  imageFile : option File;
  revokeMintAuthority : bool;
  revokeFreezeAuthority : bool
}.

Record UltraCheapTokenData : Type := mkUltraCheapTokenData {
  uc_name : string;
  uc_symbol : string;
  uc_decimals : nat;
  uc_supply : JS.number
}.

Record CreateTokenResult : Type := mkCreateTokenResult {
  mintPubkey : PublicKey;
  result_imageUrl : option string
}.

(** The placeholder URI of the fee estimator. *)
Definition placeholderMetadataUri : string := "https://example.com/metadata.json".

(** [a + b + c + ...], left to right. *)
Definition sum_numbers (first : JS.number) (rest : list JS.number) : JS.number :=
  fold_left JS.add rest first.

Section Lib.

Context `{SDK}.

(** The transaction [createToken] constructs (source lines 98-195), from
    the values computed before it. *)
Definition createToken_build (payer mintKeypair metadataPDA associatedTokenAddress : PublicKey)
    (mintRent : JS.number) (metadataUri : string) (blockhash : string)
    (data : CoinFormData) : Transaction :=
  let transaction := mkTransaction (Some payer) (Some blockhash) [] in
  (* 1. Create the mint account *)
  let transaction := Transaction_add transaction
    (SystemProgram_createAccount payer mintKeypair MINT_SIZE mintRent TOKEN_PROGRAM_ID) in
  (* 2. Initialize the mint *)
  let transaction := Transaction_add transaction
    (createInitializeMintInstruction mintKeypair (decimals data) payer payer) in
  (* 3. Create the metadata account *)
  let transaction := Transaction_add transaction
    (createCreateMetadataAccountV3Instruction metadataPDA mintKeypair payer payer payer
       (name data) (symbol data) metadataUri 0 true) in
  (* 4. Create the associated token account *)
  let transaction := Transaction_add transaction
    (createAssociatedTokenAccountInstruction payer associatedTokenAddress payer mintKeypair) in
  (* 5. Mint tokens to the associated account *)
  let mintAmount := JS.mul (supply data) (JS.pow10 (decimals data)) in
  let transaction := Transaction_add transaction
    (createMintToInstruction mintKeypair associatedTokenAddress payer mintAmount) in
  (* 6. Revoke authorities if requested *)
  let transaction :=
    if revokeMintAuthority data
    then Transaction_add transaction
           (createSetAuthorityInstruction mintKeypair payer AuthorityType.MintTokens None)
    else transaction in
  let transaction :=
    if revokeFreezeAuthority data
    then Transaction_add transaction
           (createSetAuthorityInstruction mintKeypair payer AuthorityType.FreezeAccount None)
    else transaction in
  transaction.

(** [createToken] up to the point where the transaction is handed to the
    wallet: the transaction and the image URL of the upload. *)
Definition createToken_transaction (connection : Connection) (payer : PublicKey)
    (data : CoinFormData) (mintKeypair : PublicKey)
  : result (Transaction * option string) :=
  let metadataPDA := findMetadataAddress mintKeypair in
  mintRent <- getMinimumBalanceForRentExemptMint connection ;;
  associatedTokenAddress <- getAssociatedTokenAddress mintKeypair payer ;;
  uploaded <- catch
    (createTokenMetadata
       (mkTokenMetadataRequest mintKeypair (name data) (symbol data)
          (description data) (imageFile data)))
    (fun message => Throw ("Failed to create token metadata: " ++ message)) ;;
  latest <- getLatestBlockhash connection ;;
  Ok (createToken_build payer mintKeypair metadataPDA associatedTokenAddress
        mintRent (metadataUrl uploaded) (blockhash latest) data,
      imageUrl uploaded).

(** [createToken(connection, publicKey, sendTransaction, data)];
    [mintKeypair] is the key [Keypair.generate()] returned. *)
Definition createToken (connection : Connection) (payer : PublicKey)
    (send : Transaction -> list PublicKey -> result string)
    (data : CoinFormData) (mintKeypair : PublicKey) : result CreateTokenResult :=
  prepared <- createToken_transaction connection payer data mintKeypair ;;
  signature <- send (fst prepared) [mintKeypair] ;;
  _ <- getLatestBlockhash connection ;;
  _ <- confirmTransaction connection signature ;;
  Ok (mkCreateTokenResult mintKeypair (snd prepared)).

(** The transaction [createUltraCheapToken] constructs (source lines 258-305). *)
Definition createUltraCheapToken_build (payer mintKeypair associatedTokenAddress : PublicKey)
    (mintRent : JS.number) (blockhash : string) (data : UltraCheapTokenData)
  : Transaction :=
  let transaction := mkTransaction (Some payer) (Some blockhash) [] in
  let transaction := Transaction_add transaction
    (SystemProgram_createAccount payer mintKeypair MINT_SIZE mintRent TOKEN_PROGRAM_ID) in
  let transaction := Transaction_add transaction
    (createInitializeMintInstruction mintKeypair (uc_decimals data) payer payer) in
  let transaction := Transaction_add transaction
    (createAssociatedTokenAccountInstruction payer associatedTokenAddress payer mintKeypair) in
  let mintAmount := JS.mul (uc_supply data) (JS.pow10 (uc_decimals data)) in
  Transaction_add transaction
    (createMintToInstruction mintKeypair associatedTokenAddress payer mintAmount).

Definition createUltraCheapToken_transaction (connection : Connection)
    (payer : PublicKey) (data : UltraCheapTokenData) (mintKeypair : PublicKey)
  : result Transaction :=
  mintRent <- getMinimumBalanceForRentExemptMint connection ;;
  associatedTokenAddress <- getAssociatedTokenAddress mintKeypair payer ;;
  _ <- getBalance connection payer ;;
  latest <- getLatestBlockhash connection ;;
  Ok (createUltraCheapToken_build payer mintKeypair associatedTokenAddress
        mintRent (blockhash latest) data).

(** The message [createUltraCheapToken] rethrows for a failed send or
    confirmation (source lines 333-350). *)
Definition ultraCheap_error_message (message : string) : string :=
  if includes "insufficient funds" message
  then "Insufficient funds to create token. Please ensure you have enough SOL to cover the transaction fees and rent."
  else if includes "blockhash not found" message
  then "Transaction expired. Please try again."
  else if includes "User rejected" message
  then "Transaction was rejected by user."
  else if includes "Transaction was not confirmed" message
  then "Transaction was not confirmed. Please check the explorer and try again if the token was not created."
  else message.

(** [createUltraCheapToken(connection, publicKey, sendTransaction, data)]. *)
Definition createUltraCheapToken (connection : Connection) (payer : PublicKey)
    (send : Transaction -> list PublicKey -> result string)
    (data : UltraCheapTokenData) (mintKeypair : PublicKey) : result PublicKey :=
  transaction <- createUltraCheapToken_transaction connection payer data mintKeypair ;;
  catch
    (signature <- send transaction [mintKeypair] ;;
     err <- confirmTransaction connection signature ;;
     match err with
     | Some e => Throw ("Transaction failed: " ++ e)
     | None => Ok mintKeypair
     end)
    (fun message => Throw (ultraCheap_error_message message)).

(** [createToken] for a [sendTransaction] that may throw any value.  The
    function has no [catch]: what is thrown inside it is what it throws. *)
Definition createToken_sending (connection : Connection) (payer : PublicKey)
    (send : Transaction -> list PublicKey -> Attempt string)
    (data : CoinFormData) (mintKeypair : PublicKey) : Attempt CreateTokenResult :=
  prepared <~ attempted (createToken_transaction connection payer data mintKeypair) ;;
  signature <~ send (fst prepared) [mintKeypair] ;;
  _ <~ attempted (getLatestBlockhash connection) ;;
  _ <~ attempted (confirmTransaction connection signature) ;;
  Returned (mkCreateTokenResult mintKeypair (snd prepared)).

(** [createUltraCheapToken] for a [sendTransaction] that may throw any
    value.  The [catch] rewords an [Error] (source lines 333-347) and
    rethrows any other value as it is ([throw error]). *)
Definition createUltraCheapToken_sending (connection : Connection) (payer : PublicKey)
    (send : Transaction -> list PublicKey -> Attempt string)
    (data : UltraCheapTokenData) (mintKeypair : PublicKey) : Attempt PublicKey :=
  transaction <~
    attempted (createUltraCheapToken_transaction connection payer data mintKeypair) ;;
  match (signature <~ send transaction [mintKeypair] ;;
         err <~ attempted (confirmTransaction connection signature) ;;
         match err with
         | Some e => Threw (ErrorInstance ("Transaction failed: " ++ e))
         | None => Returned mintKeypair
         end) with
  | Returned created => Returned created
  | Threw (ErrorInstance message) =>
      Threw (ErrorInstance (ultraCheap_error_message message))
  | Threw OtherValue => Threw OtherValue
  end.

(** What [estimateCreateTokenFee] has computed when it compiles the message. *)
Record EstimateLocals : Type := mkEstimateLocals {
  el_mintRent : JS.number;
  el_tokenAccountRent : JS.number;
  el_metadataAccountRent : JS.number;
  el_blockhash : string;
  el_transaction : Transaction
}.

(** The transaction [estimateCreateTokenFee] constructs (source lines 391-483). *)
Definition estimateCreateTokenFee_build (payer mintKeypair metadataPDA associatedTokenAddress : PublicKey)
    (mintRent : JS.number) (metadataUri : string) (blockhash : string)
    (data : CoinFormData) : Transaction :=
  let transaction := mkTransaction (Some payer) (Some blockhash) [] in
  (* 1. Create the mint account *)
  let transaction := Transaction_add transaction
    (SystemProgram_createAccount payer mintKeypair MINT_SIZE mintRent TOKEN_PROGRAM_ID) in
  (* 2. Initialize the mint *)
  let transaction := Transaction_add transaction
    (createInitializeMintInstruction mintKeypair (decimals data) payer payer) in
  (* 3. Create the metadata account *)
  let transaction := Transaction_add transaction
    (createCreateMetadataAccountV3Instruction metadataPDA mintKeypair payer payer payer
       (name data) (symbol data) metadataUri 0 true) in
  (* 4. Create the associated token account *)
  let transaction := Transaction_add transaction
    (createAssociatedTokenAccountInstruction payer associatedTokenAddress payer mintKeypair) in
  (* 5. Mint tokens to the associated account *)
  let mintAmount := JS.mul (supply data) (JS.pow10 (decimals data)) in
  let transaction := Transaction_add transaction
    (createMintToInstruction mintKeypair associatedTokenAddress payer mintAmount) in
  (* 6. Revoke authorities if requested (for fee estimation) *)
  let transaction :=
    if revokeMintAuthority data
    then Transaction_add transaction
           (createSetAuthorityInstruction mintKeypair payer AuthorityType.MintTokens None)
    else transaction in
  let transaction :=
    if revokeFreezeAuthority data
    then Transaction_add transaction
           (createSetAuthorityInstruction mintKeypair payer AuthorityType.FreezeAccount None)
    else transaction in
  transaction.

Definition estimateCreateTokenFee_transaction (connection : Connection)
    (payer : PublicKey) (data : CoinFormData) (mintKeypair : PublicKey)
  : result EstimateLocals :=
  let metadataPDA := findMetadataAddress mintKeypair in
  mintRent <- getMinimumBalanceForRentExemptMint connection ;;
  tokenAccountRent <- getMinimumBalanceForRentExemption connection AccountLayout_span ;;
  metadataAccountRent <- getMinimumBalanceForRentExemption connection 607 ;;
  associatedTokenAddress <- getAssociatedTokenAddress mintKeypair payer ;;
  let metadataUri := placeholderMetadataUri in
  latest <- getLatestBlockhash connection ;;
  Ok (mkEstimateLocals mintRent tokenAccountRent metadataAccountRent (blockhash latest)
        (estimateCreateTokenFee_build payer mintKeypair metadataPDA
           associatedTokenAddress mintRent metadataUri (blockhash latest) data)).

(** [estimateCreateTokenFee(connection, publicKey, data)]; the enclosing
    [try { ... } catch (error) { throw error }] rethrows unchanged. *)
Definition estimateCreateTokenFee (connection : Connection) (payer : PublicKey)
    (data : CoinFormData) (mintKeypair : PublicKey) : result JS.number :=
  l <- estimateCreateTokenFee_transaction connection payer data mintKeypair ;;
  let message := compileMessage (el_transaction l) in
  (* Metaplex protocol fee: 0.01 * 1000000000 *)
  let metaplexProtocolFee := JS.mul JS.lit_0_01 (JS.of_Z 1000000000) in
  match getFeeForMessage connection with
  | Some feeForMessage =>
      (* Use getFeeForMessage if available; [value] may be [null], and
         [... + null] adds [0] *)
      value <- feeForMessage message ;;
      let totalFee := sum_numbers (el_mintRent l)
        [el_tokenAccountRent l; el_metadataAccountRent l; metaplexProtocolFee;
         JS.of_nullable value] in
      Ok totalFee
  | None =>
      (* Fallback to fee calculator per signature *)
      feeCalcResp <- getFeeCalculatorForBlockhash connection (el_blockhash l) ;;
      match feeCalcResp with
      | None => Throw "Failed to fetch fee calculator for fee estimation"
      | Some feeCalculator =>
          let requiredSigs := numRequiredSignatures message in
          let transactionFee := JS.mul (lamportsPerSignature feeCalculator) requiredSigs in
          let totalFee := sum_numbers (el_mintRent l)
            [el_tokenAccountRent l; el_metadataAccountRent l; metaplexProtocolFee;
             transactionFee] in
          Ok totalFee
      end
  end.

Record UltraCheapEstimateLocals : Type := mkUltraCheapEstimateLocals {
  ul_mintRent : JS.number;
  ul_tokenAccountRent : JS.number;
  ul_blockhash : string;
  ul_transaction : Transaction
}.

(** The transaction [estimateUltraCheapTokenFee] constructs (source lines 555-600). *)
Definition estimateUltraCheapTokenFee_build (payer mintKeypair associatedTokenAddress : PublicKey)
    (mintRent : JS.number) (blockhash : string) (data : UltraCheapTokenData)
  : Transaction :=
  let transaction := mkTransaction (Some payer) (Some blockhash) [] in
  let transaction := Transaction_add transaction
    (SystemProgram_createAccount payer mintKeypair MINT_SIZE mintRent TOKEN_PROGRAM_ID) in
  let transaction := Transaction_add transaction
    (createInitializeMintInstruction mintKeypair (uc_decimals data) payer payer) in
  let transaction := Transaction_add transaction
    (createAssociatedTokenAccountInstruction payer associatedTokenAddress payer mintKeypair) in
  let mintAmount := JS.mul (uc_supply data) (JS.pow10 (uc_decimals data)) in
  Transaction_add transaction
    (createMintToInstruction mintKeypair associatedTokenAddress payer mintAmount).

Definition estimateUltraCheapTokenFee_transaction (connection : Connection)
    (payer : PublicKey) (data : UltraCheapTokenData) (mintKeypair : PublicKey)
  : result UltraCheapEstimateLocals :=
  mintRent <- getMinimumBalanceForRentExemptMint connection ;;
  tokenAccountRent <- getMinimumBalanceForRentExemption connection AccountLayout_span ;;
  associatedTokenAddress <- getAssociatedTokenAddress mintKeypair payer ;;
  latest <- getLatestBlockhash connection ;;
  Ok (mkUltraCheapEstimateLocals mintRent tokenAccountRent (blockhash latest)
        (estimateUltraCheapTokenFee_build payer mintKeypair associatedTokenAddress
           mintRent (blockhash latest) data)).

(** [estimateUltraCheapTokenFee(connection, publicKey, data)]. *)
Definition estimateUltraCheapTokenFee (connection : Connection) (payer : PublicKey)
    (data : UltraCheapTokenData) (mintKeypair : PublicKey) : result JS.number :=
  l <- estimateUltraCheapTokenFee_transaction connection payer data mintKeypair ;;
  let message := compileMessage (ul_transaction l) in
  match getFeeForMessage connection with
  | Some feeForMessage =>
      value <- feeForMessage message ;;
      let totalFee := sum_numbers (ul_mintRent l)
        [ul_tokenAccountRent l; JS.of_nullable value] in
      Ok totalFee
  | None =>
      feeCalcResp <- getFeeCalculatorForBlockhash connection (ul_blockhash l) ;;
      match feeCalcResp with
      | None => Throw "Failed to fetch fee calculator for fee estimation"
      | Some feeCalculator =>
          let requiredSigs := numRequiredSignatures message in
          let transactionFee := JS.mul (lamportsPerSignature feeCalculator) requiredSigs in
          let totalFee := sum_numbers (ul_mintRent l)
            [ul_tokenAccountRent l; transactionFee] in
          Ok totalFee
      end
  end.

End Lib.

End CreateTokenWithUpload.

(* ===================================================================== *)
(** * The client components *)
(* ===================================================================== *)

(** What a component shows through [setError]. *)
Inductive ErrorMessage : Type :=
| Text (message : string)
  (** [`Insufficient balance. You have ${userBalance} ${symbol || 'tokens'}
      but trying to burn ${amount}.`] *)
| InsufficientBalanceText (userBalance symbol : option string) (amount : JS.number).

(** How a submission of a form ends. *)
Inductive Outcome : Type :=
  (** the form's resolver reported errors: [onSubmit] is not called *)
| Invalid
  (** [setError(...); return] before a [Transaction] object exists *)
| Rejected (error : ErrorMessage)
  (** an exception inside the [try] block before the transaction reached
      the wallet: [setError(err.message)], nothing is sent *)
| Failed (message : string)
  (** the transaction handed to [sendTransaction], and the signature when
      sending and confirming both resolved *)
| Sent (transaction : Transaction) (confirmation : result string).

Definition connectWalletMessage : string :=
  "Please connect your wallet using the button in the top navigation bar.".

(** [authority === key] for a [string | null] and a [string | undefined]. *)
Definition same_key (authority : option string) (key : option PublicKey) : bool :=
  match authority, key with
  | Some a, Some k => String.eqb a k
  | _, _ => false
  end.

(** [!text] for a [string | null | undefined]. *)
Definition falsy_string (text : option string) : bool :=
  match text with
  | None => true
  | Some s => String.eqb s ""
  end.

(** The schema check of an address field: non-empty and accepted by
    [new PublicKey]. *)
Definition addressField `{SDK} (text : string) : bool :=
  (1 <=? String.length text)%nat && resolved (newPublicKey text).

(** [sendTransaction(transaction, connection)] followed by
    [connection.confirmTransaction(signature, 'confirmed')]. *)
Definition sendAndConfirm (wallet : Wallet) (connection : Connection)
    (transaction : Transaction) : result string :=
  signature <- sendTransaction wallet transaction [] ;;
  _ <- confirmTransaction connection signature ;;
  Ok signature.

(** The end of a [try] block that builds a transaction and sends it. *)
Definition submitBuilt (wallet : Wallet) (connection : Connection)
    (built : result Transaction) : Outcome :=
  match built with
  | Throw message => Failed message
  | Ok transaction => Sent transaction (sendAndConfirm wallet connection transaction)
  end.

(* --------------------------------------------------------------------- *)
(** ** Revoke authorities ([RevokeAuthoritiesClient]) *)
(* --------------------------------------------------------------------- *)

Module RevokeAuthoritiesClient.

Record RevokeFormData : Type := mkRevokeFormData {
  tokenAddress : string;
  revokeMintAuthority : bool;
  revokeFreezeAuthority : bool
}.

(** The [tokenInfo] state; the fields used only for display ([name],
    [symbol], [supply]) are left out. *)
Record TokenInfo : Type := mkTokenInfo {
  address : option string;
  decimals : option nat;
  mintAuthority : option string;
  freezeAuthority : option string
}.

Section Client.

Context `{SDK}.

(** [revokeSchema]: a valid token address and at least one authority selected. *)
Definition revokeSchema (data : RevokeFormData) : bool :=
  addressField (tokenAddress data)
  && (revokeMintAuthority data || revokeFreezeAuthority data).

(** [fetchTokenInfo(tokenAddress)]: the new [tokenInfo], or the message
    given to [setError] (and [tokenInfo] becomes [null]). *)
Definition fetchTokenInfo (wallet : Wallet) (connection : Connection)
    (tokenAddress : string) : result TokenInfo :=
  mintPubkey <- newPublicKey tokenAddress ;;
  mintInfo <- getParsedAccountInfo connection mintPubkey ;;
  match mintInfo with
  | Some (ParsedData parsedData) =>
      if negb (String.eqb (parsed_type parsedData) "mint")
      then Throw "Address is not a token mint"
      else
        (* Check if user has any authorities *)
        let hasMintAuthority :=
          same_key (info_mintAuthority parsedData) (publicKey wallet) in
        let hasFreezeAuthority :=
          same_key (info_freezeAuthority parsedData) (publicKey wallet) in
        if negb hasMintAuthority && negb hasFreezeAuthority
        then Throw "You do not have mint or freeze authority for this token"
        else Ok (mkTokenInfo (Some tokenAddress) (info_decimals parsedData)
                   (info_mintAuthority parsedData) (info_freezeAuthority parsedData))
  | _ => Throw "Invalid token address or not a token mint"
  end.

(** The [tokenInfo] state after [fetchTokenInfo]. *)
Definition tokenInfo_after_fetch (wallet : Wallet) (connection : Connection)
    (tokenAddress : string) : option TokenInfo :=
  match fetchTokenInfo wallet connection tokenAddress with
  | Ok info => Some info
  | Throw _ => None
  end.

(** The transaction of [onSubmit] (source lines 588-613). *)
Definition buildTransaction (payer : PublicKey) (data : RevokeFormData)
  : result Transaction :=
  mintPubkey <- newPublicKey (tokenAddress data) ;;
  let transaction := mkTransaction None None [] in
  (* Add revoke mint authority instruction *)
  let transaction :=
    if revokeMintAuthority data
    then Transaction_add transaction
           (createSetAuthorityInstruction mintPubkey payer AuthorityType.MintTokens None)
    else transaction in
  (* Add revoke freeze authority instruction *)
  let transaction :=
    if revokeFreezeAuthority data
    then Transaction_add transaction
           (createSetAuthorityInstruction mintPubkey payer AuthorityType.FreezeAccount None)
    else transaction in
  Ok transaction.

(** [onSubmit(data)]. *)
Definition onSubmit (wallet : Wallet) (connection : Connection)
    (tokenInfo : option TokenInfo) (data : RevokeFormData) : Outcome :=
  match publicKey wallet with
  | None => Rejected (Text connectWalletMessage)
  | Some payer =>
      match tokenInfo with
      | None => Rejected (Text "Please select a valid token first.")
      | Some info =>
          (* Validate authorities before proceeding *)
          if revokeMintAuthority data
             && negb (same_key (mintAuthority info) (Some payer))
          then Rejected (Text "You do not have mint authority for this token.")
          else if revokeFreezeAuthority data
                  && negb (same_key (freezeAuthority info) (Some payer))
          then Rejected (Text "You do not have freeze authority for this token.")
          else if revokeMintAuthority data && falsy_string (mintAuthority info)
          then Rejected (Text "Mint authority has already been revoked for this token.")
          else if revokeFreezeAuthority data && falsy_string (freezeAuthority info)
          then Rejected (Text "Freeze authority has already been revoked for this token.")
          else submitBuilt wallet connection (buildTransaction payer data)
      end
  end.

(** [form.handleSubmit(onSubmit)]: the resolver of [revokeSchema] runs
    first, and [onSubmit] is called only with data it accepts. *)
Definition handleSubmit (wallet : Wallet) (connection : Connection)
    (tokenInfo : option TokenInfo) (data : RevokeFormData) : Outcome :=
  if revokeSchema data then onSubmit wallet connection tokenInfo data else Invalid.

End Client.

End RevokeAuthoritiesClient.

(* --------------------------------------------------------------------- *)
(** ** Freeze and unfreeze ([FreezeTokensClient]) *)
(* --------------------------------------------------------------------- *)

Module FreezeTokensClient.

Inductive Action : Type :=
| freeze
| unfreeze.

Definition is_freeze (a : Action) : bool :=
  match a with
  | freeze => true
  | unfreeze => false
  end.

Record FreezeFormData : Type := mkFreezeFormData {
  tokenAddress : string;
  targetAddress : string;
  action : Action
}.

(** The [accountInfo] state ([exists], [frozen]); [balance] is display only. *)
Record AccountInfo : Type := mkAccountInfo {
  exists_ : bool;
  frozen : bool
}.

Section Client.

Context `{SDK}.

(** [freezeSchema]: two valid addresses (the action is an enumeration). *)
Definition freezeSchema (data : FreezeFormData) : bool :=
  addressField (tokenAddress data) && addressField (targetAddress data).

(** [fetchAccountInfo(tokenAddress, targetAddress)]: the new [accountInfo]. *)
Definition fetchAccountInfo (connection : Connection)
    (tokenAddress targetAddress : string) : option AccountInfo :=
  match (mintPubkey <- newPublicKey tokenAddress ;;
         targetPubkey <- newPublicKey targetAddress ;;
         getAssociatedTokenAddress mintPubkey targetPubkey) with
  | Throw _ => None
  | Ok tokenAccount =>
      match getAccount connection tokenAccount with
      | Ok accountData => Some (mkAccountInfo true (isFrozen accountData))
      | Throw _ =>
          (* Account doesn't exist *)
          Some (mkAccountInfo false false)
      end
  end.

(** The [try] block of [onSubmit] up to [sendTransaction] (source lines 196-248). *)
Definition buildTransaction (payer : PublicKey) (connection : Connection)
    (data : FreezeFormData) : result Transaction :=
  mintPubkey <- newPublicKey (tokenAddress data) ;;
  targetPubkey <- newPublicKey (targetAddress data) ;;
  tokenAccount <- getAssociatedTokenAddress mintPubkey targetPubkey ;;
  let transaction := mkTransaction None None [] in
  (* Check if target token account exists *)
  let accountExists := resolved (getAccount connection tokenAccount) in
  transaction <-
    (if negb accountExists
     then
       if is_freeze (action data)
       then
         (* Create the account first if it doesn't exist and we're trying to freeze *)
         Ok (Transaction_add transaction
               (createAssociatedTokenAccountInstruction payer tokenAccount
                  targetPubkey mintPubkey))
       else Throw "Cannot unfreeze - token account does not exist"
     else Ok transaction) ;;
  (* Add freeze/unfreeze instruction *)
  if is_freeze (action data)
  then Ok (Transaction_add transaction
             (createFreezeAccountInstruction tokenAccount mintPubkey payer))
  else Ok (Transaction_add transaction
             (createThawAccountInstruction tokenAccount mintPubkey payer)).

(** [onSubmit(data)]. *)
Definition onSubmit (wallet : Wallet) (connection : Connection)
    (accountInfo : option AccountInfo) (data : FreezeFormData) : Outcome :=
  match publicKey wallet with
  | None => Rejected (Text connectWalletMessage)
  | Some payer =>
      (* Validate account state before proceeding *)
      let validation :=
        match accountInfo with
        | Some info =>
            if is_freeze (action data) && exists_ info && frozen info
            then Some "Cannot freeze account - it is already frozen."
            else if negb (is_freeze (action data))
                    && (negb (exists_ info) || negb (frozen info))
            then Some (if exists_ info
                       then "Cannot unfreeze account - it is already unfrozen."
                       else "Cannot unfreeze account - it does not exist.")
            else None
        | None => None
        end in
      match validation with
      | Some message => Rejected (Text message)
      | None => submitBuilt wallet connection (buildTransaction payer connection data)
      end
  end.

Definition handleSubmit (wallet : Wallet) (connection : Connection)
    (accountInfo : option AccountInfo) (data : FreezeFormData) : Outcome :=
  if freezeSchema data then onSubmit wallet connection accountInfo data else Invalid.

End Client.

End FreezeTokensClient.

(* --------------------------------------------------------------------- *)
(** ** Mint ([MintTokensClient]) *)
(* --------------------------------------------------------------------- *)

Module MintTokensClient.

Record MintFormData : Type := mkMintFormData {
  tokenAddress : string;
  recipientAddress : string;
  amount : JS.number
}.

Section Client.

Context `{SDK}.

(** [mintSchema]: valid addresses and a number [amount >= 0.000000001]. *)
Definition mintSchema (data : MintFormData) : bool :=
  addressField (tokenAddress data) && addressField (recipientAddress data)
  && negb (JS.is_nan (amount data))
  && negb (JS.ltb (amount data) JS.lit_1e_9).

(** The [try] block of [onSubmit] up to [sendTransaction] (source lines 279-323). *)
Definition buildTransaction (payer : PublicKey) (connection : Connection)
    (data : MintFormData) : result Transaction :=
  mintPubkey <- newPublicKey (tokenAddress data) ;;
  recipientPubkey <- newPublicKey (recipientAddress data) ;;
  (* Get token info for decimals *)
  mintInfo <- getParsedAccountInfo connection mintPubkey ;;
  match mintInfo with
  | Some (ParsedData parsed) =>
      let decimals := info_decimals parsed in
      (* Calculate mint amount with decimals *)
      let mintAmount := JS.floor (JS.mul (amount data) (JS.pow10_opt decimals)) in
      (* Get or create associated token account for recipient *)
      recipientTokenAccount <- getAssociatedTokenAddress mintPubkey recipientPubkey ;;
      let transaction := mkTransaction None None [] in
      (* Check if recipient token account exists *)
      let transaction :=
        match getAccount connection recipientTokenAccount with
        | Ok _ => transaction
        | Throw _ =>
            (* Account doesn't exist, create it *)
            Transaction_add transaction
              (createAssociatedTokenAccountInstruction payer recipientTokenAccount
                 recipientPubkey mintPubkey)
        end in
      (* Add mint instruction *)
      Ok (Transaction_add transaction
            (createMintToInstruction mintPubkey recipientTokenAccount payer mintAmount))
  | _ => Throw "Invalid token address"
  end.

(** [onSubmit(data)]. *)
Definition onSubmit (wallet : Wallet) (connection : Connection)
    (data : MintFormData) : Outcome :=
  match publicKey wallet with
  | None => Rejected (Text connectWalletMessage)
  | Some payer => submitBuilt wallet connection (buildTransaction payer connection data)
  end.

Definition handleSubmit (wallet : Wallet) (connection : Connection)
    (data : MintFormData) : Outcome :=
  if mintSchema data then onSubmit wallet connection data else Invalid.

End Client.

End MintTokensClient.

(* --------------------------------------------------------------------- *)
(** ** Burn ([BurnTokensClient]) *)
(* --------------------------------------------------------------------- *)

Module BurnTokensClient.

Record BurnFormData : Type := mkBurnFormData {
  tokenAddress : string;
  amount : JS.number
}.

(** The [tokenInfo] state; [name] and [supply] are display only. *)
Record TokenInfo : Type := mkTokenInfo {
  address : option string;
  symbol : option string;
  decimals : option nat;
  userBalance : option string;
  userBalanceRaw : option JS.number
}.

Section Client.

Context `{SDK}.

(** [burnSchema]: a valid address and a number [amount >= 0.000000001]. *)
Definition burnSchema (data : BurnFormData) : bool :=
  addressField (tokenAddress data)
  && negb (JS.is_nan (amount data))
  && negb (JS.ltb (amount data) JS.lit_1e_9).

(** [Math.floor(data.amount * Math.pow(10, tokenInfo.decimals))]. *)
Definition burnAmountRaw (info : TokenInfo) (data : BurnFormData) : JS.number :=
  JS.floor (JS.mul (amount data) (JS.pow10_opt (decimals info))).

(** [!tokenInfo.userBalanceRaw || tokenInfo.userBalanceRaw === 0]. *)
Definition noBalance (info : TokenInfo) : bool :=
  match userBalanceRaw info with
  | None => true
  | Some raw => JS.falsy raw || JS.strict_eqb raw (JS.of_Z 0)
  end.

(** [burnAmountRaw > tokenInfo.userBalanceRaw]. *)
Definition exceedsBalance (info : TokenInfo) (data : BurnFormData) : bool :=
  match userBalanceRaw info with
  | None => false
  | Some raw => JS.gtb (burnAmountRaw info data) raw
  end.

(** The [try] block of [onSubmit] up to [sendTransaction] (source lines 164-182). *)
Definition buildTransaction (payer : PublicKey) (info : TokenInfo)
    (data : BurnFormData) : result Transaction :=
  mintPubkey <- newPublicKey (tokenAddress data) ;;
  (* Get user's token account *)
  userTokenAccount <- getAssociatedTokenAddress mintPubkey payer ;;
  let transaction := mkTransaction None None [] in
  (* Add burn instruction *)
  Ok (Transaction_add transaction
        (createBurnInstruction userTokenAccount mintPubkey payer
           (burnAmountRaw info data))).

(** [onSubmit(data)]. *)
Definition onSubmit (wallet : Wallet) (connection : Connection)
    (tokenInfo : option TokenInfo) (data : BurnFormData) : Outcome :=
  match publicKey wallet with
  | None => Rejected (Text connectWalletMessage)
  | Some payer =>
      match tokenInfo with
      | None => Rejected (Text "Please enter a valid token address first.")
      | Some info =>
          if noBalance info
          then Rejected (Text "You have no tokens to burn for this token.")
          else
            (* Check if user has enough tokens *)
            if exceedsBalance info data
            then Rejected (InsufficientBalanceText (userBalance info) (symbol info)
                             (amount data))
            else submitBuilt wallet connection (buildTransaction payer info data)
      end
  end.

Definition handleSubmit (wallet : Wallet) (connection : Connection)
    (tokenInfo : option TokenInfo) (data : BurnFormData) : Outcome :=
  if burnSchema data then onSubmit wallet connection tokenInfo data else Invalid.

(** [maxBurnAmount]: the balance in display units, [0] without a balance. *)
Definition maxBurnAmount (tokenInfo : option TokenInfo) : JS.number :=
  match tokenInfo with
  | Some info =>
      match userBalanceRaw info, decimals info with
      | Some raw, Some d =>
          if JS.falsy raw then JS.of_Z 0 else JS.div raw (JS.pow10 d)
      | _, _ => JS.of_Z 0
      end
  | None => JS.of_Z 0
  end.

(** The [disabled] attribute of the submit button, the form's only one;
    [watched] is [form.watch('amount')], the amount [onSubmit] receives. *)
Definition submitDisabled (wallet : Wallet) (isBurning : bool)
    (tokenInfo : option TokenInfo) (watched : JS.number) : bool :=
  match publicKey wallet with None => true | Some _ => false end
  || isBurning
  || match tokenInfo with
     | None => true
     | Some info =>
         noBalance info
         || JS.leb watched (JS.of_Z 0)
         || JS.gtb watched (maxBurnAmount tokenInfo)
     end.

End Client.

End BurnTokensClient.

(* ===================================================================== *)
(** * The creation pages *)
(* ===================================================================== *)

(** [LAMPORTS_PER_SOL]. *)
Definition LAMPORTS_PER_SOL : JS.number := JS.of_Z 1000000000.

(** The literal [0.001]: the double [0x1.0624dd2f1a9fcp-10]. *)
Definition lit_0_001 : JS.number := JS.Fin 4611686018427388 (-62).

(** What a page shows through [alert]. *)
Inductive AlertMessage : Type :=
| AlertText (message : string)
  (** [`Insufficient balance. You have ${balanceInSol.toFixed(6)} SOL but
      need at least ${requiredInSol.toFixed(6)} SOL to create this token.`],
      with the two lamport figures it is computed from *)
| InsufficientBalanceAlert (balance requiredBalance : JS.number).

(** How a confirmed creation ends. *)
Inductive CreationOutcome : Type :=
  (** the handler returned at once *)
| Ignored
  (** an [alert], and no token address is set *)
| Alerted (alert : AlertMessage)
  (** [setCreatedToken(mintPubkey.toString())] *)
| Created (tokenAddress : string).

(** The fee state of a creation page. *)
Record FeeState : Type := mkFeeState {
  estimatedFee : option JS.number;
  feeError : bool
}.

(** The balance check both pages run before creating, when an estimate is
    present: the alert to show, if any. *)
Definition balanceCheck (connection : Connection) (payer : PublicKey)
    (fee : JS.number) : option AlertMessage :=
  match getBalance connection payer with
  | Ok balance =>
      (* Add small buffer for potential fee changes *)
      let requiredBalance := JS.add fee (JS.mul lit_0_001 LAMPORTS_PER_SOL) in
      if JS.ltb balance requiredBalance
      then Some (InsufficientBalanceAlert balance requiredBalance)
      else None
  | Throw _ => Some (AlertText "Unable to verify your balance. Please try again.")
  end.

(** The check as both handlers start it: [if (estimatedFee) { ... }]. *)
Definition balanceRefusal (connection : Connection) (payer : PublicKey)
    (fee : FeeState) : option AlertMessage :=
  match estimatedFee fee with
  | Some estimate =>
      (* [if (estimatedFee)]: [0] and [NaN] skip the check as [null] does *)
      if JS.falsy estimate then None
      else balanceCheck connection payer estimate
  | None => None
  end.

(* --------------------------------------------------------------------- *)
(** ** The token creator ([CoinCreator]) *)
(* --------------------------------------------------------------------- *)

Module CoinCreator.

Import CreateTokenWithUpload.

Section Page.

Context `{SDK}.

(** The [estimateFee] callback: the new fee state.  The estimator gets the
    watched form values and dummy texts. *)
Definition estimateFee (wallet : Wallet) (connection : Connection)
    (decimals : nat) (supply : JS.number) (revokeMint revokeFreeze : bool)
    (temporaryKeypair : PublicKey) : FeeState :=
  match publicKey wallet with
  | None => mkFeeState None false
  | Some payer =>
      let formData :=
        mkCoinFormData "dummy" "dummy" "" decimals supply None revokeMint revokeFreeze in
      match estimateCreateTokenFee connection payer formData temporaryKeypair with
      | Ok fee => mkFeeState (Some fee) false
      | Throw _ => mkFeeState None true
      end
  end.

(** The submit button's [disabled]. *)
Definition submitDisabled (wallet : Wallet) (isCreating loadingFee : bool)
    (fee : FeeState) : bool :=
  match publicKey wallet with
  | None => true
  | Some _ => isCreating || loadingFee || feeError fee
  end.

(** The alert of a failed [createToken] (source lines 163-183). *)
Definition creationAlert (message : string) : string :=
  if includes "insufficient funds" message
  then "Insufficient funds. Make sure you have enough SOL to cover transaction fees."
  else if includes "blockhash not found" message
  then "Transaction expired. Please try again."
  else if includes "User rejected" message
  then "Transaction was rejected by user."
  else if includes "R2 not configured" message
          || includes "Missing environment variables" message
  then "Image upload service is not configured. Please contact the administrator to set up Cloudflare R2 storage. You can create a token without an image for now."
  else if includes "Upload failed" message || includes "Failed to upload" message
  then "Failed to upload image to storage. Please check your internet connection and try again, or create a token without an image."
  else if includes "Metadata upload failed" message
  then "Failed to upload token metadata. Please check your internet connection and try again."
  else "Failed to create token: " ++ message.

(** [handleConfirm()], with the page's [publicKey] and a [sendTransaction]
    that may throw any value. *)
Definition handleConfirm_sending (publicKey : option PublicKey)
    (send : Transaction -> list PublicKey -> Attempt string)
    (connection : Connection) (pendingFormData : option CoinFormData)
    (fee : FeeState) (mintKeypair : PublicKey) : CreationOutcome :=
  match pendingFormData, publicKey with
  | Some data, Some payer =>
      (* Check if user has sufficient balance *)
      match balanceRefusal connection payer fee with
      | Some alert => Alerted alert
      | None =>
          match createToken_sending connection payer send data mintKeypair with
          | Returned created => Created (mintPubkey created)
          | Threw (ErrorInstance message) => Alerted (AlertText (creationAlert message))
          | Threw OtherValue =>
              Alerted (AlertText "Failed to create token. Please try again.")
          end
      end
  | _, _ => Ignored
  end.

(** [handleConfirm()] with the wallet of the model, whose [sendTransaction]
    rejects with [Error]s. *)
Definition handleConfirm (wallet : Wallet) (connection : Connection)
    (pendingFormData : option CoinFormData) (fee : FeeState)
    (mintKeypair : PublicKey) : CreationOutcome :=
  handleConfirm_sending (publicKey wallet)
    (fun transaction signers => attempted (sendTransaction wallet transaction signers))
    connection pendingFormData fee mintKeypair.

End Page.

End CoinCreator.

(* --------------------------------------------------------------------- *)
(** ** The ultra-cheap token creator ([UltraCheapTokenCreator]) *)
(* --------------------------------------------------------------------- *)

Module UltraCheapTokenCreator.

Import CreateTokenWithUpload.

Section Page.

Context `{SDK}.

(** The [estimateFee] callback. *)
Definition estimateFee (wallet : Wallet) (connection : Connection)
    (decimals : nat) (supply : JS.number) (temporaryKeypair : PublicKey) : FeeState :=
  match publicKey wallet with
  | None => mkFeeState None false
  | Some payer =>
      let formData := mkUltraCheapTokenData "dummy" "dummy" decimals supply in
      match estimateUltraCheapTokenFee connection payer formData temporaryKeypair with
      | Ok fee => mkFeeState (Some fee) false
      | Throw _ => mkFeeState None true
      end
  end.

(** The alert of a failed [createUltraCheapToken] (source lines 351-367). *)
Definition creationAlert (message : string) : string :=
  if includes "insufficient funds" message
  then "Insufficient funds. Make sure you have enough SOL to cover transaction fees and rent exemption."
  else if includes "blockhash not found" message
  then "Transaction expired. Please try again."
  else if includes "User rejected" message
  then "Transaction was rejected by user."
  else if includes "Transaction was not confirmed" message
  then "Transaction was not confirmed within the expected time. Please check the Solana explorer to see if your token was created."
  else "Failed to create ultra cheap token: " ++ message.

(** [onSubmit(data)], with the page's [publicKey] and a [sendTransaction]
    that may throw any value. *)
Definition onSubmit_sending (publicKey : option PublicKey)
    (send : Transaction -> list PublicKey -> Attempt string)
    (connection : Connection) (fee : FeeState) (data : UltraCheapTokenData)
    (mintKeypair : PublicKey) : CreationOutcome :=
  match publicKey with
  | None => Alerted (AlertText connectWalletMessage)
  | Some payer =>
      (* Check if user has sufficient balance *)
      match balanceRefusal connection payer fee with
      | Some alert => Alerted alert
      | None =>
          match createUltraCheapToken_sending connection payer send data mintKeypair with
          | Returned created => Created created
          | Threw (ErrorInstance message) => Alerted (AlertText (creationAlert message))
          | Threw OtherValue =>
              Alerted (AlertText "Failed to create ultra cheap token. Please try again.")
          end
      end
  end.

(** [onSubmit(data)] with the wallet of the model, whose [sendTransaction]
    rejects with [Error]s. *)
Definition onSubmit (wallet : Wallet) (connection : Connection)
    (fee : FeeState) (data : UltraCheapTokenData) (mintKeypair : PublicKey)
  : CreationOutcome :=
  onSubmit_sending (publicKey wallet)
    (fun transaction signers => attempted (sendTransaction wallet transaction signers))
    connection fee data mintKeypair.

End Page.

End UltraCheapTokenCreator.

(* ===================================================================== *)
(** * Token resolution and submit buttons of the tool pages *)
(* ===================================================================== *)

(** [accountInfo.value.data] as the [fetchTokenInfo] functions read it: the
    parsed record of a mint, or the message they throw. *)
Definition parsedMint (mintInfo : option AccountData) : result ParsedInfo :=
  match mintInfo with
  | Some (ParsedData parsedData) =>
      if negb (String.eqb (parsed_type parsedData) "mint")
      then Throw "Address is not a token mint"
      else Ok parsedData
  | _ => Throw "Invalid token address or not a token mint"
  end.

(* --------------------------------------------------------------------- *)
(** ** The freeze page ([FreezeTokensClient]) *)
(* --------------------------------------------------------------------- *)

Module FreezeTokensPage.

Import FreezeTokensClient.

(** The [tokenInfo] state without its display fields. *)
Record TokenInfo : Type := mkTokenInfo {
  address : option string;
  decimals : option nat
}.

Section Page.

Context `{SDK}.

(** [fetchTokenInfo(tokenAddress)]: the new [tokenInfo], or the message
    given to [setError] ([tokenInfo] and [accountInfo] become [null]). *)
Definition fetchTokenInfo (wallet : Wallet) (connection : Connection)
    (tokenAddress : string) : result TokenInfo :=
  mintPubkey <- newPublicKey tokenAddress ;;
  mintInfo <- getParsedAccountInfo connection mintPubkey ;;
  parsedData <- parsedMint mintInfo ;;
  let freezeAuthority := info_freezeAuthority parsedData in
  if falsy_string freezeAuthority
  then Throw "This token has no freeze authority - cannot freeze/unfreeze accounts"
  else if negb (same_key freezeAuthority (publicKey wallet))
  then Throw "You are not the freeze authority for this token"
  else Ok (mkTokenInfo (Some tokenAddress) (info_decimals parsedData)).

(** The submit button's [disabled] (source lines 570-577). *)
Definition submitDisabled (wallet : Wallet) (isProcessing : bool)
    (tokenInfo : option TokenInfo) (accountInfo : option AccountInfo)
    (selected : Action) : bool :=
  match publicKey wallet, tokenInfo, accountInfo with
  | Some _, Some _, Some info =>
      isProcessing
      || (is_freeze selected && exists_ info && frozen info)
      || (negb (is_freeze selected) && (negb (exists_ info) || negb (frozen info)))
  | _, _, _ => true
  end.

End Page.

End FreezeTokensPage.

(* --------------------------------------------------------------------- *)
(** ** The mint page ([MintTokensClient]) *)
(* --------------------------------------------------------------------- *)

Module MintTokensPage.

Record TokenInfo : Type := mkTokenInfo {
  address : option string;
  decimals : option nat
}.

Section Page.

Context `{SDK}.

(** [fetchTokenInfo(tokenAddress)]. *)
Definition fetchTokenInfo (wallet : Wallet) (connection : Connection)
    (tokenAddress : string) : result TokenInfo :=
  mintPubkey <- newPublicKey tokenAddress ;;
  mintInfo <- getParsedAccountInfo connection mintPubkey ;;
  parsedData <- parsedMint mintInfo ;;
  let mintAuthority := info_mintAuthority parsedData in
  if falsy_string mintAuthority
  then Throw "This token has no mint authority - cannot mint additional tokens"
  else if negb (same_key mintAuthority (publicKey wallet))
  then Throw "You are not the mint authority for this token"
  else Ok (mkTokenInfo (Some tokenAddress) (info_decimals parsedData)).

End Page.

End MintTokensPage.

(* --------------------------------------------------------------------- *)
(** ** The burn page ([BurnTokensClient]) *)
(* --------------------------------------------------------------------- *)

Module BurnTokensPage.

Import BurnTokensClient.

Section Page.

Context `{SDK}.

(** [(raw / Math.pow(10, decimals)).toLocaleString()], the balance shown. *)
Variable formatBalance : JS.number -> option nat -> string.

(** The symbol of the token's metadata account, when one is found and
    parsed. *)
Variable metadataSymbol : Connection -> PublicKey -> option string.

(** [fetchTokenInfo(tokenAddress)]: nothing without a wallet; otherwise
    the new [tokenInfo], or the message given to [setError]. *)
Definition fetchTokenInfo (wallet : Wallet) (connection : Connection)
    (tokenAddress : string) : option (result TokenInfo) :=
  match publicKey wallet with
  | None => None
  | Some owner =>
      Some
        (mintPubkey <- newPublicKey tokenAddress ;;
         mintInfo <- getParsedAccountInfo connection mintPubkey ;;
         parsedData <- parsedMint mintInfo ;;
         let decimals := info_decimals parsedData in
         (* Get user's token account balance *)
         userTokenAccount <- getAssociatedTokenAddress mintPubkey owner ;;
         let balance :=
           match getAccount connection userTokenAccount with
           | Ok accountData =>
               let userBalance := JS.of_Z (account_amount accountData) in
               (userBalance, formatBalance userBalance decimals)
           | Throw _ =>
               (* Account doesn't exist, balance is 0 *)
               (JS.of_Z 0, "0")
           end in
         Ok (mkTokenInfo (Some tokenAddress) (metadataSymbol connection mintPubkey)
               decimals (Some (snd balance)) (Some (fst balance))))
  end.

End Page.

End BurnTokensPage.

(* ===================================================================== *)
(** * The metadata upload: API route and client *)
(* ===================================================================== *)

(** [`${n}`] for an integer. *)
Definition decimal (n : Z) : string :=
  DecimalString.NilZero.string_of_int (Z.to_int n).

(** [`${v}`] for a value that may be [undefined]. *)
Definition rendered (v : option string) : string :=
  match v with
  | Some s => s
  | None => "undefined"
  end.

(** [a || b] on strings that may be [undefined]. *)
Definition or_else (a : option string) (b : string) : string :=
  match a with
  | Some s => if String.eqb s "" then b else s
  | None => b
  end.

(** [parts.join(', ')]. *)
Definition join (parts : list string) : string := String.concat ", " parts.

(** The fields of the multipart form the client posts and the route
    reads ([formData.get(...)], [null] when absent).  Text fields posted as
    files are outside the model. *)
Record Form : Type := mkForm {
  form_mintId : option string;
  form_name : option string;
  form_symbol : option string;
  form_description : option string;
  form_image : option File;
  form_file : option File
}.

(** The JSON bodies of the API, as the client types them: [{ error }],
    the creation result, and [{ url }].  [compressionStats] and the
    metadata echo of the result are not kept. *)
Inductive Json : Type :=
| ErrorJson (error : option string)
| ResultJson (success : bool) (error : option string) (metadataUrl : string)
    (imageUrl : option string)
| UrlJson (url : string).

(** [body.error]. *)
Definition json_error (body : Json) : option string :=
  match body with
  | ErrorJson error => error
  | ResultJson _ error _ _ => error
  | UrlJson _ => None
  end.

(** [body.url]. *)
Definition json_url (body : Json) : option string :=
  match body with
  | UrlJson url => Some url
  | _ => None
  end.

Record Response : Type := mkResponse {
  status : Z;
  statusText : option string;
  (** [await response.json()] *)
  json : result Json
}.

(** [response.ok]. *)
Definition ok (response : Response) : bool :=
  (200 <=? status response)%Z && (status response <=? 299)%Z.

(* --------------------------------------------------------------------- *)
(** ** The route ([app/api/upload/route.ts]) *)
(* --------------------------------------------------------------------- *)

Module UploadRoute.

(** The metadata document the route stores ([external_url] is [''],
    [attributes] is empty and [properties.category] is ['image']). *)
Record Metadata : Type := mkMetadata {
  md_name : string;
  md_symbol : string;
  md_description : string;
  md_image : string;
  (** [properties.files]: [uri] and [type] of each *)
  md_files : list (string * string)
}.

Inductive ObjectBody : Type :=
  (** the bytes of the posted image *)
| ImageBody (file : File)
  (** [new TextEncoder().encode(JSON.stringify(metadata, null, 2))] *)
| MetadataBody (metadata : Metadata).

(** One object written to the bucket. *)
Record PutObject : Type := mkPutObject {
  Key : string;
  Body : ObjectBody;
  ContentType : string;
  CacheControl : string
}.

(** A storage client: [awsClient.send(new PutObjectCommand(...))] or
    [r2Bucket.put(...)]; it stores the object or throws. *)
Definition Storage : Type := PutObject -> result unit.

(** What the route reads from its process and platform. *)
Record Runtime : Type := mkRuntime {
  NODE_ENV : option string;
  CF_PAGES : option string;
  CLOUDFLARE_R2_BUCKET_NAME : option string;
  CLOUDFLARE_R2_PUBLIC_URL : option string;
  CLOUDFLARE_R2_ENDPOINT : option string;
  CLOUDFLARE_R2_ACCESS_KEY_ID : option string;
  CLOUDFLARE_R2_SECRET_ACCESS_KEY : option string;
  (** [new S3Client(...)] after [import('@aws-sdk/client-s3')], when the
      import succeeds *)
  awsSdk : option Storage;
  (** [getCloudflareContext().env.R2_BUCKET] *)
  cloudflareBucket : result (option Storage);
  (** [process.env.R2_BUCKET] *)
  env_R2_BUCKET : option Storage
}.

(** [initAWSClient()]: the client it leaves in [awsClient] when it returns
    [true], nothing when it returns [false]. *)
Definition initAWSClient (runtime : Runtime) : option Storage :=
  let isLocal :=
    match NODE_ENV runtime with
    | Some mode => String.eqb mode "development"
    | None => false
    end && falsy_string (CF_PAGES runtime) in
  if isLocal then awsSdk runtime else None.

(** The bucket binding [POST] finds: that of the Cloudflare context, or
    [process.env.R2_BUCKET] when the context cannot be read. *)
Definition r2Bucket (runtime : Runtime) : option Storage :=
  match cloudflareBucket runtime with
  | Ok bucket => bucket
  | Throw _ => env_R2_BUCKET runtime
  end.

(** The names of the entries whose value is falsy. *)
Definition missing (entries : list (string * option string)) : list string :=
  map fst (filter (fun entry => falsy_string (snd entry)) entries).

Definition missingEnvVars (runtime : Runtime) : list string :=
  missing [("bucketName", CLOUDFLARE_R2_BUCKET_NAME runtime);
           ("publicUrl", CLOUDFLARE_R2_PUBLIC_URL runtime)].

Definition missingLocalVars (runtime : Runtime) : list string :=
  missing [("endpoint", CLOUDFLARE_R2_ENDPOINT runtime);
           ("accessKeyId", CLOUDFLARE_R2_ACCESS_KEY_ID runtime);
           ("secretAccessKey", CLOUDFLARE_R2_SECRET_ACCESS_KEY runtime)].

(** [validateTokenData({ name, symbol, description })]. *)
Definition validateTokenData (name symbol : option string) (description : string)
  : list string :=
  ((* Validate name *)
   match name with
   | Some text =>
       if String.eqb text "" then ["Name is required"]
       else if (512 <? String.length text)%nat
       then ["Name must be 512 characters or less"]
       else []
   | None => ["Name is required"]
   end
   ++
   (* Validate symbol *)
   match symbol with
   | Some text =>
       if String.eqb text "" then ["Symbol is required"]
       else if (512 <? String.length text)%nat
       then ["Symbol must be 512 characters or less"]
       else []
   | None => ["Symbol is required"]
   end
   ++
   (* Validate description (optional) *)
   (if negb (String.eqb description "") && (512 <? String.length description)%nat
    then ["Description must be 512 characters or less"]
    else []))%list.

(** [processImage(arrayBuffer, originalType)]: the content type; the
    bytes are returned as they came. *)
Definition processImage (imageFile : File) : string :=
  let originalSize := file_size imageFile in
  (* If the image is already small enough, use it as-is *)
  if (originalSize <=? 500 * 1024)%Z then file_type imageFile
  else if includes "webp" (file_type imageFile) then "image/webp"
  else file_type imageFile.

(** [NextResponse.json({ error }, { status })]. *)
Definition errorResponse (code : Z) (error : string) : Response :=
  mkResponse code None (Ok (ErrorJson (Some error))).

(** [uploadToR2(fileName, buffer, contentType, r2Bucket, useAWS)]. *)
Definition uploadToR2 (awsClient r2Bucket : option Storage) (object : PutObject)
  : result unit :=
  match awsClient, r2Bucket with
  | Some send, _ => send object
  | None, Some put => put object
  | None, None => Throw "No R2 client available"
  end.

Section Route.

Context `{SDK}.

(** [text.trim()] and [text.toUpperCase()]. *)
Variable trim : string -> string.
Variable toUpperCase : string -> string.

(** [validateMintId(mintId)]. *)
Definition validateMintId (mintId : string) : bool :=
  match newPublicKey mintId with
  | Ok publicKey =>
      (* Ensure it's exactly what solana spec expects *)
      if negb (String.eqb publicKey mintId) then false
      (* Ensure no bad chars *)
      else if includes "/" mintId || includes "\" mintId || includes ".." mintId
              || includes "." mintId
      then false
      else if (String.length mintId <? 32)%nat || (44 <? String.length mintId)%nat
      then false
      else true
  | Throw _ => false
  end.

(** The body of the [try] of [POST]: the response it returns or the
    message it throws, and the objects written on the way. *)
Definition POST_try (runtime : Runtime) (awsClient r2Bucket : option Storage)
    (request : result Form) : result Response * list PutObject :=
  match request with
  | Throw message => (Throw message, [])
  | Ok formData =>
      let description := or_else (form_description formData) "" in
      match form_mintId formData with
      | None => (Ok (errorResponse 400 "Mint ID is required"), [])
      | Some mintId =>
          if String.eqb mintId ""
          then (Ok (errorResponse 400 "Mint ID is required"), [])
          else if negb (validateMintId mintId)
          then (Ok (errorResponse 400
                      "Invalid mint ID. Must be a valid Solana public key."), [])
          else
            (* Validate token data *)
            let validationErrors :=
              validateTokenData (form_name formData) (form_symbol formData)
                description in
            if (0 <? List.length validationErrors)%nat
            then (Ok (errorResponse 400 (join validationErrors)), [])
            else
              (* the part after the image: create and upload the metadata *)
              let finish (imageUrl : string) (written : list PutObject) :=
                match form_name formData, form_symbol formData with
                | Some name, Some symbol =>
                    let metadata :=
                      mkMetadata (trim name) (toUpperCase (trim symbol))
                        (trim description) imageUrl
                        (if String.eqb imageUrl "" then []
                         else [(imageUrl,
                                if includes ".webp" imageUrl then "image/webp"
                                else if includes ".png" imageUrl then "image/png"
                                else if includes ".jpg" imageUrl then "image/jpeg"
                                else "image/jpeg")]) in
                    let metadataFileName := "tokens/" ++ mintId ++ "/metadata.json" in
                    let object :=
                      mkPutObject metadataFileName (MetadataBody metadata)
                        "application/json" "public, max-age=31536000" in
                    match uploadToR2 awsClient r2Bucket object with
                    | Throw message => (Throw message, written)
                    | Ok _ =>
                        let metadataUrl :=
                          rendered (CLOUDFLARE_R2_PUBLIC_URL runtime) ++ "/"
                          ++ metadataFileName in
                        (Ok (mkResponse 200 None
                               (Ok (ResultJson true None metadataUrl
                                      (if String.eqb imageUrl "" then None
                                       else Some imageUrl)))),
                         (written ++ [object])%list)
                    end
                | _, _ =>
                    (* [name.trim()] on [null] *)
                    (Throw "Cannot read properties of null (reading 'trim')", written)
                end in
              (* Handle image upload if provided *)
              match form_image formData with
              | Some imageFile =>
                  if negb (String.prefix "image/" (file_type imageFile))
                  then (Ok (errorResponse 400 "File must be an image"), [])
                  else if (1 * 1024 * 1024 <? file_size imageFile)%Z
                  then (Ok (errorResponse 400 "Image must be smaller than 1MB"), [])
                  else
                    let contentType := processImage imageFile in
                    let fileExtension :=
                      if includes "webp" contentType then "webp"
                      else if includes "png" contentType then "png"
                      else if includes "jpeg" contentType then "jpg"
                      else "img" in
                    let imageFileName :=
                      "tokens/" ++ mintId ++ "/image." ++ fileExtension in
                    let object :=
                      mkPutObject imageFileName (ImageBody imageFile) contentType
                        "public, max-age=31536000" in
                    match uploadToR2 awsClient r2Bucket object with
                    | Throw message => (Throw message, [])
                    | Ok _ =>
                        finish
                          (rendered (CLOUDFLARE_R2_PUBLIC_URL runtime) ++ "/"
                           ++ imageFileName)
                          [object]
                    end
              | None => finish "" []
              end
      end
  end.

(** [POST(request)]: the response, and the objects written to the
    bucket, in order.  [request] is [await request.formData()]. *)
Definition POST (runtime : Runtime) (request : result Form)
  : Response * list PutObject :=
  let awsClient := initAWSClient runtime in
  let r2Bucket := r2Bucket runtime in
  (* Check if we have either AWS client or R2 bucket *)
  match awsClient, r2Bucket with
  | None, None =>
      (errorResponse 500
         ("R2 not configured. Missing: "
          ++ join (missingEnvVars runtime ++ missingLocalVars runtime)
          ++ ". Check your environment variables or wrangler.jsonc file."),
       [])
  | _, _ =>
      match POST_try runtime awsClient r2Bucket request with
      | (Ok response, written) => (response, written)
      | (Throw message, written) =>
          (errorResponse 500 ("Failed to create token metadata: " ++ message),
           written)
      end
  end.

End Route.

End UploadRoute.

(* --------------------------------------------------------------------- *)
(** ** The client ([lib/uploadImage.ts]) *)
(* --------------------------------------------------------------------- *)

Module UploadImage.

Section Client.

Context `{SDK}.

(** [fetch('/api/upload', { method: 'POST', body: formData })]. *)
Variable fetch : Form -> result Response.

(** [validateMintId(mintId)]. *)
Definition validateMintId (mintId : string) : bool :=
  resolved (newPublicKey mintId).

(** [uploadImageToR2(file, mintId)]; the result is [result.url]. *)
Definition uploadImageToR2 (file : File) (mintId : string) : result (option string) :=
  (* Validate file type *)
  if negb (String.prefix "image/" (file_type file))
  then Throw "File must be an image"
  (* Validate file size (max 10MB) *)
  else if (10 * 1024 * 1024 <? file_size file)%Z
  then Throw "Image must be smaller than 10MB"
  else if negb (validateMintId mintId)
  then Throw "Invalid mint ID. Must be a valid Solana public key."
  else
    response <- fetch (mkForm (Some mintId) None None None None (Some file)) ;;
    if negb (ok response)
    then
      let errorMessage := "Upload failed with status " ++ decimal (status response) in
      Throw (match json response with
             | Ok errorData => or_else (json_error errorData) errorMessage
             | Throw _ => or_else (statusText response) errorMessage
             end)
    else
      result <- json response ;;
      Ok (json_url result).

(** [createTokenMetadata(tokenData)]. *)
Definition createTokenMetadata (tokenData : TokenMetadataRequest)
  : result TokenMetadataResult :=
  response <- fetch (mkForm (Some (req_mintId tokenData)) (Some (req_name tokenData))
                       (Some (req_symbol tokenData))
                       (Some (req_description tokenData)) (req_image tokenData)
                       None) ;;
  if negb (ok response)
  then
    errorData <- json response ;;
    Throw (or_else (json_error errorData)
             ("Server error: " ++ decimal (status response)))
  else
    result <- json response ;;
    match result with
    | ResultJson true _ metadataUrl imageUrl =>
        Ok (mkTokenMetadataResult metadataUrl imageUrl)
    | _ => Throw (or_else (json_error result) "Token metadata creation failed")
    end.

End Client.

End UploadImage.

(* --------------------------------------------------------------------- *)
(** ** The application: the client talking to the route *)
(* --------------------------------------------------------------------- *)

(** The library of [base] with another upload service. *)
Definition withUploadService (base : SDK)
    (upload : TokenMetadataRequest -> result TokenMetadataResult) : SDK :=
  {| newPublicKey := @newPublicKey base;
     findMetadataAddress := @findMetadataAddress base;
     getAssociatedTokenAddress := @getAssociatedTokenAddress base;
     compileMessage := @compileMessage base;
     createTokenMetadata := upload |}.

Section Multipart.

Import Stdlib.Strings.Ascii.

(** The line breaks of a field value in a [multipart/form-data] body, as
    [fetch] encodes a [FormData]: every CR not followed by LF and every LF
    not preceded by CR is sent as CR LF.  [afterCR] tells that the
    character before was a CR, whose CR LF is already written. *)
Fixpoint crlf (afterCR : bool) (text : string) : string :=
  match text with
  | EmptyString => EmptyString
  | String c rest =>
      if Ascii.eqb c "013"%char
      then String "013"%char (String "010"%char (crlf true rest))
      else if Ascii.eqb c "010"%char
      then if afterCR then crlf false rest
           else String "013"%char (String "010"%char (crlf false rest))
      else String c (crlf false rest)
  end.

Definition lineBreaks (text : string) : string := crlf false text.

(** The number of line breaks of a text that are not CR LF: the CRs not
    followed by LF and the LFs not preceded by CR. *)
Fixpoint loneBreaks (afterCR : bool) (text : string) : nat :=
  match text with
  | EmptyString => 0
  | String c rest =>
      if Ascii.eqb c "013"%char
      then match rest with
           | String next _ => if Ascii.eqb next "010"%char then 0 else 1
           | EmptyString => 1
           end + loneBreaks true rest
      else if Ascii.eqb c "010"%char
      then (if afterCR then 0 else 1) + loneBreaks false rest
      else loneBreaks false rest
  end%nat.

End Multipart.

(** The form as the route reads it from the request body the client
    sent: the text fields with their line breaks as encoded, the files
    as they are. *)
Definition transmitted (formData : Form) : Form :=
  mkForm (option_map lineBreaks (form_mintId formData))
    (option_map lineBreaks (form_name formData))
    (option_map lineBreaks (form_symbol formData))
    (option_map lineBreaks (form_description formData))
    (form_image formData) (form_file formData).

(** [fetch('/api/upload', { method: 'POST', body: formData })] answered by
    [POST] of the route on [runtime]. *)
Definition fetchRoute (base : SDK) (trim toUpperCase : string -> string)
    (runtime : UploadRoute.Runtime) (formData : Form) : result Response :=
  Ok (fst (@UploadRoute.POST base trim toUpperCase runtime
             (Ok (transmitted formData)))).

(** The library of [base] with [createTokenMetadata] of [lib/uploadImage.ts]
    talking to the route on [runtime]. *)
Definition withUploadRoute (base : SDK) (trim toUpperCase : string -> string)
    (runtime : UploadRoute.Runtime) : SDK :=
  withUploadService base
    (UploadImage.createTokenMetadata (fetchRoute base trim toUpperCase runtime)).

(* --------------------------------------------------------------------- *)
(** ** The form schema of the token creator ([coinSchema]) *)
(* --------------------------------------------------------------------- *)

Module CreationType.

Inductive t : Type := token | nft.

End CreationType.

(** [coinSchema] accepts the form values. *)
Definition coinSchema (creationType : CreationType.t)
    (data : CreateTokenWithUpload.CoinFormData) : bool :=
  let name := CreateTokenWithUpload.name data in
  let symbol := CreateTokenWithUpload.symbol data in
  let description := CreateTokenWithUpload.description data in
  let supply := CreateTokenWithUpload.supply data in
  (1 <=? String.length name)%nat && (String.length name <=? 512)%nat
  && (1 <=? String.length symbol)%nat && (String.length symbol <=? 512)%nat
  && (String.length description <=? 512)%nat
  && (CreateTokenWithUpload.decimals data <=? 9)%nat
  && negb (JS.is_nan supply)
  && negb (JS.ltb supply (JS.of_Z 1))
  && negb (JS.gtb supply (JS.of_Z (2 ^ 64 - 1)))
  && match CreateTokenWithUpload.imageFile data with
     | None => true (* Optional file *)
     | Some file => (file_size file <=? 1 * 1024 * 1024)%Z (* Max 1MB *)
     end
  && negb (match creationType, CreateTokenWithUpload.imageFile data with
           | CreationType.nft, None => true
           | _, _ => false
           end).

(* ===================================================================== *)
(** * The freeze page's mint list ([FreezeSelect]) *)
(* ===================================================================== *)

Module FreezeSelect.

(** [account.data] of an account the node returns. *)
Definition Buffer : Type := list Byte.byte.

(** The fields [fetchUserMints] reads of [MintLayout.decode(data)];
    [freezeAuthority] is [new PublicKey(parsedMint.freezeAuthority).toString()]
    and [supply] is [BigInt(parsedMint.supply.toString())]. *)
Record ParsedMint : Type := mkParsedMint {
  freezeAuthorityOption : Z;
  parsed_freezeAuthority : PublicKey;
  parsed_decimals : nat;
  parsed_supply : Z
}.

(** An entry of [validMints]; [mintAddress] is [mintAddresses[i]]. *)
Record ValidMint : Type := mkValidMint {
  mintAddress : option string;
  valid_decimals : nat;
  valid_supply : string;
  index : nat
}.

Record TokenMint : Type := mkTokenMint {
  address : option string;
  name : option string;
  symbol : option string;
  decimals : nat;
  supply : string;
  freezeAuthority : string
}.

(** The two calls of the connection that [fetchUserMints] makes. *)
Record Node : Type := mkNode {
  (** [getParsedTokenAccountsByOwner(owner, { programId })]: the
      [account.data.parsed.info.mint] of each account, in order *)
  getParsedTokenAccountsByOwner : PublicKey -> result (list string);
  (** [getMultipleAccountsInfo(keys)]: the [data] of each account, [null]
      for an account that does not exist *)
  getMultipleAccountsInfo : list PublicKey -> result (list (option Buffer))
}.

Definition CHUNK_SIZE : nat := 100.

(** [MintLayout.span]. *)
Definition MintLayout_span : nat := 82.

(** [Array.from(new Set(items))]: the first occurrence of each item, in
    order; [seen] holds the items already in the set. *)
Fixpoint unique (seen items : list string) : list string :=
  match items with
  | [] => []
  | item :: rest =>
      if existsb (String.eqb item) seen then unique seen rest
      else item :: unique (item :: seen) rest
  end.

(** [for (let i = 0; i < items.length; i += size) chunks.push(items.slice(i, i + size))];
    [rounds] bounds the number of iterations, [items] is what is left
    from [i] on. *)
Fixpoint slices {A : Type} (rounds size : nat) (items : list A) : list (list A) :=
  match rounds, items with
  | S rounds, _ :: _ => firstn size items :: slices rounds size (skipn size items)
  | _, _ => []
  end.

(** The chunks of [items]. *)
Definition chunked {A : Type} (items : list A) : list (list A) :=
  slices (List.length items) CHUNK_SIZE items.

(** [items.map(addr => new PublicKey(addr))]: the first failure throws. *)
Fixpoint publicKeys `{SDK} (items : list string) : result (list PublicKey) :=
  match items with
  | [] => Ok []
  | item :: rest =>
      key <- newPublicKey item ;;
      keys <- publicKeys rest ;;
      Ok (key :: keys)
  end.

(** [buffer.readUInt32LE(offset)]; [None] is its [RangeError]. *)
Fixpoint byteAt (data : Buffer) (offset : Z) : option Z :=
  match data with
  | [] => None
  | b :: rest =>
      if (offset =? 0)%Z then Some (Z.of_N (Byte.to_N b))
      else byteAt rest (offset - 1)
  end.

Definition readUInt32LE (data : Buffer) (offset : Z) : option Z :=
  if (offset <? 0)%Z then None
  else
    match byteAt data offset, byteAt data (offset + 1), byteAt data (offset + 2),
          byteAt data (offset + 3) with
    | Some b0, Some b1, Some b2, Some b3 =>
        Some (b0 + 256 * b1 + 65536 * b2 + 16777216 * b3)%Z
    | _, _, _, _ => None
    end.

(** [buffer.slice(start, end)] for [0 <= start <= end]. *)
Definition slice (data : Buffer) (start finish : Z) : Buffer :=
  firstn (Z.to_nat (finish - start)) (skipn (Z.to_nat start) data).

Section Component.

Context `{SDK}.

(** [MintLayout.decode(data)] with the conversions of its fields; a
    [Throw] is caught by the loop. *)
Variable decodeMint : Buffer -> result ParsedMint.

(** [(Number(supply) / Math.pow(10, decimals)).toLocaleString()]. *)
Variable formatSupply : Z -> nat -> string.

(** [bytes.toString('utf8').replace(/\0/g, '').trim()]. *)
Variable text : Buffer -> string.

(** The batch fetch: the answers of the chunks one after the other, a
    failed chunk filled with [null]s. *)
Definition fetchChunks (node : Node) (chunks : list (list PublicKey))
  : list (option Buffer) :=
  flat_map
    (fun chunk =>
       match getMultipleAccountsInfo node chunk with
       | Ok chunkInfos => chunkInfos
       | Throw _ =>
           (* Fill with nulls for this chunk *)
           repeat None (List.length chunk)
       end)
    chunks.

(** One round of the loop over [allMintInfos]: what it pushes to
    [validMints] and to [metadataPDAs]. *)
Definition examine (owner : PublicKey) (mintAddresses : list string)
    (mintPubkeys : list PublicKey) (i : nat) (mintInfo : option Buffer)
  : option (ValidMint * option PublicKey) :=
  match mintInfo with
  | None => None
  | Some data =>
      (* Ensure account data length matches mint layout size *)
      if (List.length data <? MintLayout_span)%nat then None
      else
        match decodeMint data with
        | Throw _ => None
        | Ok parsedMint =>
            (* Filter for tokens where user has the freeze authority *)
            if (freezeAuthorityOption parsedMint =? 0)%Z then None
            else if negb (String.eqb (parsed_freezeAuthority parsedMint) owner)
            then None
            else
              Some (mkValidMint (nth_error mintAddresses i)
                      (parsed_decimals parsedMint)
                      (formatSupply (parsed_supply parsedMint)
                         (parsed_decimals parsedMint))
                      i,
                    (* [mintPubkeys[i].toBuffer()] throws on [undefined],
                       after the push to [validMints] *)
                    option_map findMetadataAddress (nth_error mintPubkeys i))
        end
  end.

(** The loop over [allMintInfos], from index [i] on. *)
Fixpoint examineAll (owner : PublicKey) (mintAddresses : list string)
    (mintPubkeys : list PublicKey) (i : nat) (allMintInfos : list (option Buffer))
  : list (ValidMint * option PublicKey) :=
  match allMintInfos with
  | [] => []
  | mintInfo :: rest =>
      match examine owner mintAddresses mintPubkeys i mintInfo with
      | Some found => [found]
      | None => []
      end ++ examineAll owner mintAddresses mintPubkeys (S i) rest
  end.

(** The name and the symbol read from a metadata account. *)
Definition metadataFields (data : Buffer) : option string * option string :=
  if (100 <? List.length data)%nat
  then
    (* Basic metadata parsing *)
    let nameStart := 69%Z in
    match readUInt32LE data 65 with
    | None => (None, None)
    | Some nameLength =>
        let name :=
          if (0 <? nameLength)%Z && (nameLength <? 50)%Z
          then
            let parsedName := text (slice data nameStart (nameStart + nameLength)) in
            if String.eqb parsedName "" then None else Some parsedName
          else None in
        let symbolStart := (nameStart + nameLength + 4)%Z in
        match readUInt32LE data (nameStart + nameLength) with
        | None =>
            (* the read throws, the error is ignored, the name stays *)
            (name, None)
        | Some symbolLength =>
            let symbol :=
              if (0 <? symbolLength)%Z && (symbolLength <? 20)%Z
              then
                let parsedSymbol :=
                  text (slice data symbolStart (symbolStart + symbolLength)) in
                if String.eqb parsedSymbol "" then None else Some parsedSymbol
              else None in
            (name, symbol)
        end
    end
  else (None, None).

(** The loop over [validMints], from index [i] on. *)
Fixpoint processResults (owner : PublicKey) (metadataAccounts : list (option Buffer))
    (i : nat) (validMints : list ValidMint) : list TokenMint :=
  match validMints with
  | [] => []
  | mint :: rest =>
      let tokenMetadata :=
        match nth_error metadataAccounts i with
        | Some (Some data) => metadataFields data
        | _ => (None, None)
        end in
      mkTokenMint (mintAddress mint) (fst tokenMetadata) (snd tokenMetadata)
        (valid_decimals mint) (valid_supply mint) owner
      :: processResults owner metadataAccounts (S i) rest
  end.

(** [fetchUserMints()]: the new [tokens], or the message given to
    [setError]. *)
Definition fetchUserMints (node : Node) (publicKey : option PublicKey)
  : result (list TokenMint) :=
  match publicKey with
  | None => Ok []
  | Some owner =>
      (* Get all token accounts owned by the user *)
      tokenAccounts <- getParsedTokenAccountsByOwner node owner ;;
      (* Get unique mint addresses where user has tokens *)
      let mintAddresses := unique [] tokenAccounts in
      if (List.length mintAddresses =? 0)%nat then Ok []
      else
        mintPubkeys <- publicKeys mintAddresses ;;
        (* Batch fetch all mint accounts with minimal RPC calls *)
        let allMintInfos := fetchChunks node (chunked mintPubkeys) in
        let examined := examineAll owner mintAddresses mintPubkeys 0 allMintInfos in
        let validMints := map fst examined in
        let metadataPDAs :=
          flat_map (fun found => match snd found with
                                 | Some metadataPDA => [metadataPDA]
                                 | None => []
                                 end) examined in
        (* Batch fetch metadata (only for valid mints) with chunking *)
        let metadataAccounts :=
          if (0 <? List.length metadataPDAs)%nat
          then fetchChunks node (chunked metadataPDAs)
          else [] in
        Ok (processResults owner metadataAccounts 0 validMints)
  end.

(** *** Reference: the list read one account at a time

    What the list is meant to be, with [lookup] answering for one
    account: for each distinct mint of the owner's token accounts whose
    freeze authority is the owner, the mint with the name and symbol of
    its metadata account. *)

Definition heldMint (owner : PublicKey) (mintInfo : option Buffer) : option ParsedMint :=
  match mintInfo with
  | Some data =>
      if (List.length data <? MintLayout_span)%nat then None
      else
        match decodeMint data with
        | Ok parsedMint =>
            if (freezeAuthorityOption parsedMint =? 0)%Z then None
            else if String.eqb (parsed_freezeAuthority parsedMint) owner
            then Some parsedMint
            else None
        | Throw _ => None
        end
  | None => None
  end.

Definition tokenOf (lookup : PublicKey -> option Buffer) (owner : PublicKey)
    (mintAddress : string) : option TokenMint :=
  match newPublicKey mintAddress with
  | Ok mintPubkey =>
      match heldMint owner (lookup mintPubkey) with
      | Some parsedMint =>
          let tokenMetadata :=
            match lookup (findMetadataAddress mintPubkey) with
            | Some data => metadataFields data
            | None => (None, None)
            end in
          Some (mkTokenMint (Some mintAddress) (fst tokenMetadata) (snd tokenMetadata)
                  (parsed_decimals parsedMint)
                  (formatSupply (parsed_supply parsedMint) (parsed_decimals parsedMint))
                  owner)
      | None => None
      end
  | Throw _ => None
  end.

Definition listing (lookup : PublicKey -> option Buffer) (owner : PublicKey)
    (tokenAccounts : list string) : list TokenMint :=
  flat_map (fun mintAddress =>
              match tokenOf lookup owner mintAddress with
              | Some token => [token]
              | None => []
              end)
    (unique [] tokenAccounts).

(** What the first loop pushes for a mint address with its key at index
    [i], and the token a pushed entry ends up as, when every account is
    where its key is. *)
Definition pushed (owner : PublicKey) (lookup : PublicKey -> option Buffer)
    (i : nat) (row : string * PublicKey) : list (ValidMint * option PublicKey) :=
  match heldMint owner (lookup (snd row)) with
  | Some parsedMint =>
      [(mkValidMint (Some (fst row)) (parsed_decimals parsedMint)
          (formatSupply (parsed_supply parsedMint) (parsed_decimals parsedMint)) i,
        Some (findMetadataAddress (snd row)))]
  | None => []
  end.

Definition finished (owner : PublicKey) (lookup : PublicKey -> option Buffer)
    (found : ValidMint * option PublicKey) : TokenMint :=
  let tokenMetadata :=
    match found with
    | (_, Some metadataPDA) =>
        match lookup metadataPDA with
        | Some data => metadataFields data
        | None => (None, None)
        end
    | (_, None) => (None, None)
    end in
  mkTokenMint (mintAddress (fst found)) (fst tokenMetadata) (snd tokenMetadata)
    (valid_decimals (fst found)) (valid_supply (fst found)) owner.

End Component.

(** Reference: the four bytes [buffer.writeUInt32LE(n)] writes. *)
Definition byteOf (n : Z) : Byte.byte :=
  match Byte.of_N (Z.to_N (n mod 256)) with
  | Some b => b
  | None => Byte.x00
  end.

Definition writeUInt32LE (n : Z) : Buffer :=
  [byteOf n; byteOf (n / 256); byteOf (n / 65536); byteOf (n / 16777216)].

End FreezeSelect.

(* ===================================================================== *)
(** * A concrete environment *)
(* ===================================================================== *)

(** Stand-ins for the external collaborators, to run the embedded
    functions on concrete inputs. *)
Module Sample.

Definition sdk : SDK := {|
  newPublicKey := fun text =>
    if String.eqb text "" then Throw "Invalid public key input" else Ok text;
  findMetadataAddress := fun mint => "metadata/" ++ mint;
  getAssociatedTokenAddress := fun mint owner => Ok ("ata/" ++ mint ++ "/" ++ owner);
  compileMessage := fun transaction => mkMessage (JS.of_Z 2) transaction;
  createTokenMetadata := fun request =>
    Ok (mkTokenMetadataResult ("https://cdn.example/" ++ req_mintId request ++ ".json") None)
|}.

Definition alice : PublicKey := "Alice11111111111111111111111111111111111111".
Definition bob : PublicKey := "Bob1111111111111111111111111111111111111111".
Definition mintKey : PublicKey := "Mint111111111111111111111111111111111111111".
Definition temporaryKey : PublicKey := "Temp111111111111111111111111111111111111111".

(** Rent figures of a current cluster for 82, 165 and 607 bytes. *)
Definition rent (space : Z) : result JS.number :=
  Ok (JS.of_Z ((space + 128) * 6960)).

(** A mint with 9 decimals whose authorities both belong to [alice]; no
    token account exists yet. *)
Definition connection : Connection := {|
  getMinimumBalanceForRentExemption := rent;
  getLatestBlockhash := Ok (mkBlockhash "blockhash" (JS.of_Z 1000));
  getBalance := fun _ => Ok (JS.of_Z 1000000000);
  getFeeForMessage := Some (fun _ => Ok (Some (JS.of_Z 10000)));
  getFeeCalculatorForBlockhash := fun _ => Ok (Some (mkFeeCalculator (JS.of_Z 5000)));
  confirmTransaction := fun _ => Ok None;
  getParsedAccountInfo := fun _ =>
    Ok (Some (ParsedData (mkParsedInfo "mint" (Some 9%nat) "1000000000000000"
                            (Some alice) (Some alice))));
  getAccount := fun _ => Throw "TokenAccountNotFoundError"
|}.

(** The same node when every token account exists, holding [amount], frozen or not. *)
Definition connection_with_account (amount : Z) (frozen : bool) : Connection := {|
  getMinimumBalanceForRentExemption := rent;
  getLatestBlockhash := getLatestBlockhash connection;
  getBalance := getBalance connection;
  getFeeForMessage := getFeeForMessage connection;
  getFeeCalculatorForBlockhash := getFeeCalculatorForBlockhash connection;
  confirmTransaction := confirmTransaction connection;
  getParsedAccountInfo := getParsedAccountInfo connection;
  getAccount := fun _ => Ok (mkTokenAccount amount frozen)
|}.

(** The same node when [getFeeForMessage] resolves with a [null] value. *)
Definition connection_without_fee_quote : Connection := {|
  getMinimumBalanceForRentExemption := rent;
  getLatestBlockhash := getLatestBlockhash connection;
  getBalance := getBalance connection;
  getFeeForMessage := Some (fun _ => Ok None);
  getFeeCalculatorForBlockhash := getFeeCalculatorForBlockhash connection;
  confirmTransaction := confirmTransaction connection;
  getParsedAccountInfo := getParsedAccountInfo connection;
  getAccount := getAccount connection
|}.

(** A client library without [getFeeForMessage], whose fee calculator
    resolves with a [null] value. *)
Definition connection_legacy_without_fee_quote : Connection := {|
  getMinimumBalanceForRentExemption := rent;
  getLatestBlockhash := getLatestBlockhash connection;
  getBalance := getBalance connection;
  getFeeForMessage := None;
  getFeeCalculatorForBlockhash := fun _ => Ok None;
  confirmTransaction := confirmTransaction connection;
  getParsedAccountInfo := getParsedAccountInfo connection;
  getAccount := getAccount connection
|}.

Definition wallet : Wallet := {|
  publicKey := Some alice;
  sendTransaction := fun _ _ => Ok "signature"
|}.

Definition coin (decimals : nat) (supply : Z) (revokeMint revokeFreeze : bool)
  : CreateTokenWithUpload.CoinFormData :=
  CreateTokenWithUpload.mkCoinFormData "Token" "TKN" "A token" decimals
    (JS.of_Z supply) None revokeMint revokeFreeze.

Definition ultraCheap (decimals : nat) (supply : Z)
  : CreateTokenWithUpload.UltraCheapTokenData :=
  CreateTokenWithUpload.mkUltraCheapTokenData "Token" "TKN" decimals (JS.of_Z supply).

End Sample.

(** Further stand-ins: services that fail. *)
Module SampleFailures.

Import Sample.

(** The upload service answers with an error. *)
Definition sdk_upload_down : SDK := {|
  newPublicKey := @newPublicKey sdk;
  findMetadataAddress := @findMetadataAddress sdk;
  getAssociatedTokenAddress := @getAssociatedTokenAddress sdk;
  compileMessage := @compileMessage sdk;
  createTokenMetadata := fun _ => Throw "Server error: 503"
|}.

(** The transaction lands with an on-chain error. *)
Definition connection_confirm_error : Connection := {|
  getMinimumBalanceForRentExemption := rent;
  getLatestBlockhash := getLatestBlockhash connection;
  getBalance := getBalance connection;
  getFeeForMessage := getFeeForMessage connection;
  getFeeCalculatorForBlockhash := getFeeCalculatorForBlockhash connection;
  confirmTransaction := fun _ => Ok (Some "InstructionError");
  getParsedAccountInfo := getParsedAccountInfo connection;
  getAccount := getAccount connection
|}.

(** The node answers every balance request with [lamports]. *)
Definition connection_with_balance (lamports : Z) : Connection := {|
  getMinimumBalanceForRentExemption := rent;
  getLatestBlockhash := getLatestBlockhash connection;
  getBalance := fun _ => Ok (JS.of_Z lamports);
  getFeeForMessage := getFeeForMessage connection;
  getFeeCalculatorForBlockhash := getFeeCalculatorForBlockhash connection;
  confirmTransaction := confirmTransaction connection;
  getParsedAccountInfo := getParsedAccountInfo connection;
  getAccount := getAccount connection
|}.

(** The node rejects balance requests. *)
Definition connection_without_balance : Connection := {|
  getMinimumBalanceForRentExemption := rent;
  getLatestBlockhash := getLatestBlockhash connection;
  getBalance := fun _ => Throw "429 Too Many Requests: insufficient funds for rpc";
  getFeeForMessage := getFeeForMessage connection;
  getFeeCalculatorForBlockhash := getFeeCalculatorForBlockhash connection;
  confirmTransaction := confirmTransaction connection;
  getParsedAccountInfo := getParsedAccountInfo connection;
  getAccount := getAccount connection
|}.

(** The user declines in the wallet. *)
Definition wallet_declining : Wallet := {|
  publicKey := Some alice;
  sendTransaction := fun _ _ => Throw "User rejected the request."
|}.

End SampleFailures.

(** Stand-ins for the upload route, the wallet of another key and the
    node of the mint list. *)
Module SampleServices.

Import Sample.

Definition wallet_of (key : PublicKey) : Wallet := {|
  publicKey := Some key;
  sendTransaction := fun _ _ => Ok "signature"
|}.

(** Text functions that leave these sample texts as they are. *)
Definition trim (text : string) : string := text.
Definition toUpperCase (text : string) : string := text.

Definition picture : File := mkFile "image/png" 2048.

(** A worker with a bucket binding that stores everything. *)
Definition runtime : UploadRoute.Runtime := {|
  UploadRoute.NODE_ENV := Some "production";
  UploadRoute.CF_PAGES := Some "1";
  UploadRoute.CLOUDFLARE_R2_BUCKET_NAME := Some "easymint";
  UploadRoute.CLOUDFLARE_R2_PUBLIC_URL := Some "https://cdn.example";
  UploadRoute.CLOUDFLARE_R2_ENDPOINT := None;
  UploadRoute.CLOUDFLARE_R2_ACCESS_KEY_ID := None;
  UploadRoute.CLOUDFLARE_R2_SECRET_ACCESS_KEY := None;
  UploadRoute.awsSdk := None;
  UploadRoute.cloudflareBucket := Ok (Some (fun _ => Ok tt));
  UploadRoute.env_R2_BUCKET := None
|}.

(** The same worker when the bucket stores images and fails on metadata. *)
Definition runtime_metadata_down : UploadRoute.Runtime := {|
  UploadRoute.NODE_ENV := Some "production";
  UploadRoute.CF_PAGES := Some "1";
  UploadRoute.CLOUDFLARE_R2_BUCKET_NAME := Some "easymint";
  UploadRoute.CLOUDFLARE_R2_PUBLIC_URL := Some "https://cdn.example";
  UploadRoute.CLOUDFLARE_R2_ENDPOINT := None;
  UploadRoute.CLOUDFLARE_R2_ACCESS_KEY_ID := None;
  UploadRoute.CLOUDFLARE_R2_SECRET_ACCESS_KEY := None;
  UploadRoute.awsSdk := None;
  UploadRoute.cloudflareBucket :=
    Ok (Some (fun object =>
                match UploadRoute.Body object with
                | UploadRoute.ImageBody _ => Ok tt
                | UploadRoute.MetadataBody _ => Throw "bucket unavailable"
                end));
  UploadRoute.env_R2_BUCKET := None
|}.

(** A deployment without any storage configuration. *)
Definition runtime_unconfigured : UploadRoute.Runtime := {|
  UploadRoute.NODE_ENV := Some "production";
  UploadRoute.CF_PAGES := None;
  UploadRoute.CLOUDFLARE_R2_BUCKET_NAME := None;
  UploadRoute.CLOUDFLARE_R2_PUBLIC_URL := None;
  UploadRoute.CLOUDFLARE_R2_ENDPOINT := None;
  UploadRoute.CLOUDFLARE_R2_ACCESS_KEY_ID := None;
  UploadRoute.CLOUDFLARE_R2_SECRET_ACCESS_KEY := None;
  UploadRoute.awsSdk := None;
  UploadRoute.cloudflareBucket := Throw "getCloudflareContext is not available";
  UploadRoute.env_R2_BUCKET := None
|}.

(** The form the client posts for a token with a picture. *)
Definition posted : Form :=
  mkForm (Some mintKey) (Some "Token") (Some "TKN") (Some "A token") (Some picture) None.

(** A token request with a picture. *)
Definition coin_with_picture : CreateTokenWithUpload.CoinFormData :=
  CreateTokenWithUpload.mkCoinFormData "Token" "TKN" "A token" 9 (JS.of_Z 1000)
    (Some picture) false false.

(** A description of 512 characters in two lines: a line feed and 511
    letters. *)
Definition two_lines : string :=
  string_of_list_ascii
    (Ascii.ascii_of_nat 10 :: repeat (Ascii.ascii_of_nat 97) 511).

Definition coin_two_lines : CreateTokenWithUpload.CoinFormData :=
  CreateTokenWithUpload.mkCoinFormData "Token" "TKN" two_lines 9 (JS.of_Z 1000)
    (Some picture) false false.

(** Mint accounts: [mintKey] is frozen by [alice], [temporaryKey] by
    [bob]; the bytes stand for the account data. *)
Definition mintData (marker : Byte.byte) : FreezeSelect.Buffer := repeat marker 82.

Definition decodeMint (data : FreezeSelect.Buffer) : result FreezeSelect.ParsedMint :=
  match data with
  | Byte.x01 :: _ => Ok (FreezeSelect.mkParsedMint 1 alice 9 1000000000000)
  | Byte.x02 :: _ => Ok (FreezeSelect.mkParsedMint 1 bob 6 5000000)
  | _ => Throw "Invalid mint account"
  end.

Definition formatSupply (supply : Z) (decimals : nat) : string :=
  decimal (supply / 10 ^ Z.of_nat decimals).

(** The text of ASCII bytes, without the padding zeros. *)
Definition text (bytes : FreezeSelect.Buffer) : string :=
  string_of_list_byte (filter (fun b => negb (Byte.eqb b Byte.x00)) bytes).

(** A metadata account with the name "EasyMint" and the symbol "EZM". *)
Definition nameBytes : FreezeSelect.Buffer := list_byte_of_string "EasyMint".
Definition symbolBytes : FreezeSelect.Buffer := list_byte_of_string "EZM".

Definition metadataAccount : FreezeSelect.Buffer :=
  (repeat Byte.x04 65 ++ FreezeSelect.writeUInt32LE 8 ++ nameBytes
   ++ FreezeSelect.writeUInt32LE 3 ++ symbolBytes ++ repeat Byte.x00 40)%list.

Definition lookup (key : PublicKey) : option FreezeSelect.Buffer :=
  if String.eqb key mintKey then Some (mintData Byte.x01)
  else if String.eqb key temporaryKey then Some (mintData Byte.x02)
  else if String.eqb key ("metadata/" ++ mintKey) then Some metadataAccount
  else None.

(** [alice] holds two accounts of [mintKey] and one of [temporaryKey]. *)
Definition node : FreezeSelect.Node := {|
  FreezeSelect.getParsedTokenAccountsByOwner := fun _ =>
    Ok [mintKey; temporaryKey; mintKey];
  FreezeSelect.getMultipleAccountsInfo := fun keys => Ok (map lookup keys)
|}.

End SampleServices.

(** Case analysis on the awaited call at the head of a hypothesis. *)
Ltac await_in H :=
  match type of H with
  | bind ?e _ = _ =>
      let r := fresh "awaited" in
      destruct e eqn:r; simpl bind in H; [| discriminate H]
  | catch ?e _ = _ =>
      let r := fresh "awaited" in
      destruct e eqn:r; simpl catch in H
  end.

(* ===================================================================== *)
(** * Facts about the number model *)
(* ===================================================================== *)

Local Open Scope Z_scope.

Lemma bitlen_below_2_53 (m : Z) : 0 <= m < 2 ^ 53 -> JS.bitlen m <= 53.
Proof.
  intros [Hlo Hhi]. unfold JS.bitlen.
  destruct (Z.eqb_spec m 0) as [-> | Hne]; [lia |].
  rewrite Z.abs_eq by lia.
  assert (Z.log2 m < 53) by (apply Z.log2_lt_pow2; lia).
  lia.
Qed.

(** Rounding leaves a mantissa of at most 53 bits as it is. *)
Lemma round53_exact (m e : Z) :
  0 <= m < 2 ^ 53 -> JS.round53 (JS.Fin m e) = JS.Fin m e.
Proof.
  intros Hm. unfold JS.round53.
  pose proof (bitlen_below_2_53 m Hm) as Hb.
  destruct (Z.leb_spec (JS.bitlen m - 53) 0); [reflexivity | lia].
Qed.

Lemma of_Z_exact (n : Z) : 0 <= n < 2 ^ 53 -> JS.of_Z n = JS.Fin n 0.
Proof. intros Hn. unfold JS.of_Z. now apply round53_exact. Qed.

(** The product of two non-negative integers is exact below [2^53]. *)
Lemma mul_integers_exact (a b : Z) :
  0 <= a -> 0 <= b -> a * b < 2 ^ 53 ->
  JS.mul (JS.Fin a 0) (JS.Fin b 0) = JS.Fin (a * b) 0.
Proof.
  intros Ha Hb Hab. unfold JS.mul. simpl Z.add.
  apply round53_exact. nia.
Qed.

Lemma pow10_exact (d : nat) :
  10 ^ Z.of_nat d < 2 ^ 53 -> JS.pow10 d = JS.Fin (10 ^ Z.of_nat d) 0.
Proof.
  intros Hd. unfold JS.pow10. apply of_Z_exact.
  split; [apply Z.pow_nonneg; lia | exact Hd].
Qed.

(** [supply * Math.pow(10, decimals)] for an integer supply, when the
    product stays below [2^53]. *)
Lemma scaled_supply_exact (n : Z) (d : nat) :
  0 < n -> n * 10 ^ Z.of_nat d < 2 ^ 53 ->
  JS.mul (JS.of_Z n) (JS.pow10 d) = JS.Fin (n * 10 ^ Z.of_nat d) 0.
Proof.
  intros Hn Hnd.
  assert (Hp : 0 < 10 ^ Z.of_nat d) by (apply Z.pow_pos_nonneg; lia).
  rewrite of_Z_exact by nia.
  rewrite pow10_exact by nia.
  apply mul_integers_exact; lia.
Qed.

Lemma to_integer_of_integer (n : Z) : JS.to_integer (JS.Fin n 0) = Some n.
Proof. unfold JS.to_integer. simpl. f_equal. lia. Qed.

(** The model against the kernel's binary64 arithmetic, on the values the
    lemmas below evaluate. *)
Example mul_agrees_with_binary64_rounded :
  PrimFloat.eqb
    (JS.to_binary64 (JS.mul (JS.of_Z 999999999999) (JS.pow10 7)))
    (PrimFloat.mul (JS.to_binary64 (JS.of_Z 999999999999))
                   (JS.to_binary64 (JS.pow10 7))) = true.
Proof. vm_compute. reflexivity. Qed.

Example mul_agrees_with_binary64_exact :
  PrimFloat.eqb
    (JS.to_binary64 (JS.mul (JS.of_Z 1000000) (JS.pow10 9)))
    (PrimFloat.mul (JS.to_binary64 (JS.of_Z 1000000))
                   (JS.to_binary64 (JS.pow10 9))) = true.
Proof. vm_compute. reflexivity. Qed.

Example mul_agrees_with_binary64_fraction :
  PrimFloat.eqb
    (JS.to_binary64 (JS.mul JS.lit_0_01 (JS.of_Z 1000000000)))
    (PrimFloat.mul (JS.to_binary64 JS.lit_0_01)
                   (JS.to_binary64 (JS.of_Z 1000000000))) = true.
Proof. vm_compute. reflexivity. Qed.

Example add_agrees_with_binary64 :
  PrimFloat.eqb
    (JS.to_binary64 (JS.add (JS.Fin 3602879701896397 (-55)) (JS.Fin 3602879701896397 (-54))))
    (PrimFloat.add (JS.to_binary64 (JS.Fin 3602879701896397 (-55)))
                   (JS.to_binary64 (JS.Fin 3602879701896397 (-54)))) = true.
Proof. vm_compute. reflexivity. Qed.

Example div_agrees_with_binary64 :
  PrimFloat.eqb
    (JS.to_binary64 (JS.div (JS.of_Z 9007199254740987) (JS.pow10 1)))
    (PrimFloat.div (JS.to_binary64 (JS.of_Z 9007199254740987))
                   (JS.to_binary64 (JS.pow10 1))) = true
  /\ PrimFloat.eqb
       (JS.to_binary64 (JS.div (JS.of_Z 5000000000) (JS.pow10 9)))
       (PrimFloat.div (JS.to_binary64 (JS.of_Z 5000000000))
                      (JS.to_binary64 (JS.pow10 9))) = true
  /\ PrimFloat.eqb
       (JS.to_binary64 (JS.div (JS.of_Z 1) (JS.of_Z 3)))
       (PrimFloat.div (JS.to_binary64 (JS.of_Z 1)) (JS.to_binary64 (JS.of_Z 3)))
     = true
  /\ PrimFloat.eqb
       (JS.to_binary64
          (JS.mul (JS.div (JS.of_Z 9007199254740987) (JS.pow10 1)) (JS.pow10 1)))
       (PrimFloat.mul
          (PrimFloat.div (JS.to_binary64 (JS.of_Z 9007199254740987))
                         (JS.to_binary64 (JS.pow10 1)))
          (JS.to_binary64 (JS.pow10 1))) = true.
Proof. repeat split; vm_compute; reflexivity. Qed.

(** The Metaplex protocol fee [0.01 * 1000000000] is ten million lamports. *)
Example metaplexProtocolFee_value :
  JS.to_integer (JS.mul JS.lit_0_01 (JS.of_Z 1000000000)) = Some 10000000.
Proof. vm_compute. reflexivity. Qed.

(* ===================================================================== *)
(** * Token creation and its fee estimate *)
(* ===================================================================== *)

Local Open Scope string_scope.

Section CreateToken.

Import CreateTokenWithUpload.

Context `{SDK}.

(** The two builders are one function of their arguments. *)
Lemma estimate_build_is_create_build
    (payer mintKeypair metadataPDA associatedTokenAddress : PublicKey)
    (mintRent : JS.number) (metadataUri blockhash : string) (data : CoinFormData) :
  estimateCreateTokenFee_build payer mintKeypair metadataPDA associatedTokenAddress
    mintRent metadataUri blockhash data
  = createToken_build payer mintKeypair metadataPDA associatedTokenAddress
      mintRent metadataUri blockhash data.
Proof. reflexivity. Qed.

(** The instruction types of the transaction [createToken] builds. *)
Lemma createToken_build_shape
    (payer mintKeypair metadataPDA associatedTokenAddress : PublicKey)
    (mintRent : JS.number) (metadataUri blockhash : string) (data : CoinFormData) :
  shape (createToken_build payer mintKeypair metadataPDA associatedTokenAddress
           mintRent metadataUri blockhash data)
  = ([CreateAccount; InitializeMint; CreateMetadata; CreateAssociatedAccount; MintTo]
     ++ (if revokeMintAuthority data then [SetAuthority AuthorityType.MintTokens None] else [])
     ++ (if revokeFreezeAuthority data then [SetAuthority AuthorityType.FreezeAccount None] else []))%list.
Proof.
  unfold createToken_build, shape.
  destruct (revokeMintAuthority data), (revokeFreezeAuthority data); reflexivity.
Qed.

(** What [createToken_transaction] returns when it returns. *)
Lemma createToken_transaction_inv (connection : Connection) (payer : PublicKey)
    (data : CoinFormData) (mintKeypair : PublicKey)
    (prepared : Transaction * option string) :
  createToken_transaction connection payer data mintKeypair = Ok prepared ->
  exists mintRent associatedTokenAddress uploaded latest,
    getMinimumBalanceForRentExemptMint connection = Ok mintRent
    /\ getAssociatedTokenAddress mintKeypair payer = Ok associatedTokenAddress
    /\ createTokenMetadata
         (mkTokenMetadataRequest mintKeypair (name data) (symbol data)
            (description data) (imageFile data)) = Ok uploaded
    /\ getLatestBlockhash connection = Ok latest
    /\ fst prepared
       = createToken_build payer mintKeypair (findMetadataAddress mintKeypair)
           associatedTokenAddress mintRent (metadataUrl uploaded) (blockhash latest) data.
Proof.
  unfold createToken_transaction. intros Hrun.
  await_in Hrun. await_in Hrun.
  destruct (createTokenMetadata _) as [uploaded | message] eqn:Hupload;
    simpl in Hrun; [| discriminate Hrun].
  await_in Hrun.
  injection Hrun as <-.
  exists a, a0, uploaded, a1. repeat split; assumption.
Qed.

(** What [estimateCreateTokenFee_transaction] returns when it returns. *)
Lemma estimateCreateTokenFee_transaction_inv (connection : Connection)
    (payer : PublicKey) (data : CoinFormData) (mintKeypair : PublicKey)
    (l : EstimateLocals) :
  estimateCreateTokenFee_transaction connection payer data mintKeypair = Ok l ->
  exists associatedTokenAddress,
    getAssociatedTokenAddress mintKeypair payer = Ok associatedTokenAddress
    /\ getMinimumBalanceForRentExemptMint connection = Ok (el_mintRent l)
    /\ el_transaction l
       = createToken_build payer mintKeypair (findMetadataAddress mintKeypair)
           associatedTokenAddress (el_mintRent l) placeholderMetadataUri
           (el_blockhash l) data.
Proof.
  unfold estimateCreateTokenFee_transaction. intros Hrun.
  await_in Hrun. await_in Hrun. await_in Hrun. await_in Hrun. await_in Hrun.
  injection Hrun as <-. simpl.
  exists a2. repeat split; try assumption.
Qed.

(** The blockhash is no part of the instructions. *)
Lemma createToken_build_instructions_blockhash
    (payer mintKeypair metadataPDA associatedTokenAddress : PublicKey)
    (mintRent : JS.number) (metadataUri blockhash blockhash' : string)
    (data : CoinFormData) :
  instructions (createToken_build payer mintKeypair metadataPDA associatedTokenAddress
                  mintRent metadataUri blockhash data)
  = instructions (createToken_build payer mintKeypair metadataPDA associatedTokenAddress
                    mintRent metadataUri blockhash' data).
Proof.
  unfold createToken_build.
  destruct (revokeMintAuthority data), (revokeFreezeAuthority data); reflexivity.
Qed.

(** C1. For one CreateToken request, the transaction the fee estimator
    builds and the transaction built for submission have the same number
    of instructions, of the same types in the same order.  Both are the
    same builder applied to the same request: the estimator's with its
    temporary mint key and the placeholder URI, the submission's with its
    own mint key and the uploaded URI.  When the two keys, the mint rent
    and the URI coincide, the two instruction sequences are equal. *)
Theorem estimate_submit_parity
    (estimateConnection submitConnection : Connection) (payer : PublicKey)
    (data : CoinFormData) (temporaryKeypair mintKeypair : PublicKey)
    (l : EstimateLocals) (prepared : Transaction * option string) :
  estimateCreateTokenFee_transaction estimateConnection payer data temporaryKeypair = Ok l ->
  createToken_transaction submitConnection payer data mintKeypair = Ok prepared ->
  shape (el_transaction l) = shape (fst prepared)
  /\ List.length (instructions (el_transaction l))
     = List.length (instructions (fst prepared))
  /\ (exists temporaryAccount associatedTokenAddress estimateRent mintRent uploaded
             estimateBlockhash blockhash,
        createTokenMetadata
          (mkTokenMetadataRequest mintKeypair (name data) (symbol data)
             (description data) (imageFile data)) = Ok uploaded
        /\ el_transaction l
           = createToken_build payer temporaryKeypair
               (findMetadataAddress temporaryKeypair) temporaryAccount estimateRent
               placeholderMetadataUri estimateBlockhash data
        /\ fst prepared
           = createToken_build payer mintKeypair (findMetadataAddress mintKeypair)
               associatedTokenAddress mintRent (metadataUrl uploaded) blockhash data
        /\ (temporaryKeypair = mintKeypair ->
            getMinimumBalanceForRentExemptMint estimateConnection
            = getMinimumBalanceForRentExemptMint submitConnection ->
            metadataUrl uploaded = placeholderMetadataUri ->
            instructions (el_transaction l) = instructions (fst prepared))).
Proof.
  intros Hestimate Hsubmit.
  apply estimateCreateTokenFee_transaction_inv in Hestimate
    as (ataE & HataE & HrentE & HtxE).
  apply createToken_transaction_inv in Hsubmit
    as (rentC & ataC & uploaded & latest & HrentC & HataC & Hupload & _ & HtxC).
  assert (Hshape : shape (el_transaction l) = shape (fst prepared)).
  { rewrite HtxE, HtxC, !createToken_build_shape. reflexivity. }
  split; [exact Hshape |].
  split.
  { unfold shape in Hshape.
    rewrite <- (List.length_map kind (instructions (el_transaction l))).
    rewrite Hshape. apply List.length_map. }
  exists ataE, ataC, (el_mintRent l), rentC, uploaded, (el_blockhash l), (blockhash latest).
  repeat split; try assumption.
  intros Hkey Hrent Huri.
  rewrite HtxE, HtxC, Huri. subst temporaryKeypair.
  rewrite HrentE, HrentC in Hrent. injection Hrent as ->.
  rewrite HataE in HataC. injection HataC as ->.
  apply createToken_build_instructions_blockhash.
Qed.

(** C2. When the awaited calls of [createToken] resolve, the transaction
    it hands to the wallet holds CreateAccount, InitializeMint,
    CreateMetadata, CreateAssociatedAccount, MintTo, then
    SetAuthority(Mint, null) if revokeMintAuthority was requested, then
    SetAuthority(Freeze, null) if revokeFreezeAuthority was requested, and
    nothing else. *)
Theorem createToken_instruction_order
    (connection : Connection) (payer : PublicKey) (data : CoinFormData)
    (mintKeypair : PublicKey) (mintRent : JS.number)
    (associatedTokenAddress : PublicKey) (uploaded : TokenMetadataResult)
    (latest : BlockhashWithExpiryBlockHeight) :
  getMinimumBalanceForRentExemptMint connection = Ok mintRent ->
  getAssociatedTokenAddress mintKeypair payer = Ok associatedTokenAddress ->
  createTokenMetadata
    (mkTokenMetadataRequest mintKeypair (name data) (symbol data)
       (description data) (imageFile data)) = Ok uploaded ->
  getLatestBlockhash connection = Ok latest ->
  exists transaction,
    createToken_transaction connection payer data mintKeypair
    = Ok (transaction, imageUrl uploaded)
    /\ shape transaction
       = ([CreateAccount; InitializeMint; CreateMetadata; CreateAssociatedAccount; MintTo]
          ++ (if revokeMintAuthority data then [SetAuthority AuthorityType.MintTokens None] else [])
          ++ (if revokeFreezeAuthority data then [SetAuthority AuthorityType.FreezeAccount None] else []))%list.
Proof.
  intros Hrent Hata Hupload Hlatest.
  eexists. split.
  - unfold createToken_transaction.
    rewrite Hrent; simpl bind. rewrite Hata; simpl bind.
    rewrite Hupload; simpl. rewrite Hlatest; simpl bind. reflexivity.
  - apply createToken_build_shape.
Qed.

(** The exact range.  For an integer supply [n >= 1] with
    [n * 10^decimals < 2^53], the amount passed to MintTo by [createToken]
    and by [createUltraCheapToken] is exactly the integer
    [n * 10^decimals]; the code multiplies in double arithmetic and applies
    no truncation. *)
Lemma mintAmount_exact_below_2_53 (n : Z) (d : nat) :
  (0 < n)%Z -> (n * 10 ^ Z.of_nat d < 2 ^ 53)%Z ->
  (forall payer mintKeypair metadataPDA associatedTokenAddress mintRent
          metadataUri blockhash (data : CoinFormData),
      supply data = JS.of_Z n -> decimals data = d ->
      mintTo_amounts
        (createToken_build payer mintKeypair metadataPDA associatedTokenAddress
           mintRent metadataUri blockhash data)
      = [JS.Fin (n * 10 ^ Z.of_nat d) 0])
  /\ (forall payer mintKeypair associatedTokenAddress mintRent blockhash
             (data : UltraCheapTokenData),
         uc_supply data = JS.of_Z n -> uc_decimals data = d ->
         mintTo_amounts
           (createUltraCheapToken_build payer mintKeypair associatedTokenAddress
              mintRent blockhash data)
         = [JS.Fin (n * 10 ^ Z.of_nat d) 0])
  /\ JS.to_integer (JS.Fin (n * 10 ^ Z.of_nat d) 0) = Some (n * 10 ^ Z.of_nat d)%Z.
Proof.
  intros Hn Hnd. repeat split.
  - intros payer mintKeypair metadataPDA ata mintRent uri bh data Hsupply Hdecimals.
    unfold createToken_build, mintTo_amounts.
    rewrite Hsupply, Hdecimals, (scaled_supply_exact n d Hn Hnd).
    destruct (revokeMintAuthority data), (revokeFreezeAuthority data); reflexivity.
  - intros payer mintKeypair ata mintRent bh data Hsupply Hdecimals.
    unfold createUltraCheapToken_build, mintTo_amounts.
    rewrite Hsupply, Hdecimals, (scaled_supply_exact n d Hn Hnd).
    reflexivity.
  - apply to_integer_of_integer.
Qed.

End CreateToken.

(* ===================================================================== *)
(** * The fee estimate when the node has no fee quote *)
(* ===================================================================== *)

Section FeeEstimate.

Import CreateTokenWithUpload.

Context `{SDK}.

(** A rent figure the node cannot supply makes the estimator throw. *)
Lemma estimate_throws_without_mint_rent (connection : Connection)
    (payer : PublicKey) (data : CoinFormData) (mintKeypair : PublicKey)
    (message : string) :
  getMinimumBalanceForRentExemptMint connection = Throw message ->
  estimateCreateTokenFee connection payer data mintKeypair = Throw message.
Proof.
  intros Hrent. unfold estimateCreateTokenFee, estimateCreateTokenFee_transaction.
  rewrite Hrent. reflexivity.
Qed.

(** A fee request that is rejected makes the estimator throw. *)
Lemma estimate_throws_when_fee_request_rejects (connection : Connection)
    (payer : PublicKey) (data : CoinFormData) (mintKeypair : PublicKey)
    (l : EstimateLocals) feeForMessage (message : string) :
  estimateCreateTokenFee_transaction connection payer data mintKeypair = Ok l ->
  getFeeForMessage connection = Some feeForMessage ->
  feeForMessage (compileMessage (el_transaction l)) = Throw message ->
  estimateCreateTokenFee connection payer data mintKeypair = Throw message.
Proof.
  intros Hl Hmethod Hfee. unfold estimateCreateTokenFee.
  rewrite Hl; simpl bind. rewrite Hmethod, Hfee. reflexivity.
Qed.

(** On a client library without [getFeeForMessage], a [null] fee
    calculator makes the estimator throw. *)
Lemma estimate_fallback_throws_on_null (connection : Connection)
    (payer : PublicKey) (data : CoinFormData) (mintKeypair : PublicKey)
    (l : EstimateLocals) :
  estimateCreateTokenFee_transaction connection payer data mintKeypair = Ok l ->
  getFeeForMessage connection = None ->
  getFeeCalculatorForBlockhash connection (el_blockhash l) = Ok None ->
  estimateCreateTokenFee connection payer data mintKeypair
  = Throw "Failed to fetch fee calculator for fee estimation".
Proof.
  intros Hl Hmethod Hfee. unfold estimateCreateTokenFee.
  rewrite Hl; simpl bind. rewrite Hmethod, Hfee. reflexivity.
Qed.

(** C9 (what the code does). When [getFeeForMessage] resolves with a
    [null] value, both estimators return the sum of the rents (and, for
    [estimateCreateTokenFee], the protocol fee) with nothing added for the
    transaction fee; they do not throw. *)
Theorem estimate_returns_partial_sum_on_null_fee_quote :
  (forall (connection : Connection) (payer : PublicKey) (data : CoinFormData)
          (mintKeypair : PublicKey) (l : EstimateLocals) feeForMessage,
      estimateCreateTokenFee_transaction connection payer data mintKeypair = Ok l ->
      getFeeForMessage connection = Some feeForMessage ->
      feeForMessage (compileMessage (el_transaction l)) = Ok None ->
      estimateCreateTokenFee connection payer data mintKeypair
      = Ok (sum_numbers (el_mintRent l)
              [el_tokenAccountRent l; el_metadataAccountRent l;
               JS.mul JS.lit_0_01 (JS.of_Z 1000000000); JS.of_Z 0]))
  /\ (forall (connection : Connection) (payer : PublicKey) (data : UltraCheapTokenData)
             (mintKeypair : PublicKey) (l : UltraCheapEstimateLocals) feeForMessage,
         estimateUltraCheapTokenFee_transaction connection payer data mintKeypair = Ok l ->
         getFeeForMessage connection = Some feeForMessage ->
         feeForMessage (compileMessage (ul_transaction l)) = Ok None ->
         estimateUltraCheapTokenFee connection payer data mintKeypair
         = Ok (sum_numbers (ul_mintRent l) [ul_tokenAccountRent l; JS.of_Z 0])).
Proof.
  split.
  - intros connection payer data mintKeypair l feeForMessage Hl Hmethod Hfee.
    unfold estimateCreateTokenFee.
    rewrite Hl; simpl bind. rewrite Hmethod, Hfee. reflexivity.
  - intros connection payer data mintKeypair l feeForMessage Hl Hmethod Hfee.
    unfold estimateUltraCheapTokenFee.
    rewrite Hl; simpl bind. rewrite Hmethod, Hfee. reflexivity.
Qed.

End FeeEstimate.

(* ===================================================================== *)
(** * The client components *)
(* ===================================================================== *)

Lemma submitBuilt_Sent_inv (wallet : Wallet) (connection : Connection)
    (built : result Transaction) (transaction : Transaction) (r : result string) :
  submitBuilt wallet connection built = Sent transaction r -> built = Ok transaction.
Proof.
  destruct built as [t | m]; simpl; intros Hsent; [| discriminate Hsent].
  now injection Hsent as -> _.
Qed.

Lemma submitBuilt_not_Rejected (wallet : Wallet) (connection : Connection)
    (built : result Transaction) (e : ErrorMessage) :
  submitBuilt wallet connection built <> Rejected e.
Proof. destruct built; simpl; discriminate. Qed.

Lemma same_key_eq (authority : option string) (key : PublicKey) :
  same_key authority (Some key) = true -> authority = Some key.
Proof.
  destruct authority as [a |]; simpl; [| discriminate].
  intros Heq. apply String.eqb_eq in Heq. now subst.
Qed.

Lemma same_key_refl (key : PublicKey) : same_key (Some key) (Some key) = true.
Proof. simpl. apply String.eqb_refl. Qed.

(* --------------------------------------------------------------------- *)
(** ** Revoke authorities *)
(* --------------------------------------------------------------------- *)

Section Revoke.

Import RevokeAuthoritiesClient.

Context `{SDK}.

(** C4 (what the code does). A request to revoke the mint authority of a
    token whose resolved mint authority is absent is rejected before any
    transaction exists, with the message of a requester who does not hold
    the authority. *)
Theorem revoke_absent_mint_authority_reported_as_not_holder
    (wallet : Wallet) (connection : Connection) (payer : PublicKey)
    (info : TokenInfo) (data : RevokeFormData) :
  publicKey wallet = Some payer ->
  revokeMintAuthority data = true ->
  mintAuthority info = None ->
  onSubmit wallet connection (Some info) data
  = Rejected (Text "You do not have mint authority for this token.").
Proof.
  intros Hwallet Hflag Habsent. unfold onSubmit.
  rewrite Hwallet, Hflag, Habsent. reflexivity.
Qed.

(** The branch of [onSubmit] that reports an already revoked mint
    authority is never taken: the check before it rejects every absent
    authority. *)
Lemma revoke_already_revoked_message_unreachable
    (wallet : Wallet) (connection : Connection)
    (tokenInfo : option TokenInfo) (data : RevokeFormData) :
  publicKey wallet <> Some "" ->
  onSubmit wallet connection tokenInfo data
  <> Rejected (Text "Mint authority has already been revoked for this token.").
Proof.
  intros Hkey. unfold onSubmit.
  destruct (publicKey wallet) as [payer |] eqn:Hwallet; [| discriminate].
  destruct tokenInfo as [info |]; [| discriminate].
  destruct (revokeMintAuthority data) eqn:Hmint; simpl andb.
  - destruct (same_key (mintAuthority info) (Some payer)) eqn:Hsame; simpl negb;
      [| discriminate].
    apply same_key_eq in Hsame. rewrite Hsame.
    destruct (revokeFreezeAuthority data && negb (same_key (freezeAuthority info) (Some payer)));
      [discriminate |].
    simpl falsy_string.
    destruct (String.eqb_spec payer "") as [-> | Hne]; [now elim Hkey |].
    destruct (revokeFreezeAuthority data && falsy_string (freezeAuthority info));
      [discriminate | apply submitBuilt_not_Rejected].
  - destruct (revokeFreezeAuthority data && negb (same_key (freezeAuthority info) (Some payer)));
      [discriminate |].
    destruct (revokeFreezeAuthority data && falsy_string (freezeAuthority info));
      [discriminate | apply submitBuilt_not_Rejected].
Qed.

(** The same from the selection of the token on: whoever the requester
    is, a mint whose authority is absent leaves [tokenInfo] either empty
    or with the absent authority, and the submission is rejected with one
    of the two messages below. *)
Lemma revoke_absent_mint_authority_after_fetch
    (wallet : Wallet) (connection : Connection) (payer : PublicKey)
    (data : RevokeFormData) (mintPubkey : PublicKey) (parsedData : ParsedInfo) :
  publicKey wallet = Some payer ->
  revokeMintAuthority data = true ->
  newPublicKey (tokenAddress data) = Ok mintPubkey ->
  getParsedAccountInfo connection mintPubkey = Ok (Some (ParsedData parsedData)) ->
  info_mintAuthority parsedData = None ->
  let tokenInfo := tokenInfo_after_fetch wallet connection (tokenAddress data) in
  onSubmit wallet connection tokenInfo data
  = Rejected (Text "You do not have mint authority for this token.")
  \/ onSubmit wallet connection tokenInfo data
     = Rejected (Text "Please select a valid token first.").
Proof.
  intros Hwallet Hflag Hkey Hinfo Habsent tokenInfo.
  subst tokenInfo. unfold tokenInfo_after_fetch, fetchTokenInfo.
  rewrite Hkey; simpl bind. rewrite Hinfo; simpl bind.
  unfold onSubmit. rewrite Hwallet, Hflag.
  destruct (negb (String.eqb (parsed_type parsedData) "mint")); [now right |].
  rewrite Habsent. simpl same_key.
  destruct (same_key (info_freezeAuthority parsedData) (Some payer)); simpl;
    [now left | now right].
Qed.

(** The transaction of a revoke request, by the selected authorities. *)
Lemma revoke_buildTransaction_shape (payer : PublicKey) (data : RevokeFormData)
    (transaction : Transaction) :
  buildTransaction payer data = Ok transaction ->
  shape transaction
  = ((if revokeMintAuthority data then [SetAuthority AuthorityType.MintTokens None] else [])
     ++ (if revokeFreezeAuthority data then [SetAuthority AuthorityType.FreezeAccount None] else []))%list.
Proof.
  unfold buildTransaction. intros Hbuilt. await_in Hbuilt.
  injection Hbuilt as <-.
  destruct (revokeMintAuthority data), (revokeFreezeAuthority data); reflexivity.
Qed.

(** C10. A revoke request that selects no authority is stopped by the
    form's schema and [onSubmit] is not run; every transaction a submitted
    form hands to the wallet holds one or two SetAuthority instructions
    with a null new authority and nothing else; and when both authorities
    are selected and held, the transaction is SetAuthority(Mint, null)
    followed by SetAuthority(Freeze, null). *)
Theorem revoke_selects_at_least_one_authority :
  (forall wallet connection tokenInfo data,
      revokeMintAuthority data = false ->
      revokeFreezeAuthority data = false ->
      handleSubmit wallet connection tokenInfo data = Invalid)
  /\ (forall wallet connection tokenInfo data transaction r,
         handleSubmit wallet connection tokenInfo data = Sent transaction r ->
         shape transaction = [SetAuthority AuthorityType.MintTokens None]
         \/ shape transaction = [SetAuthority AuthorityType.FreezeAccount None]
         \/ shape transaction
            = [SetAuthority AuthorityType.MintTokens None;
               SetAuthority AuthorityType.FreezeAccount None])
  /\ (forall wallet connection payer info data mintPubkey,
         publicKey wallet = Some payer ->
         payer <> "" ->
         mintAuthority info = Some payer ->
         freezeAuthority info = Some payer ->
         (1 <= String.length (tokenAddress data))%nat ->
         newPublicKey (tokenAddress data) = Ok mintPubkey ->
         revokeMintAuthority data = true ->
         revokeFreezeAuthority data = true ->
         let transaction :=
           mkTransaction None None
             [createSetAuthorityInstruction mintPubkey payer AuthorityType.MintTokens None;
              createSetAuthorityInstruction mintPubkey payer AuthorityType.FreezeAccount None] in
         handleSubmit wallet connection (Some info) data
         = Sent transaction (sendAndConfirm wallet connection transaction)).
Proof.
  repeat split.
  - intros wallet connection tokenInfo data Hmint Hfreeze.
    unfold handleSubmit, revokeSchema. rewrite Hmint, Hfreeze.
    now rewrite andb_false_r.
  - intros wallet connection tokenInfo data transaction r.
    unfold handleSubmit, revokeSchema.
    destruct (addressField (tokenAddress data)); simpl andb; [| discriminate].
    destruct (revokeMintAuthority data || revokeFreezeAuthority data) eqn:Hselected;
      [| discriminate].
    unfold onSubmit.
    destruct (publicKey wallet) as [payer |]; [| discriminate].
    destruct tokenInfo as [info |]; [| discriminate].
    repeat match goal with
           | |- (if ?c then Rejected _ else _) = _ -> _ => destruct c; [discriminate |]
           end.
    intros Hsent. apply submitBuilt_Sent_inv in Hsent.
    apply revoke_buildTransaction_shape in Hsent. rewrite Hsent.
    destruct (revokeMintAuthority data), (revokeFreezeAuthority data);
      simpl; auto; discriminate.
  - intros wallet connection payer info data mintPubkey
      Hwallet Hpayer Hmint Hfreeze Hlength Hkey Hrm Hrf transaction.
    unfold handleSubmit, revokeSchema, addressField.
    rewrite Hkey, Hrm, Hrf.
    apply Nat.leb_le in Hlength. rewrite Hlength. simpl.
    unfold onSubmit. rewrite Hwallet, Hrm, Hrf, Hmint, Hfreeze, same_key_refl.
    simpl. destruct (String.eqb_spec payer ""); [contradiction |].
    unfold buildTransaction. rewrite Hkey, Hrm, Hrf. simpl. reflexivity.
Qed.

End Revoke.

(* --------------------------------------------------------------------- *)
(** ** Freeze and unfreeze *)
(* --------------------------------------------------------------------- *)

Section Freeze.

Import FreezeTokensClient.

Context `{SDK}.

(** C5. A freeze request whose resolved target account exists and is
    frozen is rejected with the already-frozen message before any
    transaction exists. *)
Theorem freeze_already_frozen_rejected
    (wallet : Wallet) (connection : Connection) (payer : PublicKey)
    (info : AccountInfo) (data : FreezeFormData) :
  publicKey wallet = Some payer ->
  action data = freeze ->
  exists_ info = true ->
  frozen info = true ->
  onSubmit wallet connection (Some info) data
  = Rejected (Text "Cannot freeze account - it is already frozen.").
Proof.
  intros Hwallet Haction Hexists Hfrozen. unfold onSubmit.
  rewrite Hwallet, Haction, Hexists, Hfrozen. reflexivity.
Qed.

(** The same on the state [fetchAccountInfo] resolves from a ledger where
    the target's token account is frozen. *)
Lemma freeze_already_frozen_after_fetch
    (wallet : Wallet) (connection : Connection) (payer : PublicKey)
    (data : FreezeFormData) (mintPubkey targetPubkey tokenAccount : PublicKey)
    (accountData : TokenAccount) :
  publicKey wallet = Some payer ->
  action data = freeze ->
  newPublicKey (tokenAddress data) = Ok mintPubkey ->
  newPublicKey (targetAddress data) = Ok targetPubkey ->
  getAssociatedTokenAddress mintPubkey targetPubkey = Ok tokenAccount ->
  getAccount connection tokenAccount = Ok accountData ->
  isFrozen accountData = true ->
  onSubmit wallet connection
    (fetchAccountInfo connection (tokenAddress data) (targetAddress data)) data
  = Rejected (Text "Cannot freeze account - it is already frozen.").
Proof.
  intros Hwallet Haction Hmint Htarget Hata Haccount Hfrozen.
  unfold fetchAccountInfo.
  rewrite Hmint; simpl bind. rewrite Htarget; simpl bind.
  rewrite Hata, Haccount, Hfrozen.
  unfold onSubmit. rewrite Hwallet, Haction. reflexivity.
Qed.

(** Every transaction built for an unfreeze request is a single
    ThawAccount, and the token account was found on the ledger. *)
Lemma unfreeze_buildTransaction_inv (payer : PublicKey) (connection : Connection)
    (data : FreezeFormData) (transaction : Transaction) :
  action data = unfreeze ->
  buildTransaction payer connection data = Ok transaction ->
  exists mintPubkey targetPubkey tokenAccount,
    newPublicKey (tokenAddress data) = Ok mintPubkey
    /\ newPublicKey (targetAddress data) = Ok targetPubkey
    /\ getAssociatedTokenAddress mintPubkey targetPubkey = Ok tokenAccount
    /\ resolved (getAccount connection tokenAccount) = true
    /\ transaction
       = mkTransaction None None [createThawAccountInstruction tokenAccount mintPubkey payer].
Proof.
  intros Haction. unfold buildTransaction. rewrite Haction. simpl is_freeze.
  intros Hbuilt. await_in Hbuilt. await_in Hbuilt. await_in Hbuilt.
  destruct (resolved (getAccount connection a1)) eqn:Hfound; simpl in Hbuilt;
    [| discriminate Hbuilt].
  injection Hbuilt as <-.
  exists a, a0, a1. repeat split; assumption.
Qed.

(** C6. An unfreeze request whose resolved target account does not exist
    or is not frozen is rejected, with the does-not-exist or the
    already-unfrozen message, before any transaction exists.  When the
    account is resolved as existing and frozen and is found on the ledger,
    the transaction handed to the wallet is exactly one ThawAccount; no
    unfreeze transaction ever holds anything else, and an account missing
    from the ledger at submission never yields a transaction. *)
Theorem unfreeze_requires_frozen_account
    (wallet : Wallet) (connection : Connection) (payer : PublicKey)
    (data : FreezeFormData) :
  publicKey wallet = Some payer ->
  action data = unfreeze ->
  (forall info,
      exists_ info = false \/ frozen info = false ->
      onSubmit wallet connection (Some info) data
      = Rejected (Text (if exists_ info
                        then "Cannot unfreeze account - it is already unfrozen."
                        else "Cannot unfreeze account - it does not exist.")))
  /\ (forall info mintPubkey targetPubkey tokenAccount,
         exists_ info = true ->
         frozen info = true ->
         newPublicKey (tokenAddress data) = Ok mintPubkey ->
         newPublicKey (targetAddress data) = Ok targetPubkey ->
         getAssociatedTokenAddress mintPubkey targetPubkey = Ok tokenAccount ->
         resolved (getAccount connection tokenAccount) = true ->
         let transaction :=
           mkTransaction None None
             [createThawAccountInstruction tokenAccount mintPubkey payer] in
         onSubmit wallet connection (Some info) data
         = Sent transaction (sendAndConfirm wallet connection transaction))
  /\ (forall accountInfo transaction r,
         onSubmit wallet connection accountInfo data = Sent transaction r ->
         shape transaction = [ThawAccount])
  /\ (forall accountInfo mintPubkey targetPubkey tokenAccount,
         newPublicKey (tokenAddress data) = Ok mintPubkey ->
         newPublicKey (targetAddress data) = Ok targetPubkey ->
         getAssociatedTokenAddress mintPubkey targetPubkey = Ok tokenAccount ->
         resolved (getAccount connection tokenAccount) = false ->
         forall transaction r,
           onSubmit wallet connection accountInfo data <> Sent transaction r).
Proof.
  intros Hwallet Haction. repeat split.
  - intros info Hstate. unfold onSubmit. rewrite Hwallet, Haction. simpl.
    destruct (exists_ info), (frozen info); simpl; try reflexivity.
    destruct Hstate; discriminate.
  - intros info mintPubkey targetPubkey tokenAccount
      Hexists Hfrozen Hmint Htarget Hata Hfound.
    unfold onSubmit. rewrite Hwallet, Haction, Hexists, Hfrozen. simpl.
    unfold buildTransaction.
    rewrite Hmint; simpl bind. rewrite Htarget; simpl bind.
    rewrite Hata; simpl bind. rewrite Hfound, Haction. reflexivity.
  - intros accountInfo transaction r. unfold onSubmit. rewrite Hwallet.
    match goal with
    | |- match ?v with Some _ => _ | None => _ end = _ -> _ => destruct v
    end; [discriminate |].
    intros Hsent. apply submitBuilt_Sent_inv in Hsent.
    apply (unfreeze_buildTransaction_inv _ _ _ _ Haction) in Hsent
      as (m & t & a & _ & _ & _ & _ & ->).
    reflexivity.
  - intros accountInfo mintPubkey targetPubkey tokenAccount
      Hmint Htarget Hata Hmissing transaction r Hsent.
    unfold onSubmit in Hsent. rewrite Hwallet in Hsent.
    match type of Hsent with
    | match ?v with Some _ => _ | None => _ end = _ => destruct v
    end; [discriminate |].
    apply submitBuilt_Sent_inv in Hsent.
    apply (unfreeze_buildTransaction_inv _ _ _ _ Haction) in Hsent
      as (m & t & a & Hm & Ht & Ha & Hfound & _).
    rewrite Hmint in Hm. injection Hm as <-.
    rewrite Htarget in Ht. injection Ht as <-.
    rewrite Hata in Ha. injection Ha as <-.
    congruence.
Qed.

End Freeze.

(* --------------------------------------------------------------------- *)
(** ** Mint *)
(* --------------------------------------------------------------------- *)

Section Mint.

Import MintTokensClient.

Context `{SDK}.

(** C7. When the recipient's associated token account is found, the
    transaction handed to the wallet is the single MintTo instruction;
    when it is not, a CreateAssociatedAccount instruction for that same
    account precedes the MintTo in the same transaction. *)
Theorem mint_plan_follows_account_existence
    (wallet : Wallet) (connection : Connection) (payer : PublicKey)
    (data : MintFormData) (mintPubkey recipientPubkey : PublicKey)
    (parsed : ParsedInfo) (recipientTokenAccount : PublicKey) :
  publicKey wallet = Some payer ->
  newPublicKey (tokenAddress data) = Ok mintPubkey ->
  newPublicKey (recipientAddress data) = Ok recipientPubkey ->
  getParsedAccountInfo connection mintPubkey = Ok (Some (ParsedData parsed)) ->
  getAssociatedTokenAddress mintPubkey recipientPubkey = Ok recipientTokenAccount ->
  let mintAmount :=
    JS.floor (JS.mul (amount data) (JS.pow10_opt (info_decimals parsed))) in
  let mintTo :=
    createMintToInstruction mintPubkey recipientTokenAccount payer mintAmount in
  let create :=
    createAssociatedTokenAccountInstruction payer recipientTokenAccount
      recipientPubkey mintPubkey in
  (resolved (getAccount connection recipientTokenAccount) = true ->
   onSubmit wallet connection data
   = Sent (mkTransaction None None [mintTo])
       (sendAndConfirm wallet connection (mkTransaction None None [mintTo])))
  /\ (resolved (getAccount connection recipientTokenAccount) = false ->
      onSubmit wallet connection data
      = Sent (mkTransaction None None [create; mintTo])
          (sendAndConfirm wallet connection (mkTransaction None None [create; mintTo]))).
Proof.
  intros Hwallet Hmint Hrecipient Hinfo Hata mintAmount mintTo create.
  unfold onSubmit, buildTransaction.
  rewrite Hwallet. rewrite Hmint; simpl bind. rewrite Hrecipient; simpl bind.
  rewrite Hinfo; simpl bind. rewrite Hata; simpl bind.
  split; intros Hfound;
    destruct (getAccount connection recipientTokenAccount);
    simpl in Hfound; try discriminate Hfound; reflexivity.
Qed.

End Mint.

(* --------------------------------------------------------------------- *)
(** ** Burn *)
(* --------------------------------------------------------------------- *)

Section Burn.

Import BurnTokensClient.

Context `{SDK}.

(** A balance that is a non-zero number is not [=== 0]. *)
Lemma nonzero_balance_not_zero (raw : JS.number) :
  JS.falsy raw = false -> JS.strict_eqb raw (JS.of_Z 0) = false.
Proof.
  destruct raw as [| m e]; simpl; [discriminate |].
  intros Hm. apply Z.eqb_neq in Hm.
  unfold JS.strict_eqb, JS.compare. change (JS.of_Z 0) with (JS.Fin 0 0).
  cbv beta iota zeta.
  assert (Hpow : (0 < 2 ^ (e - Z.min e 0))%Z) by (apply Z.pow_pos_nonneg; lia).
  destruct (Z.compare_spec (m * 2 ^ (e - Z.min e 0)) (0 * 2 ^ (0 - Z.min e 0)));
    try reflexivity.
  exfalso. nia.
Qed.

Lemma noBalance_of_nonzero (info : TokenInfo) (raw : JS.number) :
  userBalanceRaw info = Some raw -> JS.falsy raw = false -> noBalance info = false.
Proof.
  intros Hraw Hnz. unfold noBalance. rewrite Hraw, Hnz.
  now rewrite nonzero_balance_not_zero.
Qed.





End Burn.

(* ===================================================================== *)
(** * The lemmas on concrete requests *)
(* ===================================================================== *)

Module Run.

Import Sample.

(** The estimate and the submission of one request, each with its own key. *)
Lemma estimate_submit_parity_run :
  exists l prepared,
    @CreateTokenWithUpload.estimateCreateTokenFee_transaction sdk connection alice
      (coin 9 1000000 true true) temporaryKey = Ok l
    /\ @CreateTokenWithUpload.createToken_transaction sdk connection alice
         (coin 9 1000000 true true) mintKey = Ok prepared
    /\ shape (CreateTokenWithUpload.el_transaction l) = shape (fst prepared)
    /\ shape (fst prepared)
       = [CreateAccount; InitializeMint; CreateMetadata; CreateAssociatedAccount;
          MintTo; SetAuthority AuthorityType.MintTokens None; SetAuthority AuthorityType.FreezeAccount None].
Proof.
  eexists. eexists.
  split; [reflexivity |]. split; [reflexivity |].
  split.
  - apply (@estimate_submit_parity sdk connection connection alice
             (coin 9 1000000 true true) temporaryKey mintKey); reflexivity.
  - reflexivity.
Defined.

(** A request that revokes the freeze authority only. *)
Lemma createToken_instruction_order_run :
  exists transaction,
    @CreateTokenWithUpload.createToken_transaction sdk connection alice
      (coin 6 5000 false true) mintKey
    = Ok (transaction, None)
    /\ shape transaction
       = [CreateAccount; InitializeMint; CreateMetadata; CreateAssociatedAccount;
          MintTo; SetAuthority AuthorityType.FreezeAccount None].
Proof.
  apply (@createToken_instruction_order sdk connection alice (coin 6 5000 false true)
           mintKey (JS.of_Z 1461600) ("ata/" ++ mintKey ++ "/" ++ alice)
           (mkTokenMetadataResult ("https://cdn.example/" ++ mintKey ++ ".json") None)
           (mkBlockhash "blockhash" (JS.of_Z 1000)));
    reflexivity.
Defined.

(** decimals = 9 and supply = 1_000_000: the MintTo amount is the integer
    1,000,000,000,000,000, in both creation paths. *)
Lemma mintAmount_scenario :
  mintTo_amounts
    (CreateTokenWithUpload.createToken_build alice mintKey "metadata" "ata"
       (JS.of_Z 1461600) "uri" "blockhash" (coin 9 1000000 false false))
  = [JS.Fin 1000000000000000 0]
  /\ mintTo_amounts
       (CreateTokenWithUpload.createUltraCheapToken_build alice mintKey "ata"
          (JS.of_Z 1461600) "blockhash" (ultraCheap 9 1000000))
     = [JS.Fin 1000000000000000 0]
  /\ JS.to_integer (JS.Fin 1000000000000000 0) = Some 1000000000000000%Z.
Proof.
  assert (Hn : (0 < 1000000)%Z) by lia.
  assert (Hnd : (1000000 * 10 ^ Z.of_nat 9 < 2 ^ 53)%Z) by (vm_compute; reflexivity).
  destruct (mintAmount_exact_below_2_53 1000000 9 Hn Hnd) as (Hcreate & Hcheap & Hint).
  split; [| split].
  - apply (Hcreate alice mintKey "metadata" "ata" (JS.of_Z 1461600) "uri" "blockhash"
             (coin 9 1000000 false false)); reflexivity.
  - apply (Hcheap alice mintKey "ata" (JS.of_Z 1461600) "blockhash"
             (ultraCheap 9 1000000)); reflexivity.
  - exact Hint.
Defined.

(** C3 (counterexample). supply = 999,999,999,999 with decimals = 7 passes
    both creation forms; the exact product 9,999,999,999,990,000,000 is not
    a double, and the amount passed to MintTo is the neighbouring double
    9,999,999,999,989,999,616. *)
Lemma mintAmount_rounded_above_2_53 :
  mintTo_amounts
    (CreateTokenWithUpload.createToken_build alice mintKey "metadata" "ata"
       (JS.of_Z 1461600) "uri" "blockhash" (coin 7 999999999999 false false))
  = [JS.Fin 4882812499995117 11]
  /\ mintTo_amounts
       (CreateTokenWithUpload.createUltraCheapToken_build alice mintKey "ata"
          (JS.of_Z 1461600) "blockhash" (ultraCheap 7 999999999999))
     = [JS.Fin 4882812499995117 11]
  /\ JS.to_integer (JS.Fin 4882812499995117 11) = Some 9999999999989999616%Z
  /\ (9999999999989999616 <> 999999999999 * 10 ^ 7)%Z.
Proof. repeat split; try (vm_compute; reflexivity). vm_compute. discriminate. Qed.

(** No truncation takes place: a supply of 1.5 with decimals = 0 gives the
    amount 1.5, which denotes no integer. *)
Example mintAmount_not_truncated :
  mintTo_amounts
    (CreateTokenWithUpload.createToken_build alice mintKey "metadata" "ata"
       (JS.of_Z 1461600) "uri" "blockhash"
       (CreateTokenWithUpload.mkCoinFormData "Token" "TKN" "" 0 (JS.Fin 3 (-1)) None
          false false))
  = [JS.Fin 3 (-1)]
  /\ JS.to_integer (JS.Fin 3 (-1)) = None.
Proof. split; reflexivity. Qed.

(** The failing request of C4: the mint authority is already revoked and
    [alice] holds the freeze authority. *)
Lemma revoke_absent_mint_authority_run :
  @RevokeAuthoritiesClient.onSubmit sdk wallet connection
    (Some (RevokeAuthoritiesClient.mkTokenInfo (Some mintKey) (Some 9%nat) None (Some alice)))
    (RevokeAuthoritiesClient.mkRevokeFormData mintKey true false)
  = Rejected (Text "You do not have mint authority for this token.").
Proof.
  apply (@revoke_absent_mint_authority_reported_as_not_holder sdk wallet connection
           alice); reflexivity.
Defined.

Lemma revoke_selects_at_least_one_authority_run :
  @RevokeAuthoritiesClient.handleSubmit sdk wallet connection
    (Some (RevokeAuthoritiesClient.mkTokenInfo (Some mintKey) (Some 9%nat)
             (Some alice) (Some alice)))
    (RevokeAuthoritiesClient.mkRevokeFormData mintKey false false)
  = Invalid
  /\ @RevokeAuthoritiesClient.handleSubmit sdk wallet connection
       (Some (RevokeAuthoritiesClient.mkTokenInfo (Some mintKey) (Some 9%nat)
                (Some alice) (Some alice)))
       (RevokeAuthoritiesClient.mkRevokeFormData mintKey true true)
     = Sent (mkTransaction None None
               [createSetAuthorityInstruction mintKey alice AuthorityType.MintTokens None;
                createSetAuthorityInstruction mintKey alice AuthorityType.FreezeAccount None])
            (Ok "signature").
Proof.
  destruct (@revoke_selects_at_least_one_authority sdk) as (Hnone & _ & Hboth).
  split.
  - apply Hnone; reflexivity.
  - apply (Hboth wallet connection alice
             (RevokeAuthoritiesClient.mkTokenInfo (Some mintKey) (Some 9%nat)
                (Some alice) (Some alice))
             (RevokeAuthoritiesClient.mkRevokeFormData mintKey true true) mintKey);
      try reflexivity.
    + discriminate.
    + vm_compute. lia.
Defined.

Lemma freeze_already_frozen_run :
  @FreezeTokensClient.onSubmit sdk wallet (connection_with_account 5 true)
    (Some (FreezeTokensClient.mkAccountInfo true true))
    (FreezeTokensClient.mkFreezeFormData mintKey bob FreezeTokensClient.freeze)
  = Rejected (Text "Cannot freeze account - it is already frozen.").
Proof.
  apply (@freeze_already_frozen_rejected sdk wallet (connection_with_account 5 true)
           alice); reflexivity.
Defined.

Lemma unfreeze_requires_frozen_account_run :
  let data := FreezeTokensClient.mkFreezeFormData mintKey bob FreezeTokensClient.unfreeze in
  @FreezeTokensClient.onSubmit sdk wallet (connection_with_account 5 false)
    (Some (FreezeTokensClient.mkAccountInfo true false)) data
  = Rejected (Text "Cannot unfreeze account - it is already unfrozen.")
  /\ @FreezeTokensClient.onSubmit sdk wallet connection
       (Some (FreezeTokensClient.mkAccountInfo false false)) data
     = Rejected (Text "Cannot unfreeze account - it does not exist.")
  /\ @FreezeTokensClient.onSubmit sdk wallet (connection_with_account 5 true)
       (Some (FreezeTokensClient.mkAccountInfo true true)) data
     = Sent (mkTransaction None None
               [createThawAccountInstruction ("ata/" ++ mintKey ++ "/" ++ bob) mintKey alice])
            (Ok "signature").
Proof.
  intros data. split; [| split].
  - apply (proj1 (@unfreeze_requires_frozen_account sdk wallet
                    (connection_with_account 5 false) alice data eq_refl eq_refl)
             (FreezeTokensClient.mkAccountInfo true false)).
    right. reflexivity.
  - apply (proj1 (@unfreeze_requires_frozen_account sdk wallet connection alice data
                    eq_refl eq_refl)
             (FreezeTokensClient.mkAccountInfo false false)).
    left. reflexivity.
  - apply (proj1 (proj2 (@unfreeze_requires_frozen_account sdk wallet
                           (connection_with_account 5 true) alice data eq_refl eq_refl))
             (FreezeTokensClient.mkAccountInfo true true) mintKey bob
             ("ata/" ++ mintKey ++ "/" ++ bob));
      reflexivity.
Defined.

(** While [accountInfo] is still [null] (the submit button is disabled in
    that state) [onSubmit] has no account state to check: only the
    existence check of its [try] block remains. *)
Example unresolved_account_state_is_not_checked :
  let thaw := FreezeTokensClient.mkFreezeFormData mintKey bob FreezeTokensClient.unfreeze in
  let account := "ata/" ++ mintKey ++ "/" ++ bob in
  @FreezeTokensClient.onSubmit sdk wallet (connection_with_account 5 false) None thaw
  = Sent (mkTransaction None None [createThawAccountInstruction account mintKey alice])
      (Ok "signature")
  /\ @FreezeTokensClient.onSubmit sdk wallet connection None thaw
     = Failed "Cannot unfreeze - token account does not exist".
Proof. split; reflexivity. Qed.

Lemma mint_plan_follows_account_existence_run :
  let data := MintTokensClient.mkMintFormData mintKey bob (JS.of_Z 25) in
  let account := "ata/" ++ mintKey ++ "/" ++ bob in
  let mintTo := createMintToInstruction mintKey account alice (JS.Fin 25000000000 0) in
  @MintTokensClient.onSubmit sdk wallet (connection_with_account 5 false) data
  = Sent (mkTransaction None None [mintTo]) (Ok "signature")
  /\ @MintTokensClient.onSubmit sdk wallet connection data
     = Sent (mkTransaction None None
               [createAssociatedTokenAccountInstruction alice account bob mintKey; mintTo])
            (Ok "signature").
Proof.
  intros data account mintTo. split.
  - apply (proj1 (@mint_plan_follows_account_existence sdk wallet
                    (connection_with_account 5 false) alice data mintKey bob
                    (mkParsedInfo "mint" (Some 9%nat) "1000000000000000"
                       (Some alice) (Some alice))
                    account eq_refl eq_refl eq_refl eq_refl eq_refl)).
    reflexivity.
  - apply (proj2 (@mint_plan_follows_account_existence sdk wallet connection alice data
                    mintKey bob
                    (mkParsedInfo "mint" (Some 9%nat) "1000000000000000"
                       (Some alice) (Some alice))
                    account eq_refl eq_refl eq_refl eq_refl eq_refl)).
    reflexivity.
Defined.


(** A state the page does not submit.  With a zero balance the submit
    button is disabled; an amount of 0.5 of a 0-decimal token would pass
    the form's schema and scale to 0, which equals the balance, and
    [onSubmit] would refuse it with the no-tokens message. *)
Lemma burn_equal_to_zero_balance_rejected :
  let info := BurnTokensClient.mkTokenInfo (Some mintKey) (Some "TKN") (Some 0%nat)
                (Some "0") (Some (JS.of_Z 0)) in
  let data := BurnTokensClient.mkBurnFormData mintKey JS.lit_0_5 in
  BurnTokensClient.submitDisabled wallet false (Some info)
    (BurnTokensClient.amount data) = true
  /\ @BurnTokensClient.burnSchema sdk data = true
  /\ JS.strict_eqb (BurnTokensClient.burnAmountRaw info data) (JS.of_Z 0) = true
  /\ @BurnTokensClient.handleSubmit sdk wallet connection (Some info) data
     = Rejected (Text "You have no tokens to burn for this token.").
Proof. repeat split. Qed.

(** The failing request of C9: the node answers [getFeeForMessage] with a
    [null] value.  The estimates are the rents (and the protocol fee)
    alone: 1,461,600 + 2,039,280 + 5,115,600 + 10,000,000 and
    1,461,600 + 2,039,280. *)
Lemma estimate_on_null_fee_quote_run :
  (exists fee,
      @CreateTokenWithUpload.estimateCreateTokenFee sdk connection_without_fee_quote
        alice (coin 9 1000000 false false) temporaryKey = Ok fee
      /\ JS.to_integer fee = Some 18616480%Z)
  /\ (exists fee,
         @CreateTokenWithUpload.estimateUltraCheapTokenFee sdk
           connection_without_fee_quote alice (ultraCheap 9 1000000) temporaryKey
         = Ok fee
         /\ JS.to_integer fee = Some 3500880%Z).
Proof.
  destruct (@estimate_returns_partial_sum_on_null_fee_quote sdk) as (Hcreate & Hcheap).
  split; eexists; split.
  - eapply Hcreate; [reflexivity | reflexivity | reflexivity].
  - reflexivity.
  - eapply Hcheap; [reflexivity | reflexivity | reflexivity].
  - reflexivity.
Defined.

(** The same requests on the fallback path throw. *)
Example estimate_fallback_on_null_run :
  @CreateTokenWithUpload.estimateCreateTokenFee sdk connection_legacy_without_fee_quote
    alice (coin 9 1000000 false false) temporaryKey
  = Throw "Failed to fetch fee calculator for fee estimation"
  /\ @CreateTokenWithUpload.estimateUltraCheapTokenFee sdk
       connection_legacy_without_fee_quote alice (ultraCheap 9 1000000) temporaryKey
     = Throw "Failed to fetch fee calculator for fee estimation".
Proof. split; reflexivity. Qed.

End Run.

(* ===================================================================== *)
(** * Sums and comparisons of whole numbers *)
(* ===================================================================== *)

Local Open Scope Z_scope.

(** The mantissa and exponent of a number that denotes the integer [a]. *)
Lemma to_integer_inv (m e a : Z) :
  JS.to_integer (JS.Fin m e) = Some a ->
  (0 <= e /\ a = m * 2 ^ e) \/ (e < 0 /\ m = a * 2 ^ (- e)).
Proof.
  unfold JS.to_integer.
  destruct (Z.leb_spec 0 e) as [He | He].
  - intros [= <-]. left. split; [exact He | reflexivity].
  - destruct (Z.eqb_spec (m mod 2 ^ (- e)) 0) as [Hmod | Hmod]; [| discriminate].
    intros [= <-]. right. split; [exact He |].
    assert (Hpos : 0 < 2 ^ (- e)) by (apply Z.pow_pos_nonneg; lia).
    pose proof (Z.div_mod m (2 ^ (- e))) as Hdm. lia.
Qed.

(** The mantissa of such a number once aligned to a smaller exponent. *)
Lemma aligned_mantissa (m e a e0 : Z) :
  JS.to_integer (JS.Fin m e) = Some a -> e0 <= e ->
  (0 <= e0 -> m * 2 ^ (e - e0) * 2 ^ e0 = a)
  /\ (e0 < 0 -> m * 2 ^ (e - e0) = a * 2 ^ (- e0)).
Proof.
  intros Hint Hle. apply to_integer_inv in Hint as [[He ->] | [He ->]].
  - split; intros H0.
    + rewrite <- Z.mul_assoc, <- Z.pow_add_r by lia.
      now replace (e - e0 + e0) with e by lia.
    + rewrite <- Z.mul_assoc, <- Z.pow_add_r by lia.
      now replace (e + - e0) with (e - e0) by lia.
  - split; intros H0; [lia |].
    rewrite <- Z.mul_assoc, <- Z.pow_add_r by lia.
    now replace (- e + (e - e0)) with (- e0) by lia.
Qed.

Lemma bitlen_scaled (s j : Z) :
  0 < s -> 0 <= j -> JS.bitlen (s * 2 ^ j) = JS.bitlen s + j.
Proof.
  intros Hs Hj. unfold JS.bitlen.
  assert (Hpow : 0 < 2 ^ j) by (apply Z.pow_pos_nonneg; lia).
  destruct (Z.eqb_spec (s * 2 ^ j) 0) as [H0 | _]; [nia |].
  destruct (Z.eqb_spec s 0) as [H0 | _]; [lia |].
  rewrite !Z.abs_eq by nia.
  rewrite Z.log2_mul_pow2 by lia. lia.
Qed.

(** Rounding keeps a non-negative integer below [2^53], however its
    mantissa and exponent are split. *)
Lemma round53_integer (M e s : Z) :
  0 <= s < 2 ^ 53 ->
  (0 <= e -> M * 2 ^ e = s) ->
  (e < 0 -> M = s * 2 ^ (- e)) ->
  JS.to_integer (JS.round53 (JS.Fin M e)) = Some s.
Proof.
  intros Hs Hpos Hneg.
  destruct (Z.leb_spec 0 e) as [He | He].
  - specialize (Hpos He).
    assert (Hpow : 0 < 2 ^ e) by (apply Z.pow_pos_nonneg; lia).
    assert (HM : 0 <= M < 2 ^ 53) by nia.
    rewrite round53_exact by exact HM.
    unfold JS.to_integer. destruct (Z.leb_spec 0 e); [| lia]. now rewrite Hpos.
  - specialize (Hneg He). set (j := - e) in *.
    assert (Hj : 0 < j) by (unfold j; lia).
    assert (Hpow : 0 < 2 ^ j) by (apply Z.pow_pos_nonneg; lia).
    destruct (Z.eq_dec s 0) as [-> | Hs0].
    + subst M. simpl Z.mul. change (JS.round53 (JS.Fin 0 e)) with (JS.Fin 0 e).
      unfold JS.to_integer. destruct (Z.leb_spec 0 e); [lia |].
      rewrite Z.mod_0_l by lia. simpl. now rewrite Z.div_0_l by lia.
    + assert (Hbits : JS.bitlen M = JS.bitlen s + j)
        by (subst M; apply bitlen_scaled; lia).
      pose proof (bitlen_below_2_53 s Hs) as Hb.
      unfold JS.round53. rewrite Hbits.
      destruct (Z.leb_spec (JS.bitlen s + j - 53) 0) as [Hk | Hk].
      * unfold JS.to_integer. destruct (Z.leb_spec 0 e); [lia |].
        fold j. subst M. rewrite Z.mod_mul by lia. simpl.
        now rewrite Z.div_mul by lia.
      * set (k := JS.bitlen s + j - 53) in *.
        assert (Hkj : k <= j) by (unfold k; lia).
        assert (Hpk : 0 < 2 ^ k) by (apply Z.pow_pos_nonneg; lia).
        assert (Hsplit : M = s * 2 ^ (j - k) * 2 ^ k).
        { subst M. rewrite <- Z.mul_assoc, <- Z.pow_add_r by lia.
          f_equal. f_equal. lia. }
        assert (HMpos : 0 < M) by (subst M; nia).
        rewrite Z.sgn_pos by exact HMpos. rewrite Z.abs_eq by lia.
        unfold JS.div_half_even.
        assert (Hq : M / 2 ^ k = s * 2 ^ (j - k))
          by (rewrite Hsplit; apply Z.div_mul; lia).
        assert (Hr : M mod 2 ^ k = 0)
          by (rewrite Hsplit; apply Z.mod_mul; lia).
        rewrite Hq, Hr.
        assert (Hhalf : 0 < 2 ^ (k - 1)) by (apply Z.pow_pos_nonneg; lia).
        destruct (Z.ltb_spec 0 (2 ^ (k - 1))); [| lia].
        rewrite Z.mul_1_l.
        unfold JS.to_integer.
        destruct (Z.leb_spec 0 (e + k)) as [Hek | Hek].
        -- assert (j - k = 0) by (unfold j in *; lia).
           assert (e + k = 0) by (unfold j in *; lia).
           replace (j - k) with 0 by lia. replace (e + k) with 0 by lia.
           simpl. f_equal. lia.
        -- replace (- (e + k)) with (j - k) by (unfold j; lia).
           assert (0 < 2 ^ (j - k)) by (apply Z.pow_pos_nonneg; lia).
           rewrite Z.mod_mul by lia. simpl. now rewrite Z.div_mul by lia.
Qed.

(** [x + y] of two non-negative whole numbers is their sum, below [2^53]. *)
Lemma add_integers (x y : JS.number) (a b : Z) :
  JS.to_integer x = Some a -> JS.to_integer y = Some b ->
  0 <= a -> 0 <= b -> a + b < 2 ^ 53 ->
  JS.to_integer (JS.add x y) = Some (a + b).
Proof.
  intros Hx Hy Ha Hb Hsum.
  destruct x as [| mx ex]; [discriminate Hx |].
  destruct y as [| my ey]; [discriminate Hy |].
  unfold JS.add.
  pose proof (aligned_mantissa mx ex a (Z.min ex ey) Hx (Z.le_min_l ex ey)) as [Hx0 Hx1].
  pose proof (aligned_mantissa my ey b (Z.min ex ey) Hy (Z.le_min_r ex ey)) as [Hy0 Hy1].
  apply round53_integer; [lia | |].
  - intros H0. rewrite Z.mul_add_distr_r, (Hx0 H0), (Hy0 H0). reflexivity.
  - intros H0. rewrite (Hx1 H0), (Hy1 H0). lia.
Qed.

Lemma compare_scaled (a b p : Z) : 0 < p -> (a * p ?= b * p) = (a ?= b).
Proof.
  intros Hp. destruct (Z.compare_spec a b) as [-> | Hlt | Hgt].
  - apply Z.compare_refl.
  - apply Z.compare_lt_iff. nia.
  - apply Z.compare_gt_iff. nia.
Qed.

(** The order of two whole numbers is the order of the integers. *)
Lemma compare_integers (x y : JS.number) (a b : Z) :
  JS.to_integer x = Some a -> JS.to_integer y = Some b ->
  JS.compare x y = Some (a ?= b).
Proof.
  intros Hx Hy.
  destruct x as [| mx ex]; [discriminate Hx |].
  destruct y as [| my ey]; [discriminate Hy |].
  unfold JS.compare. f_equal.
  pose proof (aligned_mantissa mx ex a (Z.min ex ey) Hx (Z.le_min_l ex ey)) as [Hx0 Hx1].
  pose proof (aligned_mantissa my ey b (Z.min ex ey) Hy (Z.le_min_r ex ey)) as [Hy0 Hy1].
  destruct (Z.leb_spec 0 (Z.min ex ey)) as [H0 | H0].
  - rewrite <- (Hx0 H0), <- (Hy0 H0).
    symmetry. apply compare_scaled. apply Z.pow_pos_nonneg; lia.
  - rewrite (Hx1 H0), (Hy1 H0).
    apply compare_scaled. apply Z.pow_pos_nonneg; lia.
Qed.

Lemma ltb_integers (x y : JS.number) (a b : Z) :
  JS.to_integer x = Some a -> JS.to_integer y = Some b ->
  JS.ltb x y = (a <? b).
Proof.
  intros Hx Hy. unfold JS.ltb. rewrite (compare_integers x y a b Hx Hy).
  unfold Z.ltb. destruct (a ?= b); reflexivity.
Qed.

Lemma gtb_integers (x y : JS.number) (a b : Z) :
  JS.to_integer x = Some a -> JS.to_integer y = Some b ->
  JS.gtb x y = (b <? a).
Proof.
  intros Hx Hy. unfold JS.gtb. rewrite (compare_integers x y a b Hx Hy).
  unfold Z.ltb. rewrite (Z.compare_antisym a b).
  destruct (a ?= b); reflexivity.
Qed.

Lemma falsy_integer (x : JS.number) (a : Z) :
  JS.to_integer x = Some a -> JS.falsy x = (a =? 0).
Proof.
  destruct x as [| m e]; [discriminate |]. intros Hx. simpl.
  apply to_integer_inv in Hx as [[He ->] | [He ->]].
  - assert (0 < 2 ^ e) by (apply Z.pow_pos_nonneg; lia).
    destruct (Z.eqb_spec m 0), (Z.eqb_spec (m * 2 ^ e) 0); try reflexivity; nia.
  - assert (0 < 2 ^ (- e)) by (apply Z.pow_pos_nonneg; lia).
    destruct (Z.eqb_spec (a * 2 ^ (- e)) 0), (Z.eqb_spec a 0); try reflexivity; nia.
Qed.

(** The buffer [0.001 * LAMPORTS_PER_SOL] is one million lamports. *)
Lemma balance_buffer_value :
  JS.to_integer (JS.mul lit_0_001 LAMPORTS_PER_SOL) = Some 1000000.
Proof. vm_compute. reflexivity. Qed.

Example buffer_agrees_with_binary64 :
  PrimFloat.eqb
    (JS.to_binary64 (JS.mul lit_0_001 LAMPORTS_PER_SOL))
    (PrimFloat.mul (JS.to_binary64 lit_0_001) (JS.to_binary64 LAMPORTS_PER_SOL)) = true.
Proof. vm_compute. reflexivity. Qed.

Lemma div_half_even_nonneg (m k : Z) : 0 <= m -> 0 <= JS.div_half_even m k.
Proof.
  intros Hm. unfold JS.div_half_even.
  assert (Hq : 0 <= m / 2 ^ k).
  { destruct (Z.leb_spec 0 k) as [Hk | Hk].
    - apply Z.div_pos; [exact Hm | apply Z.pow_pos_nonneg; lia].
    - rewrite Z.pow_neg_r by lia. rewrite Z.div_0_r. lia. }
  destruct (m mod 2 ^ k <? 2 ^ (k - 1)); [exact Hq |].
  destruct (2 ^ (k - 1) <? m mod 2 ^ k); [lia |].
  destruct (Z.even (m / 2 ^ k)); lia.
Qed.

Lemma round53_nonneg (m e : Z) :
  0 <= m -> exists m' e', JS.round53 (JS.Fin m e) = JS.Fin m' e' /\ 0 <= m'.
Proof.
  intros Hm. unfold JS.round53.
  destruct (JS.bitlen m - 53 <=? 0).
  - now exists m, e.
  - eexists _, _. split; [reflexivity |].
    pose proof (div_half_even_nonneg (Z.abs m) (JS.bitlen m - 53) (Z.abs_nonneg m)).
    assert (0 <= Z.sgn m) by lia. nia.
Qed.

Lemma mul_nonneg (mx ex my ey : Z) :
  0 <= mx -> 0 <= my ->
  exists m' e', JS.mul (JS.Fin mx ex) (JS.Fin my ey) = JS.Fin m' e' /\ 0 <= m'.
Proof. intros Hx Hy. unfold JS.mul. apply round53_nonneg. nia. Qed.

Lemma pow10_nonneg (d : nat) : exists m e, JS.pow10 d = JS.Fin m e /\ 0 <= m.
Proof.
  unfold JS.pow10, JS.of_Z. apply round53_nonneg. apply Z.pow_nonneg. lia.
Qed.

(** [Math.floor] of a non-negative number is a non-negative integer, and
    zero when the number is below one. *)
Lemma floor_whole (m e : Z) :
  0 <= m ->
  exists k, JS.to_integer (JS.floor (JS.Fin m e)) = Some k
            /\ 0 <= k
            /\ (JS.ltb (JS.Fin m e) (JS.of_Z 1) = true -> k = 0).
Proof.
  intros Hm. unfold JS.floor.
  destruct (Z.leb_spec 0 e) as [He | He].
  - exists (m * 2 ^ e). unfold JS.to_integer.
    destruct (Z.leb_spec 0 e); [| lia].
    assert (Hpow : 0 < 2 ^ e) by (apply Z.pow_pos_nonneg; lia).
    split; [reflexivity |]. split; [nia |].
    rewrite of_Z_exact by lia. unfold JS.ltb, JS.compare.
    rewrite Z.min_r by lia. rewrite Z.sub_0_r, Z.mul_1_l. simpl Z.pow.
    destruct (Z.compare_spec (m * 2 ^ e) 1); try discriminate. intros _. nia.
  - exists (m / 2 ^ (- e)). rewrite to_integer_of_integer.
    assert (Hpow : 0 < 2 ^ (- e)) by (apply Z.pow_pos_nonneg; lia).
    split; [reflexivity |]. split; [apply Z.div_pos; lia |].
    rewrite of_Z_exact by lia. unfold JS.ltb, JS.compare.
    rewrite Z.min_l by lia. rewrite Z.sub_diag, Z.mul_1_r, Z.mul_1_l, Z.sub_0_l.
    destruct (Z.compare_spec m (2 ^ (- e))); try discriminate. intros _.
    apply Z.div_small. lia.
Qed.

Local Open Scope string_scope.

(* ===================================================================== *)
(** * The scaled supply as a double *)
(* ===================================================================== *)

Local Open Scope Z_scope.

(** Rounding to the nearest multiple of [2^k], ties to even. *)
Lemma div_half_even_spec (m k : Z) :
  0 <= m -> 0 < k ->
  let r := JS.div_half_even m k in
  (forall q, Z.abs (r * 2 ^ k - m) <= Z.abs (q * 2 ^ k - m))
  /\ (2 * Z.abs (r * 2 ^ k - m) = 2 ^ k -> Z.even r = true)
  /\ (m mod 2 ^ k = 0 -> r * 2 ^ k = m)
  /\ m / 2 ^ k <= r <= m / 2 ^ k + 1.
Proof.
  intros Hm Hk r. subst r. unfold JS.div_half_even.
  assert (Hpow : 2 ^ k = 2 * 2 ^ (k - 1))
    by (rewrite <- Z.pow_succ_r by lia; f_equal; lia).
  assert (Hhalf : 0 < 2 ^ (k - 1)) by (apply Z.pow_pos_nonneg; lia).
  pose proof (Z.div_mod m (2 ^ k) ltac:(lia)) as Hdm.
  pose proof (Z.mod_pos_bound m (2 ^ k) ltac:(lia)) as Hrem.
  revert Hpow Hhalf Hdm Hrem.
  generalize (2 ^ k) as P, (2 ^ (k - 1)) as h, (m / 2 ^ k) as q0, (m mod 2 ^ k) as rem.
  intros P h q0 rem Hpow Hhalf Hdm Hrem.
  assert (Hfar : forall q, q <= q0 -> q * P <= q0 * P) by (intros; nia).
  assert (Hfar' : forall q, q0 < q -> (q0 + 1) * P <= q * P) by (intros; nia).
  destruct (Z.ltb_spec rem h) as [Hlow | Hnotlow];
    [| destruct (Z.ltb_spec h rem) as [Hhigh | Hnothigh];
       [| destruct (Z.even q0) eqn:Heven]].
  - repeat split; try lia.
    intros q. destruct (Z.le_gt_cases q q0) as [Hq | Hq];
      [specialize (Hfar q Hq) | specialize (Hfar' q Hq)]; lia.
  - repeat split; try lia.
    intros q. destruct (Z.le_gt_cases q q0) as [Hq | Hq];
      [specialize (Hfar q Hq) | specialize (Hfar' q Hq)]; lia.
  - repeat split; try lia.
    + intros q. destruct (Z.le_gt_cases q q0) as [Hq | Hq];
        [specialize (Hfar q Hq) | specialize (Hfar' q Hq)]; lia.
    + intros _. exact Heven.
  - repeat split; try lia.
    + intros q. destruct (Z.le_gt_cases q q0) as [Hq | Hq];
        [specialize (Hfar q Hq) | specialize (Hfar' q Hq)]; lia.
    + intros _. rewrite Z.add_1_r, Z.even_succ, <- Z.negb_even, Heven. reflexivity.
Qed.

Lemma bitlen_bounds (m : Z) :
  0 < m -> 2 ^ (JS.bitlen m - 1) <= m < 2 ^ JS.bitlen m.
Proof.
  intros Hm. unfold JS.bitlen.
  destruct (Z.eqb_spec m 0) as [H0 | _]; [lia |].
  rewrite Z.abs_eq by lia.
  pose proof (Z.log2_spec m Hm) as Hlog.
  replace (Z.log2 m + 1 - 1) with (Z.log2 m) by lia.
  replace (Z.log2 m + 1) with (Z.succ (Z.log2 m)) by lia. exact Hlog.
Qed.

(** A multiple of the spacing that is nearest among the multiples is
    nearest among all doubles [M * 2^E], [|M| < 2^53]: the doubles of the
    binade of [product] are the multiples of the spacing, and the binade's
    lower end is one of them. *)
Lemma nearest_multiple_is_nearest_double (product a : Z) :
  0 < product ->
  let K := Z.max 0 (JS.bitlen product - 53) in
  (forall q, Z.abs (a - product) <= Z.abs (q * 2 ^ K - product)) ->
  forall M E,
    Z.abs M < 2 ^ 53 ->
    (0 <= E -> Z.abs (a - product) <= Z.abs (M * 2 ^ E - product))
    /\ (E < 0 -> Z.abs (a - product) * 2 ^ (- E) <= Z.abs (M - product * 2 ^ (- E))).
Proof.
  intros Hproduct K Hnearest M E HM.
  destruct (bitlen_bounds product Hproduct) as [Hlow Hhigh].
  destruct (Z.le_gt_cases (JS.bitlen product) 53) as [Hsmall | Hlarge].
  - (* spacing 1: the product itself is a double *)
    assert (HK : K = 0) by (subst K; lia).
    specialize (Hnearest product). rewrite HK in Hnearest.
    replace (Z.abs (product * 2 ^ 0 - product)) with 0 in Hnearest
      by (rewrite Z.pow_0_r; lia).
    assert (Hzero : Z.abs (a - product) = 0) by lia. rewrite Hzero.
    split; intros _; lia.
  - assert (HK : K = JS.bitlen product - 53) by (subst K; lia).
    assert (HKpos : 0 < K) by lia.
    assert (Hend : 2 ^ 52 * 2 ^ K = 2 ^ (JS.bitlen product - 1))
      by (rewrite <- Z.pow_add_r by lia; f_equal; lia).
    pose proof (Hnearest (2 ^ 52)) as Hbottom. rewrite Hend in Hbottom.
    assert (H53 : 2 ^ 53 <= 2 ^ (JS.bitlen product - 1))
      by (apply Z.pow_le_mono_r; lia).
    split; intros HE.
    + destruct (Z.lt_ge_cases (M * 2 ^ E) (2 ^ (JS.bitlen product - 1))) as [Hbelow | Hin].
      * lia.
      * (* a double of this binade or above is a multiple of the spacing *)
        assert (HpowE : 0 < 2 ^ E) by (apply Z.pow_pos_nonneg; lia).
        assert (HMpos : 0 < M) by nia.
        assert (Hlt : 2 ^ (JS.bitlen product - 1) < 2 ^ (53 + E)).
        { rewrite Z.pow_add_r by lia. nia. }
        apply Z.pow_lt_mono_r_iff in Hlt; [| lia | lia].
        replace (M * 2 ^ E) with ((M * 2 ^ (E - K)) * 2 ^ K).
        -- apply Hnearest.
        -- rewrite <- Z.mul_assoc, <- Z.pow_add_r by lia. do 2 f_equal. lia.
    + assert (Hpowj : 1 <= 2 ^ (- E))
        by (change 1 with (2 ^ 0); apply Z.pow_le_mono_r; lia).
      assert (Habs : Z.abs (a - product) <= product - 2 ^ (JS.bitlen product - 1)) by lia.
      assert (HMlow : M < 2 ^ (JS.bitlen product - 1) * 2 ^ (- E)) by nia.
      assert (Hscaled : Z.abs (a - product) * 2 ^ (- E)
                        <= (product - 2 ^ (JS.bitlen product - 1)) * 2 ^ (- E))
        by (apply Z.mul_le_mono_nonneg_r; lia).
      lia.
Qed.

(** [supply * Math.pow(10, decimals)] for a positive supply [m * 2^e] and
    at most 9 decimals.  With [scaled = m * 10^decimals], the exact product
    in units of [2^e], the result has the mantissa nearest to
    [scaled / 2^shift], ties to even. *)
Lemma scaled_mantissa_rounded (m e : Z) (d : nat) :
  0 < m -> (d <= 9)%nat ->
  let scaled := m * 10 ^ Z.of_nat d in
  let shift := Z.max 0 (JS.bitlen scaled - 53) in
  exists r,
    JS.mul (JS.Fin m e) (JS.pow10 d) = JS.Fin r (e + shift)
    /\ (scaled mod 2 ^ shift = 0 -> r * 2 ^ shift = scaled)
    /\ 0 < r <= 2 ^ 53
    /\ (forall q, Z.abs (r * 2 ^ shift - scaled) <= Z.abs (q * 2 ^ shift - scaled))
    /\ (2 * Z.abs (r * 2 ^ shift - scaled) = 2 ^ shift -> Z.even r = true).
Proof.
  intros Hm Hd scaled shift.
  assert (Hten : 0 < 10 ^ Z.of_nat d) by (apply Z.pow_pos_nonneg; lia).
  assert (Hten' : 10 ^ Z.of_nat d <= 10 ^ 9) by (apply Z.pow_le_mono_r; lia).
  rewrite pow10_exact by (change (2 ^ 53) with 9007199254740992; lia).
  unfold JS.mul. rewrite Z.add_0_r. fold scaled.
  assert (Hscaled : 0 < scaled) by (subst scaled; nia).
  destruct (bitlen_bounds scaled Hscaled) as [Hlow Hhigh].
  unfold JS.round53.
  destruct (Z.leb_spec (JS.bitlen scaled - 53) 0) as [Hfits | Hwide].
  - (* the mantissa fits: the product is exact *)
    assert (Hshift : shift = 0) by (subst shift; lia).
    assert (Hbelow : scaled < 2 ^ 53).
    { eapply Z.lt_le_trans; [exact Hhigh |]. apply Z.pow_le_mono_r; lia. }
    exists scaled. rewrite Hshift, Z.add_0_r, Z.pow_0_r, Z.mul_1_r.
    split; [reflexivity |]. split; [reflexivity |]. split; [lia |].
    split; [intros q; lia | lia].
  - (* the mantissa is rounded to 53 bits *)
    assert (Hshift : shift = JS.bitlen scaled - 53) by (subst shift; lia).
    rewrite <- Hshift in *.
    destruct (div_half_even_spec scaled shift ltac:(lia) Hwide)
      as (Hnear & Htie & Hexact & Hr).
    assert (Hsgn : Z.sgn scaled = 1) by lia.
    rewrite Hsgn, Z.abs_eq, Z.mul_1_l by lia.
    set (r := JS.div_half_even scaled shift) in *.
    assert (Hpow : 0 < 2 ^ shift) by (apply Z.pow_pos_nonneg; lia).
    assert (Hrlow : 2 ^ 52 <= scaled / 2 ^ shift).
    { apply Z.div_le_lower_bound; [lia |].
      rewrite <- Z.pow_add_r by lia.
      replace (shift + 52) with (JS.bitlen scaled - 1) by lia. exact Hlow. }
    assert (Hrhigh : scaled / 2 ^ shift < 2 ^ 53).
    { apply Z.div_lt_upper_bound; [lia |].
      rewrite <- Z.pow_add_r by lia.
      replace (shift + 53) with (JS.bitlen scaled) by lia. exact Hhigh. }
    exists r. split; [reflexivity |].
    split; [exact Hexact |]. split; [lia |]. split; [exact Hnear | exact Htie].
Qed.

(** A power of ten is never zero: the division of [maxBurnAmount] is by a
    number other than zero. *)
Lemma pow10_positive (d : nat) :
  exists m e, JS.pow10 d = JS.Fin m e /\ 0 < m.
Proof.
  unfold JS.pow10, JS.of_Z, JS.round53.
  set (n := 10 ^ Z.of_nat d).
  assert (Hn : 0 < n) by (subst n; apply Z.pow_pos_nonneg; lia).
  destruct (Z.leb_spec (JS.bitlen n - 53) 0) as [_ | Hwide].
  - exists n, 0. now split.
  - destruct (bitlen_bounds n Hn) as [Hlow _].
    destruct (div_half_even_spec n (JS.bitlen n - 53) ltac:(lia) Hwide)
      as (_ & _ & _ & Hr & _).
    assert (Hpow : 0 < 2 ^ (JS.bitlen n - 53)) by (apply Z.pow_pos_nonneg; lia).
    assert (Hquotient : 2 ^ 52 <= n / 2 ^ (JS.bitlen n - 53)).
    { apply Z.div_le_lower_bound; [lia |].
      rewrite <- Z.pow_add_r by lia.
      replace (JS.bitlen n - 53 + 52) with (JS.bitlen n - 1) by lia. exact Hlow. }
    eexists. eexists. split; [reflexivity |].
    assert (Hsgn : Z.sgn n = 1) by lia.
    rewrite Hsgn, Z.abs_eq by lia. lia.
Qed.

Lemma bitlen_le (x n : Z) : 0 < x -> 0 <= n -> x < 2 ^ n -> JS.bitlen x <= n.
Proof.
  intros Hx Hn Hlt. destruct (bitlen_bounds x Hx) as [Hlow _].
  destruct (Z.le_gt_cases (JS.bitlen x) n) as [Hle | Hgt]; [exact Hle |].
  exfalso.
  assert (2 ^ n <= 2 ^ (JS.bitlen x - 1)) by (apply Z.pow_le_mono_r; lia).
  lia.
Qed.

(** The exponent range of a supply from 1 to [2^64]. *)
Lemma supply_range (m e : Z) :
  0 < m <= 2 ^ 53 ->
  JS.ltb (JS.Fin m e) (JS.of_Z 1) = false ->
  JS.gtb (JS.Fin m e) (JS.of_Z (2 ^ 64 - 1)) = false ->
  -53 <= e /\ JS.bitlen m + e <= 65.
Proof.
  intros Hm Hlow Hhigh.
  change (JS.of_Z 1) with (JS.Fin 1 0) in Hlow.
  change (JS.of_Z (2 ^ 64 - 1)) with (JS.Fin (2 ^ 53) 11) in Hhigh.
  unfold JS.ltb, JS.compare in Hlow. unfold JS.gtb, JS.compare in Hhigh.
  cbv zeta in Hlow, Hhigh.
  assert (Hge : 1 * 2 ^ (0 - Z.min e 0) <= m * 2 ^ (e - Z.min e 0)).
  { destruct (Z.compare_spec (m * 2 ^ (e - Z.min e 0)) (1 * 2 ^ (0 - Z.min e 0)));
      try discriminate Hlow; lia. }
  assert (Hle : m * 2 ^ (e - Z.min e 11) <= 2 ^ 53 * 2 ^ (11 - Z.min e 11)).
  { destruct (Z.compare_spec (m * 2 ^ (e - Z.min e 11))
                (2 ^ 53 * 2 ^ (11 - Z.min e 11)));
      try discriminate Hhigh; lia. }
  clear Hlow Hhigh. split.
  - destruct (Z.le_gt_cases 0 e) as [He | He]; [lia |].
    rewrite Z.min_l, Z.sub_diag, Z.pow_0_r, Z.sub_0_l in Hge by lia.
    destruct (Z.le_gt_cases (- e) 53) as [Hfine | Hdeep]; [lia |].
    exfalso.
    assert (2 ^ 53 < 2 ^ (- e)) by (apply Z.pow_lt_mono_r; lia).
    lia.
  - assert (He : e <= 64).
    { destruct (Z.le_gt_cases e 64) as [Hfine | Hbig]; [exact Hfine |].
      exfalso. rewrite Z.min_r, Z.sub_diag, Z.pow_0_r in Hle by lia.
      assert (2 ^ 53 < 2 ^ (e - 11)) by (apply Z.pow_lt_mono_r; lia).
      nia. }
    assert (Hbound : m < 2 ^ (65 - e)).
    { destruct (Z.le_gt_cases e 11) as [Hsmall | Hlarge].
      - rewrite Z.min_l, Z.sub_diag, Z.pow_0_r, Z.mul_1_r in Hle by lia.
        rewrite <- Z.pow_add_r in Hle by lia.
        replace (53 + (11 - e)) with (64 - e) in Hle by lia.
        assert (2 ^ (64 - e) < 2 ^ (65 - e)) by (apply Z.pow_lt_mono_r; lia).
        lia.
      - rewrite Z.min_r, Z.sub_diag, Z.pow_0_r, Z.mul_1_r in Hle by lia.
        assert (Hsplit : 2 ^ 53 = 2 ^ (64 - e) * 2 ^ (e - 11))
          by (rewrite <- Z.pow_add_r by lia; f_equal; lia).
        assert (0 < 2 ^ (e - 11)) by (apply Z.pow_pos_nonneg; lia).
        assert (0 < 2 ^ (64 - e)) by (apply Z.pow_pos_nonneg; lia).
        assert (m <= 2 ^ (64 - e)) by nia.
        assert (2 ^ (64 - e) < 2 ^ (65 - e)) by (apply Z.pow_lt_mono_r; lia).
        lia. }
    pose proof (bitlen_le m (65 - e) ltac:(lia) ltac:(lia) Hbound). lia.
Qed.

Lemma bitlen_pos (x : Z) : 0 < x -> 1 <= JS.bitlen x.
Proof.
  intros Hx. unfold JS.bitlen. destruct (Z.eqb_spec x 0); [lia |].
  pose proof (Z.log2_nonneg (Z.abs x)). lia.
Qed.

Lemma bitlen_mul (x y : Z) :
  0 < x -> 0 < y -> JS.bitlen (x * y) <= JS.bitlen x + JS.bitlen y.
Proof.
  intros Hx Hy.
  destruct (bitlen_bounds x Hx) as [_ Hxhigh].
  destruct (bitlen_bounds y Hy) as [_ Hyhigh].
  pose proof (bitlen_pos x Hx). pose proof (bitlen_pos y Hy).
  apply bitlen_le; [nia | lia |].
  rewrite Z.pow_add_r by lia. nia.
Qed.

(** Rounding to 53 bits moves a positive number by less than one binade. *)
Lemma round53_range (M E : Z) :
  0 < M ->
  exists r E',
    JS.round53 (JS.Fin M E) = JS.Fin r E'
    /\ 0 < r /\ E <= E' /\ JS.bitlen r + E' <= JS.bitlen M + E + 1.
Proof.
  intros HM. unfold JS.round53.
  destruct (Z.leb_spec (JS.bitlen M - 53) 0) as [_ | Hwide].
  - exists M, E. repeat split; lia.
  - destruct (bitlen_bounds M HM) as [Hlow Hhigh].
    destruct (div_half_even_spec M (JS.bitlen M - 53) ltac:(lia) Hwide)
      as (_ & _ & _ & Hr).
    set (k := JS.bitlen M - 53) in *.
    assert (Hpow : 0 < 2 ^ k) by (apply Z.pow_pos_nonneg; lia).
    assert (Hquotient : 2 ^ 52 <= M / 2 ^ k).
    { apply Z.div_le_lower_bound; [lia |].
      rewrite <- Z.pow_add_r by lia.
      replace (k + 52) with (JS.bitlen M - 1) by (subst k; lia). exact Hlow. }
    assert (Hbelow : M / 2 ^ k < 2 ^ 53).
    { apply Z.div_lt_upper_bound; [lia |].
      rewrite <- Z.pow_add_r by lia.
      replace (k + 53) with (JS.bitlen M) by (subst k; lia). exact Hhigh. }
    assert (Hsgn : Z.sgn M = 1) by lia.
    rewrite Hsgn, Z.abs_eq, Z.mul_1_l by lia.
    eexists. eexists. split; [reflexivity |].
    assert (Hbits : JS.bitlen (JS.div_half_even M k) <= 54).
    { apply bitlen_le; [lia | lia |]. change (2 ^ 54) with (2 * 2 ^ 53). lia. }
    repeat split; lia.
Qed.

(** A power of ten up to [10^22], and an amount below [2^64] scaled by it,
    stay far from the end of the range of doubles. *)
Lemma pow10_range (d : nat) :
  (d <= 22)%nat ->
  exists p ep, JS.pow10 d = JS.Fin p ep /\ 0 < p /\ 0 <= ep /\ JS.bitlen p + ep <= 75.
Proof.
  intros Hd. unfold JS.pow10, JS.of_Z.
  assert (Hn : 0 < 10 ^ Z.of_nat d) by (apply Z.pow_pos_nonneg; lia).
  destruct (round53_range (10 ^ Z.of_nat d) 0 Hn) as (p & ep & Hvalue & Hp & Hep & Hbits).
  exists p, ep. split; [exact Hvalue |]. split; [exact Hp |]. split; [exact Hep |].
  assert (Hten : 10 ^ Z.of_nat d <= 10 ^ 22) by (apply Z.pow_le_mono_r; lia).
  assert (Hlen : JS.bitlen (10 ^ Z.of_nat d) <= 74).
  { apply bitlen_le; [exact Hn | lia |].
    eapply Z.le_lt_trans; [exact Hten | reflexivity]. }
  lia.
Qed.

Lemma amount_below_2_64 (m e : Z) :
  0 < m ->
  JS.ltb (JS.Fin m e) (JS.of_Z (2 ^ 64)) = true ->
  JS.bitlen m + e <= 64.
Proof.
  intros Hm Hbelow.
  change (JS.of_Z (2 ^ 64)) with (JS.Fin (2 ^ 52) 12) in Hbelow.
  unfold JS.ltb, JS.compare in Hbelow. cbv zeta in Hbelow.
  assert (Hlt : m * 2 ^ (e - Z.min e 12) < 2 ^ 52 * 2 ^ (12 - Z.min e 12)).
  { destruct (Z.compare_spec (m * 2 ^ (e - Z.min e 12))
                (2 ^ 52 * 2 ^ (12 - Z.min e 12)));
      try discriminate Hbelow; lia. }
  clear Hbelow.
  assert (He : e < 64).
  { destruct (Z.lt_ge_cases e 64) as [Hfine | Hbig]; [exact Hfine |].
    exfalso. rewrite Z.min_r, Z.sub_diag, Z.pow_0_r in Hlt by lia.
    assert (2 ^ 52 <= 2 ^ (e - 12)) by (apply Z.pow_le_mono_r; lia).
    nia. }
  assert (Hbound : m < 2 ^ (64 - e)).
  { destruct (Z.le_gt_cases e 12) as [Hsmall | Hlarge].
    - rewrite Z.min_l, Z.sub_diag, Z.pow_0_r, Z.mul_1_r in Hlt by lia.
      rewrite <- Z.pow_add_r in Hlt by lia.
      replace (52 + (12 - e)) with (64 - e) in Hlt by lia. exact Hlt.
    - rewrite Z.min_r, Z.sub_diag, Z.pow_0_r, Z.mul_1_r in Hlt by lia.
      assert (Hsplit : 2 ^ 52 = 2 ^ (64 - e) * 2 ^ (e - 12))
        by (rewrite <- Z.pow_add_r by lia; f_equal; lia).
      assert (0 < 2 ^ (e - 12)) by (apply Z.pow_pos_nonneg; lia).
      assert (0 < 2 ^ (64 - e)) by (apply Z.pow_pos_nonneg; lia).
      nia. }
  pose proof (bitlen_le m (64 - e) Hm ltac:(lia) Hbound). lia.
Qed.

Lemma scaled_amount_range (m e : Z) (d : nat) :
  0 <= m ->
  JS.ltb (JS.Fin m e) (JS.of_Z (2 ^ 64)) = true ->
  (d <= 22)%nat ->
  exists mq eq,
    JS.mul (JS.Fin m e) (JS.pow10 d) = JS.Fin mq eq
    /\ 0 <= mq
    /\ (mq = 0 \/ JS.bitlen mq + eq <= 140).
Proof.
  intros Hm Hbelow Hd.
  destruct (pow10_range d Hd) as (p & ep & -> & Hp & Hep & Hpbits).
  unfold JS.mul.
  destruct (Z.eq_dec m 0) as [-> | Hnz].
  - exists 0, (e + ep). split; [reflexivity |]. split; [lia | now left].
  - assert (Hpos : 0 < m) by lia.
    assert (Hproduct : 0 < m * p) by nia.
    destruct (round53_range (m * p) (e + ep) Hproduct)
      as (r & E' & -> & Hr & _ & Hbits).
    exists r, E'. split; [reflexivity |]. split; [lia |]. right.
    pose proof (bitlen_mul m p Hpos Hp).
    pose proof (amount_below_2_64 m e Hpos Hbelow). lia.
Qed.

(** The integer [Math.floor] yields is below the next power of two. *)
Lemma floor_below (m e k : Z) :
  0 <= m ->
  JS.to_integer (JS.floor (JS.Fin m e)) = Some k ->
  k < 2 ^ Z.max 0 (JS.bitlen m + e).
Proof.
  intros Hm. unfold JS.floor.
  destruct (Z.eq_dec m 0) as [-> | Hnz].
  { assert (Hzero : k = 0 -> k < 2 ^ Z.max 0 (JS.bitlen 0 + e)).
    { intros ->. apply Z.pow_pos_nonneg; lia. }
    destruct (Z.leb_spec 0 e); unfold JS.to_integer.
    - destruct (Z.leb_spec 0 e); [| lia]. intros [= <-]. now apply Hzero.
    - cbn. intros [= <-]. now apply Hzero. }
  assert (Hpos : 0 < m) by lia.
  destruct (bitlen_bounds m Hpos) as [_ Hhigh].
  pose proof (bitlen_pos m Hpos) as Hbits.
  destruct (Z.leb_spec 0 e) as [He | He]; unfold JS.to_integer.
  - destruct (Z.leb_spec 0 e); [| lia]. intros [= <-].
    rewrite Z.max_r by lia. rewrite Z.pow_add_r by lia.
    assert (0 < 2 ^ e) by (apply Z.pow_pos_nonneg; lia). nia.
  - change (0 <=? 0) with true. cbv iota.
    rewrite Z.pow_0_r, Z.mul_1_r. intros [= <-].
    assert (Hpow : 0 < 2 ^ (- e)) by (apply Z.pow_pos_nonneg; lia).
    destruct (Z.le_gt_cases 0 (JS.bitlen m + e)) as [Hin | Hout].
    + rewrite Z.max_r by lia. apply Z.div_lt_upper_bound; [lia |].
      rewrite <- Z.pow_add_r by lia.
      replace (- e + (JS.bitlen m + e)) with (JS.bitlen m) by lia. exact Hhigh.
    + rewrite Z.max_l by lia. rewrite Z.pow_0_r.
      assert (2 ^ JS.bitlen m <= 2 ^ (- e)) by (apply Z.pow_le_mono_r; lia).
      rewrite Z.div_small by lia. lia.
Qed.

Lemma floor_zero (e k : Z) :
  JS.to_integer (JS.floor (JS.Fin 0 e)) = Some k -> k = 0.
Proof.
  unfold JS.floor. destruct (Z.leb_spec 0 e) as [He | He]; unfold JS.to_integer.
  - destruct (Z.leb_spec 0 e); [| lia]. now intros [= <-].
  - change (0 <=? 0) with true. cbv iota. rewrite Z.div_0_l by (apply Z.pow_nonzero; lia).
    now intros [= <-].
Qed.

Section ScaledSupply.

Import CreateTokenWithUpload.

(** C3 (as amended). For a supply that [coinSchema] accepts, a double
    [m * 2^e] from 1 to [2^64], and at most 9 decimals, the amount passed
    to MintTo by [createToken] and by [createUltraCheapToken] is the double
    nearest to [supply * 10^decimals], ties to even: the code multiplies in
    double arithmetic and applies no truncation.  With
    [scaled = m * 10^decimals], the exact product in units of [2^e], and
    [nearest = mantissa * 2^shift], the amount in the same units: the
    amount is a double, well inside their exponent range; it is the
    product itself whenever the product is a double, so always when
    [scaled < 2^53]; no double is nearer to the product; of two nearest
    doubles it is the one with the even mantissa; and for a whole supply
    it is the integer [nearest * 2^e]. *)
Theorem mintAmount_is_nearest_double (m e : Z) (d : nat) :
  0 < m <= 2 ^ 53 ->
  JS.ltb (JS.Fin m e) (JS.of_Z 1) = false ->
  JS.gtb (JS.Fin m e) (JS.of_Z (2 ^ 64 - 1)) = false ->
  (d <= 9)%nat ->
  let scaled := m * 10 ^ Z.of_nat d in
  let shift := Z.max 0 (JS.bitlen scaled - 53) in
  exists mantissa : Z,
    let nearest := mantissa * 2 ^ shift in
    (forall payer mintKeypair metadataPDA associatedTokenAddress mintRent
            metadataUri blockhash (data : CoinFormData),
        supply data = JS.Fin m e -> decimals data = d ->
        mintTo_amounts
          (createToken_build payer mintKeypair metadataPDA associatedTokenAddress
             mintRent metadataUri blockhash data)
        = [JS.Fin mantissa (e + shift)])
    /\ (forall payer mintKeypair associatedTokenAddress mintRent blockhash
               (data : UltraCheapTokenData),
           uc_supply data = JS.Fin m e -> uc_decimals data = d ->
           mintTo_amounts
             (createUltraCheapToken_build payer mintKeypair associatedTokenAddress
                mintRent blockhash data)
           = [JS.Fin mantissa (e + shift)])
    (* the amount is a double: the product does not leave their range *)
    /\ 0 < mantissa <= 2 ^ 53
    /\ -1074 <= e + shift
    /\ JS.bitlen mantissa + (e + shift) <= 1024
    (* exact whenever the product is a double *)
    /\ (scaled mod 2 ^ shift = 0 -> nearest = scaled)
    /\ (scaled < 2 ^ 53 -> shift = 0 /\ mantissa = scaled)
    (* no double [M * 2^E] is nearer to the product *)
    /\ (forall M E,
           Z.abs M < 2 ^ 53 ->
           (e <= E -> Z.abs (nearest - scaled) <= Z.abs (M * 2 ^ (E - e) - scaled))
           /\ (E < e ->
               Z.abs (nearest - scaled) * 2 ^ (e - E)
               <= Z.abs (M - scaled * 2 ^ (e - E))))
    (* of two nearest doubles, the one with the even mantissa *)
    /\ (2 * Z.abs (nearest - scaled) = 2 ^ shift -> Z.even mantissa = true)
    (* a whole supply: the integer the amount denotes *)
    /\ (0 <= e ->
        JS.to_integer (JS.Fin mantissa (e + shift)) = Some (nearest * 2 ^ e)).
Proof.
  intros Hm Hatleast Hatmost Hd scaled shift.
  destruct (scaled_mantissa_rounded m e d (proj1 Hm) Hd)
    as (r & Hvalue & Hexact & Hmantissa & Hnearest & Htie).
  fold scaled in Hexact, Hnearest, Htie. fold shift in Hvalue, Hexact, Hnearest, Htie.
  assert (Hten : 0 < 10 ^ Z.of_nat d) by (apply Z.pow_pos_nonneg; lia).
  assert (Hscaled : 0 < scaled) by (subst scaled; nia).
  destruct (supply_range m e Hm Hatleast Hatmost) as [Helow Hehigh].
  assert (Hrange : 0 <= shift /\ JS.bitlen r + (e + shift) <= 1024).
  { assert (Hten' : 10 ^ Z.of_nat d <= 10 ^ 9) by (apply Z.pow_le_mono_r; lia).
    destruct (bitlen_bounds m (proj1 Hm)) as [_ Hmhigh].
    assert (Hpos : 1 <= JS.bitlen m).
    { unfold JS.bitlen. destruct (Z.eqb_spec m 0); [lia |].
      pose proof (Z.log2_nonneg (Z.abs m)). lia. }
    assert (Hbits : JS.bitlen scaled <= JS.bitlen m + 30).
    { apply bitlen_le; [exact Hscaled | lia |].
      rewrite Z.pow_add_r by lia.
      change (2 ^ 30) with 1073741824. change (10 ^ 9) with 1000000000 in Hten'.
      subst scaled. nia. }
    assert (Hr : JS.bitlen r <= 54).
    { apply bitlen_le; [lia | lia |].
      change (2 ^ 54) with (2 * 2 ^ 53). lia. }
    subst shift. lia. }
  exists r. cbv zeta.
  repeat match goal with |- _ /\ _ => split end; try assumption; try lia.
  - intros payer mintKeypair metadataPDA ata mintRent uri bh data Hsupply Hdecimals.
    unfold createToken_build, mintTo_amounts. rewrite Hsupply, Hdecimals, Hvalue.
    destruct (revokeMintAuthority data), (revokeFreezeAuthority data); reflexivity.
  - intros payer mintKeypair ata mintRent bh data Hsupply Hdecimals.
    unfold createUltraCheapToken_build, mintTo_amounts.
    rewrite Hsupply, Hdecimals, Hvalue. reflexivity.
  - intros Hbelow.
    destruct (bitlen_bounds scaled Hscaled) as [Hlow _].
    assert (Hbits : JS.bitlen scaled <= 53).
    { destruct (Z.le_gt_cases (JS.bitlen scaled) 53) as [Hle | Hgt]; [exact Hle |].
      exfalso.
      assert (2 ^ 53 <= 2 ^ (JS.bitlen scaled - 1)) by (apply Z.pow_le_mono_r; lia).
      lia. }
    assert (Hshift : shift = 0) by (subst shift; lia).
    split; [exact Hshift |].
    rewrite Hshift, Z.pow_0_r, Z.mul_1_r in Hexact. apply Hexact.
    apply Z.mod_1_r.
  - intros M E HM. split; intros HE.
    + apply (proj1 (nearest_multiple_is_nearest_double scaled (r * 2 ^ shift)
                      Hscaled Hnearest M (E - e) HM)). lia.
    + replace (e - E) with (- (E - e)) by lia.
      apply (proj2 (nearest_multiple_is_nearest_double scaled (r * 2 ^ shift)
                      Hscaled Hnearest M (E - e) HM)). lia.
  - intros He. unfold JS.to_integer.
    assert (Hshift : 0 <= shift) by (subst shift; lia).
    destruct (Z.leb_spec 0 (e + shift)) as [_ | Hneg]; [| lia].
    f_equal. rewrite Z.pow_add_r by lia. ring.
Qed.

End ScaledSupply.

Local Open Scope string_scope.

(* ===================================================================== *)
(** * More on token creation *)
(* ===================================================================== *)

Section MoreCreateToken.

Import CreateTokenWithUpload.

Context `{SDK}.

(** X1. Whatever the request, the transaction of [createUltraCheapToken]
    is CreateAccount, InitializeMint, CreateAssociatedAccount, MintTo: no
    metadata and no authority revocation.  The payer is both authorities
    of the mint, and the tokens go to the account the third instruction
    creates. *)
Theorem createUltraCheapToken_minimal_plan
    (connection : Connection) (payer : PublicKey) (data : UltraCheapTokenData)
    (mintKeypair : PublicKey) (mintRent : JS.number)
    (associatedTokenAddress : PublicKey) (balance : JS.number)
    (latest : BlockhashWithExpiryBlockHeight) :
  getMinimumBalanceForRentExemptMint connection = Ok mintRent ->
  getAssociatedTokenAddress mintKeypair payer = Ok associatedTokenAddress ->
  getBalance connection payer = Ok balance ->
  getLatestBlockhash connection = Ok latest ->
  exists transaction,
    createUltraCheapToken_transaction connection payer data mintKeypair = Ok transaction
    /\ instructions transaction
       = [SystemProgram_createAccount payer mintKeypair MINT_SIZE mintRent TOKEN_PROGRAM_ID;
          createInitializeMintInstruction mintKeypair (uc_decimals data) payer payer;
          createAssociatedTokenAccountInstruction payer associatedTokenAddress payer
            mintKeypair;
          createMintToInstruction mintKeypair associatedTokenAddress payer
            (JS.mul (uc_supply data) (JS.pow10 (uc_decimals data)))]
    /\ shape transaction
       = [CreateAccount; InitializeMint; CreateAssociatedAccount; MintTo].
Proof.
  intros Hrent Hata Hbalance Hlatest. eexists. split; [| split].
  - unfold createUltraCheapToken_transaction.
    rewrite Hrent; simpl bind. rewrite Hata; simpl bind.
    rewrite Hbalance; simpl bind. rewrite Hlatest; simpl bind. reflexivity.
  - reflexivity.
  - reflexivity.
Qed.

Lemma createUltraCheapToken_transaction_inv (connection : Connection)
    (payer : PublicKey) (data : UltraCheapTokenData) (mintKeypair : PublicKey)
    (transaction : Transaction) :
  createUltraCheapToken_transaction connection payer data mintKeypair = Ok transaction ->
  exists mintRent associatedTokenAddress latest,
    getMinimumBalanceForRentExemptMint connection = Ok mintRent
    /\ getAssociatedTokenAddress mintKeypair payer = Ok associatedTokenAddress
    /\ transaction
       = createUltraCheapToken_build payer mintKeypair associatedTokenAddress mintRent
           (blockhash latest) data.
Proof.
  unfold createUltraCheapToken_transaction. intros Hrun.
  await_in Hrun. await_in Hrun. await_in Hrun. await_in Hrun.
  injection Hrun as <-. exists a, a0, a2. repeat split; assumption.
Qed.

Lemma estimateUltraCheapTokenFee_transaction_inv (connection : Connection)
    (payer : PublicKey) (data : UltraCheapTokenData) (mintKeypair : PublicKey)
    (l : UltraCheapEstimateLocals) :
  estimateUltraCheapTokenFee_transaction connection payer data mintKeypair = Ok l ->
  exists associatedTokenAddress,
    getMinimumBalanceForRentExemptMint connection = Ok (ul_mintRent l)
    /\ getAssociatedTokenAddress mintKeypair payer = Ok associatedTokenAddress
    /\ ul_transaction l
       = estimateUltraCheapTokenFee_build payer mintKeypair associatedTokenAddress
           (ul_mintRent l) (ul_blockhash l) data.
Proof.
  unfold estimateUltraCheapTokenFee_transaction. intros Hrun.
  await_in Hrun. await_in Hrun. await_in Hrun. await_in Hrun.
  injection Hrun as <-. exists a1. repeat split; assumption.
Qed.

(** X2. The fee estimate of an ultra-cheap token is computed on a
    transaction with the same instruction types, in the same order, as
    the one [createUltraCheapToken] sends; with the same mint key and the
    same mint rent the two instruction sequences are equal. *)
Theorem ultraCheap_estimate_submit_parity
    (estimateConnection submitConnection : Connection) (payer : PublicKey)
    (data : UltraCheapTokenData) (temporaryKeypair mintKeypair : PublicKey)
    (l : UltraCheapEstimateLocals) (transaction : Transaction) :
  estimateUltraCheapTokenFee_transaction estimateConnection payer data temporaryKeypair
  = Ok l ->
  createUltraCheapToken_transaction submitConnection payer data mintKeypair
  = Ok transaction ->
  shape (ul_transaction l) = shape transaction
  /\ (temporaryKeypair = mintKeypair ->
      getMinimumBalanceForRentExemptMint estimateConnection
      = getMinimumBalanceForRentExemptMint submitConnection ->
      instructions (ul_transaction l) = instructions transaction).
Proof.
  intros Hestimate Hsubmit.
  apply estimateUltraCheapTokenFee_transaction_inv in Hestimate
    as (ataE & HrentE & HataE & ->).
  apply createUltraCheapToken_transaction_inv in Hsubmit
    as (rentC & ataC & latest & HrentC & HataC & ->).
  split; [reflexivity |].
  intros -> Hrent.
  rewrite HrentE, HrentC in Hrent. injection Hrent as ->.
  rewrite HataE in HataC. injection HataC as ->.
  reflexivity.
Qed.

(** X3. When the metadata upload fails, [createToken] throws
    "Failed to create token metadata: " followed by the service's message,
    whatever the wallet would have answered: nothing is handed to the
    wallet. *)
Theorem createToken_upload_failure
    (connection : Connection) (payer : PublicKey) (data : CoinFormData)
    (mintKeypair : PublicKey) (mintRent : JS.number)
    (associatedTokenAddress : PublicKey) (message : string) :
  getMinimumBalanceForRentExemptMint connection = Ok mintRent ->
  getAssociatedTokenAddress mintKeypair payer = Ok associatedTokenAddress ->
  createTokenMetadata
    (mkTokenMetadataRequest mintKeypair (name data) (symbol data)
       (description data) (imageFile data)) = Throw message ->
  forall send,
    createToken connection payer send data mintKeypair
    = Throw ("Failed to create token metadata: " ++ message).
Proof.
  intros Hrent Hata Hupload send.
  unfold createToken, createToken_transaction.
  rewrite Hrent; simpl bind. rewrite Hata; simpl bind. rewrite Hupload. reflexivity.
Qed.

(** X4. An error of the balance request that [createUltraCheapToken]
    makes before building its transaction is rethrown as it is: it does
    not pass through the message mapping of the send phase, and nothing is
    handed to the wallet. *)
Theorem createUltraCheapToken_balance_failure
    (connection : Connection) (payer : PublicKey) (data : UltraCheapTokenData)
    (mintKeypair : PublicKey) (mintRent : JS.number)
    (associatedTokenAddress : PublicKey) (message : string) :
  getMinimumBalanceForRentExemptMint connection = Ok mintRent ->
  getAssociatedTokenAddress mintKeypair payer = Ok associatedTokenAddress ->
  getBalance connection payer = Throw message ->
  forall send,
    createUltraCheapToken connection payer send data mintKeypair = Throw message.
Proof.
  intros Hrent Hata Hbalance send.
  unfold createUltraCheapToken, createUltraCheapToken_transaction.
  rewrite Hrent; simpl bind. rewrite Hata; simpl bind. rewrite Hbalance. reflexivity.
Qed.

(** X5. When the transaction is sent and its confirmation resolves with
    an on-chain error, [createToken] still returns the mint key, while
    [createUltraCheapToken] throws "Transaction failed: " followed by the
    error, passed through its message mapping. *)
Theorem confirmation_error_handling
    (connection : Connection) (payer : PublicKey)
    (send : Transaction -> list PublicKey -> result string)
    (mintKeypair : PublicKey) (signature err : string) :
  confirmTransaction connection signature = Ok (Some err) ->
  (forall (data : CoinFormData) prepared,
      createToken_transaction connection payer data mintKeypair = Ok prepared ->
      send (fst prepared) [mintKeypair] = Ok signature ->
      createToken connection payer send data mintKeypair
      = Ok (mkCreateTokenResult mintKeypair (snd prepared)))
  /\ (forall (data : UltraCheapTokenData) transaction,
         createUltraCheapToken_transaction connection payer data mintKeypair
         = Ok transaction ->
         send transaction [mintKeypair] = Ok signature ->
         createUltraCheapToken connection payer send data mintKeypair
         = Throw (ultraCheap_error_message ("Transaction failed: " ++ err))).
Proof.
  intros Hconfirm. split.
  - intros data prepared Hprepared Hsend. unfold createToken.
    rewrite Hprepared; simpl bind. rewrite Hsend; simpl bind.
    pose proof Hprepared as Hinv.
    apply createToken_transaction_inv in Hinv as (_ & _ & _ & latest & _ & _ & _ & Hl & _).
    rewrite Hl; cbn [bind]. rewrite Hconfirm. reflexivity.
  - intros data transaction Hbuilt Hsend. unfold createUltraCheapToken.
    rewrite Hbuilt; simpl bind. rewrite Hsend; simpl bind. rewrite Hconfirm.
    reflexivity.
Qed.

(** X6. With whole, non-negative rent figures and fee whose sum stays
    below [2^53], the estimate of [estimateCreateTokenFee] is exactly
    mint rent + token account rent + metadata account rent + 10,000,000
    (the protocol fee) + the fee of the message: the double additions lose
    nothing. *)
Theorem estimate_is_exact_sum
    (connection : Connection) (payer : PublicKey) (data : CoinFormData)
    (mintKeypair : PublicKey) (l : EstimateLocals)
    (feeForMessage : Message -> result (option JS.number)) (fee : JS.number)
    (mintRent tokenAccountRent metadataAccountRent lamports : Z) :
  estimateCreateTokenFee_transaction connection payer data mintKeypair = Ok l ->
  getFeeForMessage connection = Some feeForMessage ->
  feeForMessage (compileMessage (el_transaction l)) = Ok (Some fee) ->
  JS.to_integer (el_mintRent l) = Some mintRent ->
  JS.to_integer (el_tokenAccountRent l) = Some tokenAccountRent ->
  JS.to_integer (el_metadataAccountRent l) = Some metadataAccountRent ->
  JS.to_integer fee = Some lamports ->
  (0 <= mintRent)%Z -> (0 <= tokenAccountRent)%Z -> (0 <= metadataAccountRent)%Z ->
  (0 <= lamports)%Z ->
  (mintRent + tokenAccountRent + metadataAccountRent + 10000000 + lamports < 2 ^ 53)%Z ->
  exists total,
    estimateCreateTokenFee connection payer data mintKeypair = Ok total
    /\ JS.to_integer total
       = Some (mintRent + tokenAccountRent + metadataAccountRent + 10000000
               + lamports)%Z.
Proof.
  intros Hl Hmethod Hfee Hmint Htoken Hmeta Hlamports H0 H1 H2 H3 Hbound.
  eexists. split.
  - unfold estimateCreateTokenFee.
    rewrite Hl; cbn [bind]. rewrite Hmethod, Hfee. cbn [bind]. reflexivity.
  - unfold sum_numbers. simpl fold_left. simpl JS.of_nullable.
    repeat (apply add_integers; try lia); try assumption.
    exact metaplexProtocolFee_value.
Qed.

End MoreCreateToken.

(* ===================================================================== *)
(** * The creation pages *)
(* ===================================================================== *)

(** The balance check in lamports: it refuses exactly the balances below
    the estimate plus one million. *)
Lemma balanceCheck_in_lamports (connection : Connection) (payer : PublicKey)
    (estimate balance : JS.number) (b f : Z) :
  getBalance connection payer = Ok balance ->
  JS.to_integer balance = Some b ->
  JS.to_integer estimate = Some f ->
  (0 <= f)%Z -> (f + 1000000 < 2 ^ 53)%Z ->
  balanceCheck connection payer estimate
  = if (b <? f + 1000000)%Z
    then Some (InsufficientBalanceAlert balance
                 (JS.add estimate (JS.mul lit_0_001 LAMPORTS_PER_SOL)))
    else None.
Proof.
  intros Hbalance Hb Hf Hf0 Hbound. unfold balanceCheck. rewrite Hbalance.
  assert (Hrequired :
            JS.to_integer (JS.add estimate (JS.mul lit_0_001 LAMPORTS_PER_SOL))
            = Some (f + 1000000)%Z).
  { apply add_integers; try assumption; try lia. exact balance_buffer_value. }
  now rewrite (ltb_integers _ _ b (f + 1000000)%Z Hb Hrequired).
Qed.

Section CreationPages.

Import CreateTokenWithUpload.

Context `{SDK}.

(** With a [sendTransaction] that rejects with [Error]s, the creation
    functions throw [Error]s only. *)
Lemma createToken_sending_of_result (connection : Connection) (payer : PublicKey)
    (send : Transaction -> list PublicKey -> result string)
    (data : CoinFormData) (mintKeypair : PublicKey) :
  createToken_sending connection payer
    (fun transaction signers => attempted (send transaction signers)) data mintKeypair
  = attempted (createToken connection payer send data mintKeypair).
Proof.
  unfold createToken_sending, createToken.
  destruct (createToken_transaction connection payer data mintKeypair)
    as [prepared | failure]; [| reflexivity].
  cbn [attempted andThen bind].
  destruct (send (fst prepared) [mintKeypair]) as [signature | failure]; [| reflexivity].
  cbn [attempted andThen bind].
  destruct (getLatestBlockhash connection) as [latest | failure]; [| reflexivity].
  cbn [attempted andThen bind].
  destruct (confirmTransaction connection signature) as [err | failure]; reflexivity.
Qed.

Lemma createUltraCheapToken_sending_of_result (connection : Connection)
    (payer : PublicKey) (send : Transaction -> list PublicKey -> result string)
    (data : UltraCheapTokenData) (mintKeypair : PublicKey) :
  createUltraCheapToken_sending connection payer
    (fun transaction signers => attempted (send transaction signers)) data mintKeypair
  = attempted (createUltraCheapToken connection payer send data mintKeypair).
Proof.
  unfold createUltraCheapToken_sending, createUltraCheapToken.
  destruct (createUltraCheapToken_transaction connection payer data mintKeypair)
    as [transaction | failure]; [| reflexivity].
  cbn [attempted andThen bind].
  destruct (send transaction [mintKeypair]) as [signature | failure]; [| reflexivity].
  cbn [attempted andThen bind].
  destruct (confirmTransaction connection signature) as [[e |] | failure]; reflexivity.
Qed.

(** The handlers with the wallet of the model. *)
Lemma handleConfirm_of_wallet (wallet : Wallet) (connection : Connection)
    (pendingFormData : option CoinFormData) (fee : FeeState) (mintKeypair : PublicKey) :
  CoinCreator.handleConfirm wallet connection pendingFormData fee mintKeypair
  = match pendingFormData, publicKey wallet with
    | Some data, Some payer =>
        match balanceRefusal connection payer fee with
        | Some alert => Alerted alert
        | None =>
            match createToken connection payer (sendTransaction wallet) data
                    mintKeypair with
            | Ok created => Created (mintPubkey created)
            | Throw message => Alerted (AlertText (CoinCreator.creationAlert message))
            end
        end
    | _, _ => Ignored
    end.
Proof.
  unfold CoinCreator.handleConfirm, CoinCreator.handleConfirm_sending.
  destruct pendingFormData as [data |]; [| reflexivity].
  destruct (publicKey wallet) as [payer |]; [| reflexivity].
  destruct (balanceRefusal connection payer fee); [reflexivity |].
  rewrite createToken_sending_of_result.
  destruct (createToken connection payer (sendTransaction wallet) data mintKeypair);
    reflexivity.
Qed.

Lemma onSubmit_of_wallet (wallet : Wallet) (connection : Connection)
    (fee : FeeState) (data : UltraCheapTokenData) (mintKeypair : PublicKey) :
  UltraCheapTokenCreator.onSubmit wallet connection fee data mintKeypair
  = match publicKey wallet with
    | None => Alerted (AlertText connectWalletMessage)
    | Some payer =>
        match balanceRefusal connection payer fee with
        | Some alert => Alerted alert
        | None =>
            match createUltraCheapToken connection payer (sendTransaction wallet)
                    data mintKeypair with
            | Ok created => Created created
            | Throw message =>
                Alerted (AlertText (UltraCheapTokenCreator.creationAlert message))
            end
        end
    end.
Proof.
  unfold UltraCheapTokenCreator.onSubmit, UltraCheapTokenCreator.onSubmit_sending.
  destruct (publicKey wallet) as [payer |]; [| reflexivity].
  destruct (balanceRefusal connection payer fee); [reflexivity |].
  rewrite createUltraCheapToken_sending_of_result.
  destruct (createUltraCheapToken connection payer (sendTransaction wallet) data
              mintKeypair); reflexivity.
Qed.

(** X7. With an estimate of [f > 0] lamports and a wallet balance of [b]
    lamports, both creation pages refuse with the insufficient-balance
    alert when [b < f + 1,000,000], without starting the creation, and go
    on to the creation otherwise. *)
Theorem creation_needs_estimate_plus_buffer
    (wallet : Wallet) (connection : Connection) (payer : PublicKey)
    (fee : FeeState) (estimate balance : JS.number) (b f : Z)
    (mintKeypair : PublicKey) :
  publicKey wallet = Some payer ->
  estimatedFee fee = Some estimate ->
  getBalance connection payer = Ok balance ->
  JS.to_integer balance = Some b ->
  JS.to_integer estimate = Some f ->
  (0 < f)%Z -> (f + 1000000 < 2 ^ 53)%Z ->
  let refusal :=
    Alerted (InsufficientBalanceAlert balance
               (JS.add estimate (JS.mul lit_0_001 LAMPORTS_PER_SOL))) in
  (forall data : CoinFormData,
      CoinCreator.handleConfirm wallet connection (Some data) fee mintKeypair
      = if (b <? f + 1000000)%Z then refusal
        else match createToken connection payer (sendTransaction wallet) data
                     mintKeypair with
             | Ok created => Created (mintPubkey created)
             | Throw message => Alerted (AlertText (CoinCreator.creationAlert message))
             end)
  /\ (forall data : UltraCheapTokenData,
         UltraCheapTokenCreator.onSubmit wallet connection fee data mintKeypair
         = if (b <? f + 1000000)%Z then refusal
           else match createUltraCheapToken connection payer (sendTransaction wallet)
                        data mintKeypair with
                | Ok created => Created created
                | Throw message =>
                    Alerted (AlertText (UltraCheapTokenCreator.creationAlert message))
                end).
Proof.
  intros Hwallet Hfee Hbalance Hb Hf Hpos Hbound refusal.
  assert (Htruthy : JS.falsy estimate = false).
  { rewrite (falsy_integer estimate f Hf). apply Z.eqb_neq. lia. }
  assert (Hcheck := balanceCheck_in_lamports connection payer estimate balance b f
                      Hbalance Hb Hf (Z.lt_le_incl _ _ Hpos) Hbound).
  split; intros data.
  - rewrite handleConfirm_of_wallet, Hwallet. unfold balanceRefusal.
    rewrite Hfee, Htruthy, Hcheck.
    destruct (b <? f + 1000000)%Z; reflexivity.
  - rewrite onSubmit_of_wallet, Hwallet. unfold balanceRefusal.
    rewrite Hfee, Htruthy, Hcheck.
    destruct (b <? f + 1000000)%Z; reflexivity.
Qed.

(** X8. Without an estimate, or with an estimate of zero, neither page
    looks at the balance: the creation starts whatever the wallet holds,
    and even when the balance request would fail. *)
Theorem creation_without_estimate_skips_balance_check
    (wallet : Wallet) (connection : Connection) (payer : PublicKey)
    (fee : FeeState) (mintKeypair : PublicKey) :
  publicKey wallet = Some payer ->
  (estimatedFee fee = None
   \/ exists estimate, estimatedFee fee = Some estimate /\ JS.falsy estimate = true) ->
  (forall data : CoinFormData,
      CoinCreator.handleConfirm wallet connection (Some data) fee mintKeypair
      = match createToken connection payer (sendTransaction wallet) data mintKeypair with
        | Ok created => Created (mintPubkey created)
        | Throw message => Alerted (AlertText (CoinCreator.creationAlert message))
        end)
  /\ (forall data : UltraCheapTokenData,
         UltraCheapTokenCreator.onSubmit wallet connection fee data mintKeypair
         = match createUltraCheapToken connection payer (sendTransaction wallet)
                   data mintKeypair with
           | Ok created => Created created
           | Throw message =>
               Alerted (AlertText (UltraCheapTokenCreator.creationAlert message))
           end).
Proof.
  intros Hwallet Hfee.
  split; intros data.
  - rewrite handleConfirm_of_wallet, Hwallet. unfold balanceRefusal.
    destruct Hfee as [-> | (estimate & -> & ->)]; reflexivity.
  - rewrite onSubmit_of_wallet, Hwallet. unfold balanceRefusal.
    destruct Hfee as [-> | (estimate & -> & ->)]; reflexivity.
Qed.

(** The page's alert for a message that went through the mapping of
    [createUltraCheapToken]. *)
Lemma ultraCheap_alert_after_mapping (message : string) :
  let mapped := ultraCheap_error_message message in
  UltraCheapTokenCreator.creationAlert mapped
  = "Transaction was not confirmed within the expected time. Please check the Solana explorer to see if your token was created."
  \/ UltraCheapTokenCreator.creationAlert mapped
     = "Failed to create ultra cheap token: " ++ mapped.
Proof.
  unfold ultraCheap_error_message.
  destruct (includes "insufficient funds" message) eqn:H1; [right; reflexivity |].
  destruct (includes "blockhash not found" message) eqn:H2; [right; reflexivity |].
  destruct (includes "User rejected" message) eqn:H3; [right; reflexivity |].
  destruct (includes "Transaction was not confirmed" message) eqn:H4;
    [left; reflexivity |].
  right. cbv zeta. unfold UltraCheapTokenCreator.creationAlert.
  now rewrite H1, H2, H3, H4.
Qed.

(** An [Error] that [createUltraCheapToken] throws once its transaction is
    built has gone through its message mapping. *)
Lemma createUltraCheapToken_throws_mapped (connection : Connection)
    (payer : PublicKey) (send : Transaction -> list PublicKey -> Attempt string)
    (data : UltraCheapTokenData) (mintKeypair : PublicKey)
    (transaction : Transaction) (thrown : string) :
  createUltraCheapToken_transaction connection payer data mintKeypair = Ok transaction ->
  createUltraCheapToken_sending connection payer send data mintKeypair
  = Threw (ErrorInstance thrown) ->
  exists message, thrown = ultraCheap_error_message message.
Proof.
  intros Hbuilt. unfold createUltraCheapToken_sending. rewrite Hbuilt.
  cbn [attempted andThen].
  match goal with
  | |- match ?body with _ => _ end = _ -> _ => destruct body as [key | [message |]]
  end; intros Hthrown; try discriminate Hthrown.
  injection Hthrown as <-. now exists message.
Qed.

(** X9. The alerts of the ultra-cheap page when the transaction is built
    and sending or confirming fails, whatever [sendTransaction] throws.
    When the balance check refuses, its alert is shown.  Otherwise an
    [Error] reaches the page already reworded by [createUltraCheapToken]:
    the page's own alerts for insufficient funds, an expired transaction
    and a rejection by the user no longer match it, and the alert is the
    not-confirmed one or "Failed to create ultra cheap token: " followed
    by the reworded message; a thrown value that is not an [Error] is
    rethrown as it is and the alert is
    "Failed to create ultra cheap token. Please try again.". *)
Theorem ultraCheap_send_failure_alert
    (connection : Connection) (payer : PublicKey)
    (send : Transaction -> list PublicKey -> Attempt string)
    (fee : FeeState) (data : UltraCheapTokenData) (mintKeypair : PublicKey)
    (transaction : Transaction) (error : Thrown) :
  createUltraCheapToken_transaction connection payer data mintKeypair = Ok transaction ->
  createUltraCheapToken_sending connection payer send data mintKeypair = Threw error ->
  let outcome :=
    UltraCheapTokenCreator.onSubmit_sending (Some payer) send connection fee data
      mintKeypair in
  match balanceRefusal connection payer fee with
  | Some alert => outcome = Alerted alert
  | None =>
      match error with
      | ErrorInstance thrown =>
          outcome
          = Alerted (AlertText "Transaction was not confirmed within the expected time. Please check the Solana explorer to see if your token was created.")
          \/ outcome
             = Alerted (AlertText ("Failed to create ultra cheap token: " ++ thrown))
      | OtherValue =>
          outcome
          = Alerted (AlertText "Failed to create ultra cheap token. Please try again.")
      end
  end.
Proof.
  intros Hbuilt Hthrown. cbv zeta.
  unfold UltraCheapTokenCreator.onSubmit_sending.
  destruct (balanceRefusal connection payer fee) as [alert |]; [reflexivity |].
  rewrite Hthrown.
  destruct error as [thrown |]; [| reflexivity].
  destruct (createUltraCheapToken_throws_mapped _ _ _ _ _ _ _ Hbuilt Hthrown)
    as (message & ->).
  destruct (ultraCheap_alert_after_mapping message) as [-> | ->]; auto.
Qed.

End CreationPages.

(* ===================================================================== *)
(** * More on the tool pages *)
(* ===================================================================== *)

Lemma parsedMint_inv (mintInfo : option AccountData) (parsedData : ParsedInfo) :
  parsedMint mintInfo = Ok parsedData ->
  mintInfo = Some (ParsedData parsedData) /\ parsed_type parsedData = "mint".
Proof.
  unfold parsedMint. destruct mintInfo as [[| p] |]; try discriminate.
  destruct (String.eqb_spec (parsed_type p) "mint") as [Htype | Htype]; simpl;
    [| discriminate].
  intros [= ->]. split; [reflexivity | exact Htype].
Qed.

Lemma parsedMint_of_mint (parsedData : ParsedInfo) :
  parsed_type parsedData = "mint" ->
  parsedMint (Some (ParsedData parsedData)) = Ok parsedData.
Proof. intros Htype. unfold parsedMint. now rewrite Htype. Qed.

Lemma falsy_string_false_inv (text : option string) :
  falsy_string text = false -> exists s, text = Some s /\ s <> "".
Proof.
  destruct text as [s |]; simpl; [| discriminate].
  destruct (String.eqb_spec s ""); [discriminate |]. intros _. now exists s.
Qed.

Section MoreFreeze.

Import FreezeTokensClient.

Context `{SDK}.

(** X10. A freeze request that passes the state check freezes the
    target's associated token account, creating it first in the same
    transaction when it is not found on the ledger at submission,
    whatever the resolved state said about its existence. *)
Theorem freeze_creates_missing_account
    (wallet : Wallet) (connection : Connection) (payer : PublicKey)
    (accountInfo : option AccountInfo) (data : FreezeFormData)
    (mintPubkey targetPubkey tokenAccount : PublicKey) :
  publicKey wallet = Some payer ->
  action data = freeze ->
  (forall info, accountInfo = Some info -> exists_ info && frozen info = false) ->
  newPublicKey (tokenAddress data) = Ok mintPubkey ->
  newPublicKey (targetAddress data) = Ok targetPubkey ->
  getAssociatedTokenAddress mintPubkey targetPubkey = Ok tokenAccount ->
  let freezeAccount := createFreezeAccountInstruction tokenAccount mintPubkey payer in
  let create :=
    createAssociatedTokenAccountInstruction payer tokenAccount targetPubkey mintPubkey in
  let transaction :=
    mkTransaction None None
      (if resolved (getAccount connection tokenAccount)
       then [freezeAccount] else [create; freezeAccount]) in
  onSubmit wallet connection accountInfo data
  = Sent transaction (sendAndConfirm wallet connection transaction).
Proof.
  intros Hwallet Haction Hstate Hmint Htarget Hata freezeAccount create transaction.
  unfold onSubmit. rewrite Hwallet, Haction. simpl is_freeze.
  assert (Hvalid :
            match accountInfo with
            | Some info =>
                if true && exists_ info && frozen info
                then Some "Cannot freeze account - it is already frozen."
                else if negb true && (negb (exists_ info) || negb (frozen info))
                then Some (if exists_ info
                           then "Cannot unfreeze account - it is already unfrozen."
                           else "Cannot unfreeze account - it does not exist.")
                else None
            | None => None
            end = None).
  { destruct accountInfo as [info |]; [| reflexivity].
    simpl andb. now rewrite (Hstate info eq_refl). }
  rewrite Hvalid.
  unfold buildTransaction.
  rewrite Hmint; simpl bind. rewrite Htarget; simpl bind. rewrite Hata; simpl bind.
  rewrite Haction. subst transaction.
  destruct (resolved (getAccount connection tokenAccount)); reflexivity.
Qed.

(** X11. The submit button of the freeze page is enabled only in states
    in which [onSubmit] passes its state check; with wallet, token and
    account state present and no submission running, it is disabled
    exactly when [onSubmit] would reject. *)
Theorem freeze_button_matches_state_check
    (wallet : Wallet) (connection : Connection) (isProcessing : bool)
    (tokenInfo : option FreezeTokensPage.TokenInfo)
    (accountInfo : option AccountInfo) (data : FreezeFormData) :
  (FreezeTokensPage.submitDisabled wallet isProcessing tokenInfo accountInfo (action data)
   = false ->
   forall e, onSubmit wallet connection accountInfo data <> Rejected e)
  /\ (forall payer token info,
         publicKey wallet = Some payer -> tokenInfo = Some token ->
         accountInfo = Some info -> isProcessing = false ->
         (FreezeTokensPage.submitDisabled wallet isProcessing tokenInfo accountInfo
            (action data) = true
          <-> exists e, onSubmit wallet connection accountInfo data = Rejected e)).
Proof.
  split.
  - unfold FreezeTokensPage.submitDisabled, onSubmit.
    destruct (publicKey wallet) as [payer |]; [| discriminate].
    destruct tokenInfo as [token |]; [| discriminate].
    destruct accountInfo as [info |]; [| discriminate].
    destruct isProcessing; [discriminate |]. simpl orb.
    destruct (is_freeze (action data)), (exists_ info), (frozen info);
      simpl; try discriminate; intros _ e; apply submitBuilt_not_Rejected.
  - intros payer token info Hwallet -> -> ->.
    unfold FreezeTokensPage.submitDisabled, onSubmit. rewrite Hwallet. simpl orb.
    destruct (is_freeze (action data)), (exists_ info), (frozen info); simpl;
      split; intros Hgate;
      try discriminate Hgate; try (eexists; reflexivity);
      destruct Hgate as [e Hrejected];
      exfalso; exact (submitBuilt_not_Rejected _ _ _ _ Hrejected).
Qed.

End MoreFreeze.

Section MoreRevoke.

Import RevokeAuthoritiesClient.

Context `{SDK}.

(** X12. Whenever [onSubmit] of the revoke page hands a transaction to
    the wallet, the resolved token attributes every selected authority to
    the connected key, and each instruction is a SetAuthority on the
    entered mint, signed by that key, with a null new authority. *)
Theorem revoke_only_held_authorities
    (wallet : Wallet) (connection : Connection) (tokenInfo : option TokenInfo)
    (data : RevokeFormData) (transaction : Transaction) (r : result string) :
  onSubmit wallet connection tokenInfo data = Sent transaction r ->
  exists payer info mintPubkey,
    publicKey wallet = Some payer
    /\ tokenInfo = Some info
    /\ newPublicKey (tokenAddress data) = Ok mintPubkey
    /\ (revokeMintAuthority data = true -> mintAuthority info = Some payer)
    /\ (revokeFreezeAuthority data = true -> freezeAuthority info = Some payer)
    /\ Forall (fun i => exists authorityType,
                   i = createSetAuthorityInstruction mintPubkey payer authorityType None)
         (instructions transaction).
Proof.
  unfold onSubmit.
  destruct (publicKey wallet) as [payer |]; [| discriminate].
  destruct tokenInfo as [info |]; [| discriminate].
  destruct (revokeMintAuthority data && negb (same_key (mintAuthority info) (Some payer)))
    eqn:Hmint; [discriminate |].
  destruct (revokeFreezeAuthority data
            && negb (same_key (freezeAuthority info) (Some payer)))
    eqn:Hfreeze; [discriminate |].
  destruct (revokeMintAuthority data && falsy_string (mintAuthority info));
    [discriminate |].
  destruct (revokeFreezeAuthority data && falsy_string (freezeAuthority info));
    [discriminate |].
  intros Hsent. apply submitBuilt_Sent_inv in Hsent.
  unfold buildTransaction in Hsent. await_in Hsent. injection Hsent as <-.
  exists payer, info, a. repeat split.
  - intros Hflag. rewrite Hflag in Hmint. simpl in Hmint.
    apply negb_false_iff in Hmint. now apply same_key_eq.
  - intros Hflag. rewrite Hflag in Hfreeze. simpl in Hfreeze.
    apply negb_false_iff in Hfreeze. now apply same_key_eq.
  - destruct (revokeMintAuthority data), (revokeFreezeAuthority data); simpl;
      repeat constructor; eexists; reflexivity.
Qed.

End MoreRevoke.

Section Resolution.

Context `{SDK}.

(** X13. The three pages resolve a token only for a connected wallet that
    holds the authority the page needs, as the ledger reports it: the mint
    authority on the mint page, the freeze authority on the freeze page,
    one of the two on the revoke page. *)
Theorem fetchTokenInfo_resolves_only_held_tokens
    (wallet : Wallet) (connection : Connection) (tokenAddress : string) :
  (forall info,
      MintTokensPage.fetchTokenInfo wallet connection tokenAddress = Ok info ->
      exists payer mintPubkey parsedData,
        publicKey wallet = Some payer
        /\ newPublicKey tokenAddress = Ok mintPubkey
        /\ getParsedAccountInfo connection mintPubkey = Ok (Some (ParsedData parsedData))
        /\ info_mintAuthority parsedData = Some payer)
  /\ (forall info,
         FreezeTokensPage.fetchTokenInfo wallet connection tokenAddress = Ok info ->
         exists payer mintPubkey parsedData,
           publicKey wallet = Some payer
           /\ newPublicKey tokenAddress = Ok mintPubkey
           /\ getParsedAccountInfo connection mintPubkey
              = Ok (Some (ParsedData parsedData))
           /\ info_freezeAuthority parsedData = Some payer)
  /\ (forall info,
         RevokeAuthoritiesClient.fetchTokenInfo wallet connection tokenAddress = Ok info ->
         exists payer,
           publicKey wallet = Some payer
           /\ (RevokeAuthoritiesClient.mintAuthority info = Some payer
               \/ RevokeAuthoritiesClient.freezeAuthority info = Some payer)).
Proof.
  assert (Hsame : forall authority, same_key authority (publicKey wallet) = true ->
                    exists payer, publicKey wallet = Some payer /\ authority = Some payer).
  { intros authority. destruct (publicKey wallet) as [payer |].
    - intros Heq. exists payer. split; [reflexivity | now apply same_key_eq].
    - destruct authority; discriminate. }
  repeat split.
  - intros info. unfold MintTokensPage.fetchTokenInfo. intros Hrun.
    await_in Hrun. await_in Hrun. await_in Hrun.
    destruct (falsy_string (info_mintAuthority a1)); [discriminate Hrun |].
    destruct (same_key (info_mintAuthority a1) (publicKey wallet)) eqn:Hkey;
      simpl in Hrun; [| discriminate Hrun].
    apply Hsame in Hkey as (payer & Hwallet & Hauthority).
    apply parsedMint_inv in awaited1 as [-> _].
    exists payer, a, a1. repeat split; assumption.
  - intros info. unfold FreezeTokensPage.fetchTokenInfo. intros Hrun.
    await_in Hrun. await_in Hrun. await_in Hrun.
    destruct (falsy_string (info_freezeAuthority a1)); [discriminate Hrun |].
    destruct (same_key (info_freezeAuthority a1) (publicKey wallet)) eqn:Hkey;
      simpl in Hrun; [| discriminate Hrun].
    apply Hsame in Hkey as (payer & Hwallet & Hauthority).
    apply parsedMint_inv in awaited1 as [-> _].
    exists payer, a, a1. repeat split; assumption.
  - intros info. unfold RevokeAuthoritiesClient.fetchTokenInfo. intros Hrun.
    await_in Hrun. await_in Hrun.
    destruct a0 as [[| parsedData] |]; try discriminate Hrun.
    destruct (negb (String.eqb (parsed_type parsedData) "mint")); [discriminate Hrun |].
    destruct (same_key (info_mintAuthority parsedData) (publicKey wallet)) eqn:Hm.
    + simpl in Hrun. injection Hrun as <-. simpl.
      apply Hsame in Hm as (payer & Hwallet & Hauthority).
      exists payer. split; [exact Hwallet | now left].
    + destruct (same_key (info_freezeAuthority parsedData) (publicKey wallet)) eqn:Hf;
        simpl in Hrun; [| discriminate Hrun].
      injection Hrun as <-. simpl.
      apply Hsame in Hf as (payer & Hwallet & Hauthority).
      exists payer. split; [exact Hwallet | now right].
Qed.

(** X14. On the mint and freeze pages a token whose authority is absent
    and a token whose authority belongs to another key are refused with
    two different messages. *)
Theorem fetchTokenInfo_tells_absent_from_foreign
    (wallet : Wallet) (connection : Connection) (payer : PublicKey)
    (tokenAddress : string) (mintPubkey : PublicKey) (parsedData : ParsedInfo) :
  publicKey wallet = Some payer ->
  newPublicKey tokenAddress = Ok mintPubkey ->
  getParsedAccountInfo connection mintPubkey = Ok (Some (ParsedData parsedData)) ->
  parsed_type parsedData = "mint" ->
  (info_mintAuthority parsedData = None ->
   MintTokensPage.fetchTokenInfo wallet connection tokenAddress
   = Throw "This token has no mint authority - cannot mint additional tokens")
  /\ (forall other, info_mintAuthority parsedData = Some other ->
        other <> "" -> other <> payer ->
        MintTokensPage.fetchTokenInfo wallet connection tokenAddress
        = Throw "You are not the mint authority for this token")
  /\ (info_freezeAuthority parsedData = None ->
      FreezeTokensPage.fetchTokenInfo wallet connection tokenAddress
      = Throw "This token has no freeze authority - cannot freeze/unfreeze accounts")
  /\ (forall other, info_freezeAuthority parsedData = Some other ->
        other <> "" -> other <> payer ->
        FreezeTokensPage.fetchTokenInfo wallet connection tokenAddress
        = Throw "You are not the freeze authority for this token").
Proof.
  intros Hwallet Hkey Hinfo Htype.
  assert (Hforeign : forall other, other <> "" -> other <> payer ->
            falsy_string (Some other) = false
            /\ same_key (Some other) (Some payer) = false).
  { intros other Hne Hdiff. simpl. split.
    - now apply String.eqb_neq.
    - now apply String.eqb_neq. }
  repeat split.
  - intros Habsent. unfold MintTokensPage.fetchTokenInfo.
    rewrite Hkey; cbn [bind]. rewrite Hinfo; cbn [bind].
    rewrite (parsedMint_of_mint _ Htype); cbn [bind]. now rewrite Habsent.
  - intros other Hother Hne Hdiff. unfold MintTokensPage.fetchTokenInfo.
    rewrite Hkey; cbn [bind]. rewrite Hinfo; cbn [bind].
    rewrite (parsedMint_of_mint _ Htype); cbn [bind].
    rewrite Hother, Hwallet.
    destruct (Hforeign other Hne Hdiff) as [-> ->]. reflexivity.
  - intros Habsent. unfold FreezeTokensPage.fetchTokenInfo.
    rewrite Hkey; cbn [bind]. rewrite Hinfo; cbn [bind].
    rewrite (parsedMint_of_mint _ Htype); cbn [bind]. now rewrite Habsent.
  - intros other Hother Hne Hdiff. unfold FreezeTokensPage.fetchTokenInfo.
    rewrite Hkey; cbn [bind]. rewrite Hinfo; cbn [bind].
    rewrite (parsedMint_of_mint _ Htype); cbn [bind].
    rewrite Hother, Hwallet.
    destruct (Hforeign other Hne Hdiff) as [-> ->]. reflexivity.
Qed.

End Resolution.

Section MoreMintAndBurn.

Context `{SDK}.

(** X15. A submitted mint request carries exactly one MintTo.  For an
    entered amount that is a non-negative double below [2^64] and a mint
    of at most 22 decimals (so that the scaled amount is far from the end
    of the range of doubles, and the power of ten is exact), its amount is
    a non-negative whole number of base units, finite, and zero when the
    entered amount scales to less than one base unit. *)
Theorem mint_amount_is_whole
    (wallet : Wallet) (connection : Connection) (data : MintTokensClient.MintFormData)
    (mintPubkey : PublicKey) (parsed : ParsedInfo) (d : nat) (m e : Z)
    (transaction : Transaction) (r : result string) :
  MintTokensClient.onSubmit wallet connection data = Sent transaction r ->
  newPublicKey (MintTokensClient.tokenAddress data) = Ok mintPubkey ->
  getParsedAccountInfo connection mintPubkey = Ok (Some (ParsedData parsed)) ->
  info_decimals parsed = Some d ->
  MintTokensClient.amount data = JS.Fin m e ->
  (0 <= m < 2 ^ 53)%Z -> (-1074 <= e)%Z ->
  JS.ltb (MintTokensClient.amount data) (JS.of_Z (2 ^ 64)) = true ->
  (d <= 22)%nat ->
  exists mintAmount k,
    mintTo_amounts transaction = [mintAmount]
    /\ JS.to_integer mintAmount = Some k
    /\ (0 <= k < 2 ^ 1024)%Z
    /\ (JS.ltb (JS.mul (MintTokensClient.amount data) (JS.pow10 d)) (JS.of_Z 1) = true ->
        k = 0%Z).
Proof.
  intros Hsent Hkey Hinfo Hdecimals Hamount [Hm _] _ Hbelow Hd.
  rewrite Hamount in Hbelow.
  unfold MintTokensClient.onSubmit in Hsent.
  destruct (publicKey wallet) as [payer |]; [| discriminate Hsent].
  apply submitBuilt_Sent_inv in Hsent.
  unfold MintTokensClient.buildTransaction in Hsent.
  rewrite Hkey in Hsent; cbn [bind] in Hsent.
  await_in Hsent. rewrite Hinfo in Hsent; cbn [bind] in Hsent.
  await_in Hsent. rewrite Hdecimals, Hamount in Hsent. cbn [JS.pow10_opt] in Hsent.
  rewrite Hamount.
  destruct (scaled_amount_range m e d Hm Hbelow Hd) as (mq & eq & Hmul & Hmq & Hrange).
  rewrite Hmul in *.
  destruct (floor_whole mq eq Hmq) as (k & Hk & Hk0 & Hsmall).
  assert (Hfinite : (k < 2 ^ 1024)%Z).
  { destruct Hrange as [-> | Hrange].
    - rewrite (floor_zero eq k Hk). reflexivity.
    - pose proof (floor_below mq eq k Hmq Hk) as Hbound.
      eapply Z.lt_le_trans; [exact Hbound |].
      apply Z.pow_le_mono_r; lia. }
  exists (JS.floor (JS.Fin mq eq)), k.
  split; [| split; [exact Hk | split; [split; [exact Hk0 | exact Hfinite] | exact Hsmall]]].
  destruct (getAccount connection a0); injection Hsent as <-; reflexivity.
Qed.

Import BurnTokensClient.

(** X16. Whenever [onSubmit] of the burn page hands a transaction to the
    wallet, it is a single Burn on the requester's own associated token
    account whose amount is not greater than the resolved balance, and
    that balance is not zero. *)
Theorem burn_sent_within_balance
    (wallet : Wallet) (connection : Connection) (tokenInfo : option TokenInfo)
    (data : BurnFormData) (transaction : Transaction) (r : result string) :
  onSubmit wallet connection tokenInfo data = Sent transaction r ->
  exists payer info raw mintPubkey userTokenAccount,
    publicKey wallet = Some payer
    /\ tokenInfo = Some info
    /\ userBalanceRaw info = Some raw
    /\ newPublicKey (tokenAddress data) = Ok mintPubkey
    /\ getAssociatedTokenAddress mintPubkey payer = Ok userTokenAccount
    /\ instructions transaction
       = [createBurnInstruction userTokenAccount mintPubkey payer
            (burnAmountRaw info data)]
    /\ JS.gtb (burnAmountRaw info data) raw = false
    /\ (forall b k,
           JS.to_integer raw = Some b ->
           JS.to_integer (burnAmountRaw info data) = Some k ->
           (k <= b)%Z /\ b <> 0%Z).
Proof.
  unfold onSubmit.
  destruct (publicKey wallet) as [payer |]; [| discriminate].
  destruct tokenInfo as [info |]; [| discriminate].
  destruct (noBalance info) eqn:Hnone; [discriminate |].
  destruct (exceedsBalance info data) eqn:Hexceeds; [discriminate |].
  intros Hsent. apply submitBuilt_Sent_inv in Hsent.
  unfold buildTransaction in Hsent. await_in Hsent. await_in Hsent.
  injection Hsent as <-.
  unfold noBalance in Hnone. unfold exceedsBalance in Hexceeds.
  destruct (userBalanceRaw info) as [raw |] eqn:Hraw; [| discriminate Hnone].
  apply orb_false_iff in Hnone as [Hfalsy _].
  exists payer, info, raw, a, a0. repeat split; try assumption; try reflexivity.
  - rewrite (gtb_integers _ _ _ _ H1 H0) in Hexceeds.
    apply Z.ltb_ge in Hexceeds. exact Hexceeds.
  - rewrite (falsy_integer _ _ H0) in Hfalsy. now apply Z.eqb_neq.
Qed.

(** X17. When the requester's associated token account cannot be read,
    the burn page still resolves the token, with a balance of zero, and
    every burn request on that resolved token is rejected as having no
    tokens to burn. *)
Theorem burn_without_token_account
    (formatBalance : JS.number -> option nat -> string)
    (metadataSymbol : Connection -> PublicKey -> option string)
    (wallet : Wallet) (connection : Connection) (owner : PublicKey)
    (address : string) (mintPubkey userTokenAccount : PublicKey)
    (parsed : ParsedInfo) (failure : string) :
  publicKey wallet = Some owner ->
  newPublicKey address = Ok mintPubkey ->
  getParsedAccountInfo connection mintPubkey = Ok (Some (ParsedData parsed)) ->
  parsed_type parsed = "mint" ->
  getAssociatedTokenAddress mintPubkey owner = Ok userTokenAccount ->
  getAccount connection userTokenAccount = Throw failure ->
  exists info,
    BurnTokensPage.fetchTokenInfo formatBalance metadataSymbol wallet connection address
    = Some (Ok info)
    /\ userBalance info = Some "0"
    /\ userBalanceRaw info = Some (JS.of_Z 0)
    /\ forall data,
         onSubmit wallet connection (Some info) data
         = Rejected (Text "You have no tokens to burn for this token.").
Proof.
  intros Hwallet Hkey Hinfo Htype Hata Haccount.
  unfold BurnTokensPage.fetchTokenInfo. rewrite Hwallet, Hkey; cbn [bind].
  rewrite Hinfo; cbn [bind]. rewrite (parsedMint_of_mint _ Htype); cbn [bind].
  rewrite Hata; cbn [bind]. rewrite Haccount. cbn [fst snd].
  eexists. split; [reflexivity |]. cbn [userBalance userBalanceRaw].
  split; [reflexivity |]. split; [reflexivity |].
  intros data. unfold onSubmit. rewrite Hwallet. reflexivity.
Qed.

End MoreMintAndBurn.

(* ===================================================================== *)
(** * The metadata upload *)
(* ===================================================================== *)

Lemma prefix_app (needle rest : string) : String.prefix needle (needle ++ rest) = true.
Proof.
  induction needle as [| c needle IH]; [now destruct rest |].
  simpl. destruct (Ascii.ascii_dec c c); [exact IH | contradiction].
Qed.

Lemma includes_of_prefix (needle text : string) :
  String.prefix needle text = true -> includes needle text = true.
Proof. intros Hprefix. destruct text; cbn [includes]; now rewrite Hprefix. Qed.

Lemma includes_app (needle before text : string) :
  includes needle text = true -> includes needle (before ++ text) = true.
Proof.
  intros Hin. induction before as [| c before IH]; [exact Hin |].
  change (String c before ++ text) with (String c (before ++ text)).
  cbn [includes]. rewrite IH. now destruct (String.prefix _ _).
Qed.

Lemma includes_here (needle before rest : string) :
  includes needle (before ++ needle ++ rest) = true.
Proof. apply includes_app, includes_of_prefix, prefix_app. Qed.

(** A text that does not include a one-character needle has no such
    character. *)
Lemma includes_char (c : Ascii.ascii) (text : string) :
  includes (String c "") text = false -> ~ In c (list_ascii_of_string text).
Proof.
  induction text as [| a text IH]; intros Hno Hin; [exact Hin |].
  cbn [includes] in Hno. simpl String.prefix in Hno.
  destruct (Ascii.ascii_dec c a) as [-> | Hne].
  - destruct text; discriminate Hno.
  - destruct Hin as [Heq | Hin]; [now elim Hne |]. now apply IH.
Qed.

Section Upload.

Import UploadRoute.
Import Stdlib.Strings.Ascii.

Context `{SDK}.

Variable trim : string -> string.
Variable toUpperCase : string -> string.

(** What an accepted mint id looks like. *)
Lemma validateMintId_inv (mintId : string) :
  validateMintId mintId = true ->
  newPublicKey mintId = Ok mintId
  /\ (forall c, In c (list_ascii_of_string mintId) ->
        c <> "/"%char /\ c <> "\"%char /\ c <> "."%char)
  /\ (32 <= String.length mintId <= 44)%nat.
Proof.
  unfold validateMintId.
  destruct (newPublicKey mintId) as [publicKey |]; [| discriminate].
  destruct (String.eqb_spec publicKey mintId) as [-> | _]; [| discriminate].
  cbn [negb].
  destruct (includes "/" mintId) eqn:Hslash; [discriminate |].
  destruct (includes "\" mintId) eqn:Hback; [discriminate |].
  destruct (includes ".." mintId); [discriminate |].
  destruct (includes "." mintId) eqn:Hdot; [discriminate |].
  cbn [orb].
  destruct (Nat.ltb_spec (String.length mintId) 32); [discriminate |].
  destruct (Nat.ltb_spec 44 (String.length mintId)); [discriminate |].
  intros _. split; [reflexivity |]. split; [| lia].
  intros c Hin. repeat split; intros ->.
  - exact (includes_char _ _ Hslash Hin).
  - exact (includes_char _ _ Hback Hin).
  - exact (includes_char _ _ Hdot Hin).
Qed.

(** [POST] answers with what its [try] block returns, or with status 500
    when storage is not configured or the block throws. *)
Lemma POST_inv (runtime : Runtime) (request : result Form)
    (response : Response) (written : list PutObject) :
  POST trim toUpperCase runtime request = (response, written) ->
  (initAWSClient runtime = None /\ r2Bucket runtime = None
   /\ written = [] /\ status response = 500%Z)
  \/ exists outcome,
       POST_try trim toUpperCase runtime (initAWSClient runtime) (r2Bucket runtime)
         request = (outcome, written)
       /\ response
          = match outcome with
            | Ok answer => answer
            | Throw message =>
                errorResponse 500 ("Failed to create token metadata: " ++ message)
            end.
Proof.
  unfold POST. intros Hrun.
  destruct (POST_try trim toUpperCase runtime (initAWSClient runtime)
              (r2Bucket runtime) request) as [outcome written'] eqn:Htry.
  destruct (initAWSClient runtime) eqn:Haws.
  - right. exists outcome. destruct outcome; injection Hrun as <- <-; now split.
  - destruct (r2Bucket runtime) eqn:Hbucket.
    + right. exists outcome. destruct outcome; injection Hrun as <- <-; now split.
    + left. injection Hrun as <- <-. now repeat split.
Qed.

Lemma validateTokenData_nil_inv (name symbol : option string) (description : string) :
  validateTokenData name symbol description = [] ->
  exists n s,
    name = Some n /\ symbol = Some s
    /\ (1 <= String.length n <= 512)%nat
    /\ (1 <= String.length s <= 512)%nat
    /\ (String.length description <= 512)%nat.
Proof.
  unfold validateTokenData.
  destruct name as [n |]; [| discriminate].
  destruct (String.eqb_spec n "") as [-> | Hn]; [discriminate |].
  destruct (Nat.ltb_spec 512 (String.length n)); [discriminate |].
  destruct symbol as [s |]; [| discriminate].
  destruct (String.eqb_spec s "") as [-> | Hs]; [discriminate |].
  destruct (Nat.ltb_spec 512 (String.length s)); [discriminate |].
  cbn [app].
  destruct (String.eqb_spec description "") as [-> | Hd]; cbn [negb andb].
  - intros _. exists n, s. repeat split; try assumption; try (cbn; lia).
    + destruct n; [now elim Hn | cbn; lia].
    + destruct s; [now elim Hs | cbn; lia].
  - destruct (Nat.ltb_spec 512 (String.length description)); [discriminate |].
    intros _. exists n, s. repeat split; try assumption.
    + destruct n; [now elim Hn | cbn; lia].
    + destruct s; [now elim Hs | cbn; lia].
Qed.

Lemma url_not_empty (base path : string) :
  String.eqb (base ++ "/" ++ path) "" = false.
Proof. now destruct base. Qed.

(** The stages of the [try] block of [POST], up to the upload of the
    metadata document. *)
Ltac stage_request :=
  match goal with
  | |- context [POST_try _ _ _ _ _ ?request] =>
      unfold POST_try; cbv zeta;
      lazymatch request with
      | Ok _ => cbv iota beta
      | _ => destruct request as [formData | failure]
      end
  end.

Ltac stage_mint :=
  match goal with
  | |- context [form_mintId ?f] =>
      destruct (form_mintId f) as [mintId |] eqn:Hmint
  end.

Ltac stage_mint_checks :=
  match goal with
  | |- context [validateMintId ?m] =>
      destruct (String.eqb m "") eqn:Hempty;
      [| destruct (validateMintId m) eqn:Hvalid; cbn [negb]]
  end.

Ltac stage_data :=
  match goal with
  | |- context [validateTokenData ?n ?s ?d] =>
      destruct (validateTokenData n s d) eqn:Hdata;
      [destruct (validateTokenData_nil_inv _ _ _ Hdata)
         as (name & symbol & Hname & Hsymbol & Hnamelen & Hsymbollen & Hdesclen);
       rewrite Hname, Hsymbol
      |];
      cbn [List.length Nat.ltb Nat.leb]
  end.

Ltac stage_image :=
  match goal with
  | |- context [form_image ?f] =>
      destruct (form_image f) as [imageFile |] eqn:Himage
  end.

Ltac stage_image_checks :=
  match goal with
  | |- context [String.prefix "image/" (file_type ?i)] =>
      destruct (String.prefix "image/" (file_type i)) eqn:Htype; cbn [negb];
      [destruct (1 * 1024 * 1024 <? file_size i)%Z eqn:Hsize |]
  end.

Ltac stage_image_upload :=
  rewrite ?url_not_empty;
  match goal with
  | |- context [includes "webp" (processImage ?i)] =>
      destruct (includes "webp" (processImage i));
      [| destruct (includes "png" (processImage i));
         [| destruct (includes "jpeg" (processImage i))]]
  end;
  match goal with
  | |- context [match uploadToR2 ?a ?b ?o with
                | Ok _ => match _ with _ => _ end
                | Throw _ => _
                end] =>
      destruct (uploadToR2 a b o) as [[] | imageFailure] eqn:Hput
  end.

Ltac stage_metadata_upload :=
  match goal with
  | |- context [uploadToR2 ?a ?b ?o] =>
      destruct (uploadToR2 a b o) as [[] | metadataFailure] eqn:Hdoc
  end.

Ltac route_stages :=
  stage_request; try stage_mint; try stage_mint_checks; try stage_data;
  try stage_image; try stage_image_checks; try stage_image_upload;
  try stage_metadata_upload.

(** X18. Every object [POST] writes lies directly in the folder of the
    posted mint id, [tokens/<mintId>/], under one of five file names; the
    mint id is a canonical public key of 32 to 44 characters without
    slash, backslash or dot. *)
Theorem upload_writes_stay_in_token_folder
    (runtime : Runtime) (request : result Form)
    (response : Response) (written : list PutObject) (object : PutObject) :
  POST trim toUpperCase runtime request = (response, written) ->
  In object written ->
  exists formData mintId leaf,
    request = Ok formData
    /\ form_mintId formData = Some mintId
    /\ newPublicKey mintId = Ok mintId
    /\ (32 <= String.length mintId <= 44)%nat
    /\ (forall c, In c (list_ascii_of_string mintId) ->
          c <> "/"%char /\ c <> "\"%char /\ c <> "."%char)
    /\ Key object = "tokens/" ++ mintId ++ "/" ++ leaf
    /\ In leaf ["image.webp"; "image.png"; "image.jpg"; "image.img"; "metadata.json"].
Proof.
  intros Hrun Hin. apply POST_inv in Hrun as [(_ & _ & -> & _) | (outcome & Htry & _)];
    [contradiction |].
  revert Htry. route_stages.
  all: intros [= <- <-]; cbn [In app] in Hin; try contradiction.
  all: repeat match goal with
         | Hin : _ \/ _ |- _ => destruct Hin as [<- | Hin]
         | Hin : False |- _ => contradiction
         end.
  all: destruct (validateMintId_inv mintId Hvalid) as (Hcanonical & Hchars & Hlength).
  all: assert (Hleaf : forall leaf file,
                  file = "tokens/" ++ mintId ++ "/" ++ leaf ->
                  In leaf ["image.webp"; "image.png"; "image.jpg"; "image.img";
                           "metadata.json"] ->
                  exists formData' mintId' leaf',
                    Ok formData = Ok formData'
                    /\ form_mintId formData' = Some mintId'
                    /\ newPublicKey mintId' = Ok mintId'
                    /\ (32 <= String.length mintId' <= 44)%nat
                    /\ (forall c, In c (list_ascii_of_string mintId') ->
                          c <> "/"%char /\ c <> "\"%char /\ c <> "."%char)
                    /\ file = "tokens/" ++ mintId' ++ "/" ++ leaf'
                    /\ In leaf' ["image.webp"; "image.png"; "image.jpg"; "image.img";
                                 "metadata.json"])
    by (intros leaf file Hfile Hleaf; exists formData, mintId, leaf;
        repeat (split; [first [reflexivity | assumption] |]); exact Hleaf).
  all: cbn [Key];
    first
      [ apply (Hleaf "image.webp"); [reflexivity | cbn; tauto]
      | apply (Hleaf "image.png"); [reflexivity | cbn; tauto]
      | apply (Hleaf "image.jpg"); [reflexivity | cbn; tauto]
      | apply (Hleaf "image.img"); [reflexivity | cbn; tauto]
      | apply (Hleaf "metadata.json"); [reflexivity | cbn; tauto] ].
Qed.

(** X19. A response of [POST] with a 2xx status means that the metadata
    document was stored, last, as [tokens/<mintId>/metadata.json], with
    the trimmed name, the trimmed upper-case symbol and the trimmed
    description; the returned [metadataUrl] is the public URL of that
    object, and the only other object written is the posted image. *)
Theorem upload_success_means_stored
    (runtime : Runtime) (request : result Form)
    (response : Response) (written : list PutObject) :
  POST trim toUpperCase runtime request = (response, written) ->
  ok response = true ->
  exists formData mintId name symbol metadata before,
    let document :=
      mkPutObject ("tokens/" ++ mintId ++ "/metadata.json") (MetadataBody metadata)
        "application/json" "public, max-age=31536000" in
    let publicUrl := rendered (CLOUDFLARE_R2_PUBLIC_URL runtime) in
    request = Ok formData
    /\ form_mintId formData = Some mintId
    /\ form_name formData = Some name
    /\ form_symbol formData = Some symbol
    /\ written = (before ++ [document])%list
    /\ md_name metadata = trim name
    /\ md_symbol metadata = toUpperCase (trim symbol)
    /\ md_description metadata = trim (or_else (form_description formData) "")
    /\ md_image metadata
       = match before with
         | [] => ""
         | image :: _ => publicUrl ++ "/" ++ Key image
         end
    /\ json response
       = Ok (ResultJson true None (publicUrl ++ "/" ++ Key document)
               (match before with
                | [] => None
                | image :: _ => Some (publicUrl ++ "/" ++ Key image)
                end))
    /\ match form_image formData with
       | Some imageFile =>
           exists image, before = [image] /\ Body image = ImageBody imageFile
                         /\ ContentType image = processImage imageFile
       | None => before = []
       end.
Proof.
  intros Hrun Hok. apply POST_inv in Hrun as [(_ & _ & _ & Hstatus) | (outcome & Htry & ->)].
  { unfold ok in Hok. rewrite Hstatus in Hok. discriminate Hok. }
  revert Htry Hok. route_stages.
  all: try match goal with
         | |- (Ok _, (?before ++ [ {| Key := _; Body := MetadataBody ?metadata;
                                     ContentType := _; CacheControl := _ |} ])%list)
              = _ -> _ =>
             intros [= <- <-] _;
             exists formData, mintId, name, symbol, metadata, before
         end.
  all: try (intros [= <- <-] Hok; discriminate Hok).
  all: cbv zeta; rewrite Himage;
    repeat (split; [first [reflexivity | assumption] |]);
    first [reflexivity | eexists; repeat split; reflexivity].
Qed.

(** X20. A response of [POST] outside the 2xx range has status 400 or
    500; with 400 nothing was written, and with 500 at most the posted
    image was written, and no metadata document. *)
Theorem upload_failure_stores_no_metadata
    (runtime : Runtime) (request : result Form)
    (response : Response) (written : list PutObject) :
  POST trim toUpperCase runtime request = (response, written) ->
  ok response = false ->
  (status response = 400%Z /\ written = [])
  \/ (status response = 500%Z
      /\ (written = []
          \/ exists formData imageFile image,
               request = Ok formData
               /\ form_image formData = Some imageFile
               /\ written = [image]
               /\ Body image = ImageBody imageFile)).
Proof.
  intros Hrun Hok. apply POST_inv in Hrun as [(_ & _ & -> & Hstatus) | (outcome & Htry & ->)].
  { right. split; [exact Hstatus | now left]. }
  revert Htry Hok. route_stages.
  all: intros [= <- <-] Hok; try discriminate Hok.
  all: try (left; split; reflexivity).
  all: right; split; [reflexivity |].
  all: try (left; reflexivity).
  all: right; exists formData, imageFile; eexists; repeat split; try eassumption;
    reflexivity.
Qed.

Lemma validateTokenData_messages (name symbol : option string) (description : string) :
  Forall (fun message => message <> "") (validateTokenData name symbol description).
Proof.
  unfold validateTokenData.
  apply Forall_app; split.
  - destruct name as [n |]; [| repeat constructor; discriminate].
    destruct (String.eqb n ""); [repeat constructor; discriminate |].
    destruct (512 <? String.length n)%nat; repeat constructor; discriminate.
  - apply Forall_app; split.
    + destruct symbol as [s |]; [| repeat constructor; discriminate].
      destruct (String.eqb s ""); [repeat constructor; discriminate |].
      destruct (512 <? String.length s)%nat; repeat constructor; discriminate.
    + destruct (negb (String.eqb description "")
                && (512 <? String.length description)%nat);
        repeat constructor; discriminate.
Qed.

Lemma join_not_empty (first : string) (others : list string) :
  first <> "" -> join (first :: others) <> "".
Proof.
  intros Hfirst. unfold join. destruct first as [| c first]; [now elim Hfirst |].
  destruct others; simpl; discriminate.
Qed.

(** Every answer of [POST] outside the 2xx range carries a non-empty
    [error] text. *)
Lemma POST_error_text (runtime : Runtime) (request : result Form)
    (response : Response) (written : list PutObject) :
  POST trim toUpperCase runtime request = (response, written) ->
  ok response = false ->
  exists error, json response = Ok (ErrorJson (Some error)) /\ error <> "".
Proof.
  unfold POST. intros Hrun Hok.
  destruct (POST_try trim toUpperCase runtime (initAWSClient runtime)
              (r2Bucket runtime) request) as [outcome written'] eqn:Htry.
  assert (Hcases :
            response = errorResponse 500
                         ("R2 not configured. Missing: "
                          ++ join (missingEnvVars runtime ++ missingLocalVars runtime)
                          ++ ". Check your environment variables or wrangler.jsonc file.")
            \/ response = match outcome with
                          | Ok answer => answer
                          | Throw message =>
                              errorResponse 500
                                ("Failed to create token metadata: " ++ message)
                          end).
  { destruct (initAWSClient runtime), (r2Bucket runtime), outcome;
      injection Hrun as <- _; auto. }
  clear Hrun. destruct Hcases as [-> | ->].
  { eexists. split; [reflexivity | discriminate]. }
  revert Htry Hok. route_stages.
  all: intros [= <- <-] Hok; try discriminate Hok.
  all: eexists; (split; [reflexivity |]); try discriminate.
  apply join_not_empty.
  pose proof (validateTokenData_messages (form_name formData) (form_symbol formData)
                (or_else (form_description formData) "")) as Hmessages.
  rewrite Hdata in Hmessages. now inversion Hmessages.
Qed.

Lemma or_else_text (text other : string) : text <> "" -> or_else (Some text) other = text.
Proof.
  intros Htext. unfold or_else. now destruct (String.eqb_spec text "").
Qed.

(** The length of a field value in the request body: one more character
    for every line break that is not CR LF. *)
Lemma crlf_length (afterCR : bool) (text : string) :
  (String.length (crlf afterCR text)
   + (if afterCR
      then match text with
           | String c _ => if Ascii.eqb c "010"%char then 1 else 0
           | EmptyString => 0
           end
      else 0)
   = String.length text + loneBreaks afterCR text)%nat.
Proof.
  revert afterCR. induction text as [| c rest IH]; intros afterCR.
  - destruct afterCR; reflexivity.
  - cbn [crlf loneBreaks].
    destruct (Ascii.eqb_spec c "013"%char) as [-> | Hcr].
    + specialize (IH true). cbn [String.length Ascii.eqb Bool.eqb] in *.
      destruct rest as [| next rest'];
        [| destruct (Ascii.eqb next "010"%char)]; destruct afterCR; cbn in *; lia.
    + destruct (Ascii.eqb c "010"%char).
      * specialize (IH false). destruct afterCR; cbn [String.length] in *; lia.
      * specialize (IH false). destruct afterCR; cbn [String.length] in *; lia.
Qed.

Lemma lineBreaks_length (text : string) :
  (String.length (lineBreaks text) = String.length text + loneBreaks false text)%nat.
Proof.
  unfold lineBreaks. pose proof (crlf_length false text) as Hlength.
  cbn beta iota in Hlength. lia.
Qed.

(** A text without CR and LF is sent as it is. *)
Lemma crlf_single_line (afterCR : bool) (text : string) :
  ~ In "013"%char (list_ascii_of_string text) ->
  ~ In "010"%char (list_ascii_of_string text) ->
  crlf afterCR text = text.
Proof.
  revert afterCR.
  induction text as [| c rest IH]; intros afterCR Hcr Hlf; [reflexivity |].
  cbn [crlf]. cbn [list_ascii_of_string In] in Hcr, Hlf.
  destruct (Ascii.eqb_spec c "013"%char) as [-> | _]; [now elim Hcr; left |].
  destruct (Ascii.eqb_spec c "010"%char) as [-> | _]; [now elim Hlf; left |].
  f_equal. apply IH; tauto.
Qed.

Lemma lineBreaks_single_line (text : string) :
  ~ In "013"%char (list_ascii_of_string text) ->
  ~ In "010"%char (list_ascii_of_string text) ->
  lineBreaks text = text.
Proof. apply crlf_single_line. Qed.

(** [POST] when storage is configured. *)
Lemma POST_configured_inv (runtime : Runtime) (request : result Form)
    (response : Response) (written : list PutObject) :
  POST trim toUpperCase runtime request = (response, written) ->
  (initAWSClient runtime = None /\ r2Bucket runtime = None
   /\ status response = 500%Z)
  \/ (initAWSClient runtime <> None \/ r2Bucket runtime <> None)
     /\ exists outcome,
          POST_try trim toUpperCase runtime (initAWSClient runtime) (r2Bucket runtime)
            request = (outcome, written)
          /\ response
             = match outcome with
               | Ok answer => answer
               | Throw message =>
                   errorResponse 500 ("Failed to create token metadata: " ++ message)
               end.
Proof.
  unfold POST. intros Hrun.
  destruct (POST_try trim toUpperCase runtime (initAWSClient runtime)
              (r2Bucket runtime) request) as [outcome written'] eqn:Htry.
  destruct (initAWSClient runtime) eqn:Haws.
  - right. split; [left; discriminate |].
    exists outcome. destruct outcome; injection Hrun as <- <-; now split.
  - destruct (r2Bucket runtime) eqn:Hbucket.
    + right. split; [right; discriminate |].
      exists outcome. destruct outcome; injection Hrun as <- <-; now split.
    + left. injection Hrun as <- <-. now repeat split.
Qed.

(** The field checks of the route on a name and a symbol that are not
    empty. *)
Lemma validateTokenData_nil_iff (name symbol description : string) :
  name <> "" -> symbol <> "" ->
  validateTokenData (Some name) (Some symbol) description = []
  <-> (String.length name <= 512 /\ String.length symbol <= 512
       /\ String.length description <= 512)%nat.
Proof.
  intros Hname Hsymbol. unfold validateTokenData.
  destruct (String.eqb_spec name "") as [Hn | _]; [contradiction |].
  destruct (String.eqb_spec symbol "") as [Hs | _]; [contradiction |].
  destruct (Nat.ltb_spec 512 (String.length name)) as [Hnl | Hnl];
    [split; [discriminate | lia] |].
  destruct (Nat.ltb_spec 512 (String.length symbol)) as [Hsl | Hsl];
    [split; [discriminate | lia] |].
  cbn [app].
  destruct (String.eqb_spec description "") as [-> | _]; cbn [negb andb].
  - split; [intros _; cbn [String.length]; lia | reflexivity].
  - destruct (Nat.ltb_spec 512 (String.length description)) as [Hdl | Hdl];
      [split; [discriminate | lia] | split; [lia | reflexivity]].
Qed.

(** X21. [createTokenMetadata] of the client, talking to [POST]: the route
    reads the form from the request body, where the line breaks of the
    text fields are encoded as CR LF.  The client returns the public URL
    of the stored metadata document when the route answers in the 2xx
    range, with an image URL exactly when an image was sent, and
    otherwise throws the [error] text of the route's answer. *)
Theorem createTokenMetadata_round_trip
    (runtime : Runtime) (tokenData : TokenMetadataRequest) :
  let posted :=
    transmitted
      (mkForm (Some (req_mintId tokenData)) (Some (req_name tokenData))
         (Some (req_symbol tokenData)) (Some (req_description tokenData))
         (req_image tokenData) None) in
  let answer := fst (POST trim toUpperCase runtime (Ok posted)) in
  let created :=
    UploadImage.createTokenMetadata (fetchRoute _ trim toUpperCase runtime) tokenData in
  (ok answer = true ->
   exists imageUrl,
     created
     = Ok (mkTokenMetadataResult
             (rendered (CLOUDFLARE_R2_PUBLIC_URL runtime) ++ "/tokens/"
              ++ lineBreaks (req_mintId tokenData) ++ "/metadata.json")
             imageUrl)
     /\ (imageUrl = None <-> req_image tokenData = None))
  /\ (ok answer = false ->
      exists error,
        json answer = Ok (ErrorJson (Some error)) /\ created = Throw error).
Proof.
  intros posted answer created. subst answer created.
  unfold UploadImage.createTokenMetadata, fetchRoute. cbn [bind]. fold posted.
  destruct (POST trim toUpperCase runtime (Ok posted)) as [response written] eqn:Hrun.
  cbn [fst]. split; intros Hok; rewrite Hok; cbn [negb].
  - apply POST_inv in Hrun as [(_ & _ & _ & Hstatus) | (outcome & Htry & ->)].
    { unfold ok in Hok. rewrite Hstatus in Hok. discriminate Hok. }
    revert Htry Hok. route_stages.
    all: intros [= <- <-] Hok; try discriminate Hok.
    all: injection Hmint as <-;
      cbn [form_image posted transmitted] in Himage;
      cbn [json bind]; eexists; (split; [reflexivity |]); rewrite Himage;
      split; discriminate || reflexivity.
  - destruct (POST_error_text _ _ _ _ Hrun Hok) as (error & Hjson & Herror).
    exists error. split; [exact Hjson |]. rewrite Hjson. cbn [bind json_error].
    now rewrite or_else_text.
Qed.

(** X22. A form accepted by [coinSchema], posted by the client with a mint
    id the route accepts and, if any, an image whose type starts with
    [image/], is refused by the route with status 400 exactly when
    storage is configured and the name, the symbol or the description,
    with one more character for each of its line breaks that is not
    CR LF, is longer than 512 characters: the route counts the characters
    of the request body, the schema those of the form.  A form whose
    fields have no such line break is never answered with status 400. *)
Theorem schema_valid_form_refusal
    (runtime : Runtime) (creationType : CreationType.t)
    (data : CreateTokenWithUpload.CoinFormData) (mintKeypair : PublicKey) :
  coinSchema creationType data = true ->
  validateMintId mintKeypair = true ->
  lineBreaks mintKeypair = mintKeypair ->
  (forall imageFile, CreateTokenWithUpload.imageFile data = Some imageFile ->
                     String.prefix "image/" (file_type imageFile) = true) ->
  let posted :=
    transmitted
      (mkForm (Some mintKeypair) (Some (CreateTokenWithUpload.name data))
         (Some (CreateTokenWithUpload.symbol data))
         (Some (CreateTokenWithUpload.description data))
         (CreateTokenWithUpload.imageFile data) None) in
  let answer := fst (POST trim toUpperCase runtime (Ok posted)) in
  let sent (text : string) := (String.length text + loneBreaks false text)%nat in
  (status answer = 400%Z
   <-> (initAWSClient runtime <> None \/ r2Bucket runtime <> None)
       /\ (512 < sent (CreateTokenWithUpload.name data)
           \/ 512 < sent (CreateTokenWithUpload.symbol data)
           \/ 512 < sent (CreateTokenWithUpload.description data))%nat)
  /\ (loneBreaks false (CreateTokenWithUpload.name data) = 0%nat ->
      loneBreaks false (CreateTokenWithUpload.symbol data) = 0%nat ->
      loneBreaks false (CreateTokenWithUpload.description data) = 0%nat ->
      status answer <> 400%Z).
Proof.
  intros Hschema Haccepted Hkey Himagetype posted answer sent.
  unfold coinSchema in Hschema.
  repeat (apply andb_prop in Hschema as [Hschema ?]).
  repeat match goal with
         | Hle : (_ <=? _)%nat = true |- _ => apply Nat.leb_le in Hle
         end.
  set (name := CreateTokenWithUpload.name data) in *.
  set (symbol := CreateTokenWithUpload.symbol data) in *.
  set (description := CreateTokenWithUpload.description data) in *.
  assert (Hname : lineBreaks name <> "").
  { intros Hempty. pose proof (lineBreaks_length name) as Hlength.
    rewrite Hempty in Hlength. cbn [String.length] in Hlength. lia. }
  assert (Hsymbol : lineBreaks symbol <> "").
  { intros Hempty. pose proof (lineBreaks_length symbol) as Hlength.
    rewrite Hempty in Hlength. cbn [String.length] in Hlength. lia. }
  pose proof (validateTokenData_nil_iff (lineBreaks name) (lineBreaks symbol)
                (lineBreaks description) Hname Hsymbol) as Hfields.
  rewrite !lineBreaks_length in Hfields. fold (sent name) (sent symbol) (sent description) in Hfields.
  assert (Hmain :
            status answer = 400%Z
            <-> (initAWSClient runtime <> None \/ r2Bucket runtime <> None)
                /\ (512 < sent name \/ 512 < sent symbol \/ 512 < sent description)%nat).
  { subst answer.
    destruct (POST trim toUpperCase runtime (Ok posted)) as [response written] eqn:Hrun.
    cbn [fst].
    apply POST_configured_inv in Hrun
      as [(Haws & Hbucket & ->) | (Hconfigured & outcome & Htry & ->)].
    { split; [discriminate |]. intros [[Hc | Hc] _]; contradiction. }
    revert Htry. unfold POST_try. cbv zeta iota beta.
    cbn [posted transmitted form_mintId form_name form_symbol form_description
           form_image option_map].
    rewrite Hkey.
    destruct (String.eqb_spec mintKeypair "") as [Hempty | _].
    { subst mintKeypair.
      apply validateMintId_inv in Haccepted as (_ & _ & Hlength).
      cbn in Hlength. lia. }
    rewrite Haccepted. cbn [negb].
    assert (Hdescription :
              or_else (Some (lineBreaks description)) "" = lineBreaks description).
    { unfold or_else. now destruct (String.eqb_spec (lineBreaks description) "") as [-> | _]. }
    rewrite Hdescription.
    destruct (validateTokenData (Some (lineBreaks name)) (Some (lineBreaks symbol))
                (lineBreaks description)) as [| first others] eqn:Hdata.
    - (* the fields pass: the answer is 200 or 500 *)
      assert (Hshort : (sent name <= 512 /\ sent symbol <= 512
                        /\ sent description <= 512)%nat)
        by (apply Hfields; reflexivity).
      cbn [List.length Nat.ltb Nat.leb].
      intros Htry.
      assert (Hstatus : status match outcome with
                               | Ok answer => answer
                               | Throw message =>
                                   errorResponse 500
                                     ("Failed to create token metadata: " ++ message)
                               end <> 400%Z).
      { revert Htry.
        destruct (CreateTokenWithUpload.imageFile data) as [imageFile |] eqn:Himage.
        - rewrite (Himagetype imageFile eq_refl). cbn [negb].
          match goal with
          | Hmax : (file_size _ <=? _)%Z = true |- _ => apply Z.leb_le in Hmax
          end.
          destruct (Z.ltb_spec (1 * 1024 * 1024) (file_size imageFile)); [lia |].
          repeat match goal with
                 | |- context [uploadToR2 ?a ?b ?o] =>
                     destruct (uploadToR2 a b o) as [[] |]
                 end;
            intros [= <- _]; discriminate.
        - repeat match goal with
                 | |- context [uploadToR2 ?a ?b ?o] =>
                     destruct (uploadToR2 a b o) as [[] |]
                 end;
            intros [= <- _]; discriminate. }
      split; [intros H400; contradiction | intros [_ Hlong]; lia].
    - (* a field is too long in the request body *)
      cbn [List.length Nat.ltb Nat.leb].
      intros [= <- _]. cbn [errorResponse status].
      split; [intros _ | reflexivity].
      split; [exact Hconfigured |].
      destruct (Nat.le_gt_cases (sent name) 512) as [Hn |]; [| auto].
      destruct (Nat.le_gt_cases (sent symbol) 512) as [Hs |]; [| auto].
      destruct (Nat.le_gt_cases (sent description) 512) as [Hd |]; [| auto].
      assert (Hnil : first :: others = []) by (apply Hfields; auto).
      discriminate Hnil. }
  split; [exact Hmain |].
  intros Hn Hs Hd H400. apply Hmain in H400 as [_ Hlong].
  subst sent. cbv beta in Hlong. lia.
Qed.

(** X23. [uploadImageToR2] never succeeds against this route: the form it
    posts has no [name], so the route answers outside the 2xx range and
    the helper throws; nothing is written. *)
Theorem uploadImageToR2_never_succeeds
    (runtime : Runtime) (file : File) (mint : string) :
  (exists message,
      UploadImage.uploadImageToR2 (fetchRoute _ trim toUpperCase runtime) file mint
      = Throw message)
  /\ snd (POST trim toUpperCase runtime
            (Ok (mkForm (Some mint) None None None None (Some file)))) = [].
Proof.
  assert (Hanswer : forall id,
             let posted := mkForm id None None None None (Some file) in
             ok (fst (POST trim toUpperCase runtime (Ok posted))) = false
             /\ snd (POST trim toUpperCase runtime (Ok posted)) = []).
  { intros id posted.
    destruct (POST trim toUpperCase runtime (Ok posted)) as [response written] eqn:Hrun.
    cbn [fst snd].
    apply POST_inv in Hrun as [(_ & _ & -> & Hstatus) | (outcome & Htry & ->)].
    { unfold ok. rewrite Hstatus. now split. }
    revert Htry. route_stages.
    all: try discriminate Hname.
    all: intros [= <- <-]; now split. }
  split; [| exact (proj2 (Hanswer (Some mint)))].
  unfold UploadImage.uploadImageToR2.
  destruct (negb (String.prefix "image/" (file_type file))); [now eexists |].
  destruct (10 * 1024 * 1024 <? file_size file)%Z; [now eexists |].
  destruct (negb (UploadImage.validateMintId mint)); [now eexists |].
  unfold fetchRoute. cbn [bind].
  change (transmitted (mkForm (Some mint) None None None None (Some file)))
    with (mkForm (Some (lineBreaks mint)) None None None None (Some file)).
  rewrite (proj1 (Hanswer (Some (lineBreaks mint)))). cbn [negb].
  now eexists.
Qed.

End Upload.

Section Application.

Import CreateTokenWithUpload UploadRoute.

Context `{SDK}.

Variable trim : string -> string.
Variable toUpperCase : string -> string.

(** X24. The fee estimators and the ultra-cheap creation never call the
    upload service: with any other service in its place they return the
    same. *)
Theorem estimates_perform_no_upload
    (upload : TokenMetadataRequest -> result TokenMetadataResult)
    (connection : Connection) (payer : PublicKey) (mintKeypair : PublicKey)
    (send : Transaction -> list PublicKey -> result string) :
  (forall data,
      @estimateCreateTokenFee (withUploadService _ upload) connection payer data
        mintKeypair
      = estimateCreateTokenFee connection payer data mintKeypair)
  /\ (forall data,
         @estimateUltraCheapTokenFee (withUploadService _ upload) connection payer data
           mintKeypair
         = estimateUltraCheapTokenFee connection payer data mintKeypair)
  /\ (forall data,
         @createUltraCheapToken (withUploadService _ upload) connection payer send data
           mintKeypair
         = createUltraCheapToken connection payer send data mintKeypair).
Proof. repeat split. Qed.

(** X25. When neither storage client is available, [createToken] of the
    application fails before anything is given to the wallet, and the
    token creator shows the storage-not-configured alert. *)
Theorem unconfigured_storage_alert
    (runtime : Runtime) (wallet : Wallet) (connection : Connection)
    (payer : PublicKey) (data : CoinFormData) (fee : FeeState)
    (mintKeypair : PublicKey) (mintRent : JS.number)
    (associatedTokenAddress : PublicKey) :
  initAWSClient runtime = None ->
  r2Bucket runtime = None ->
  publicKey wallet = Some payer ->
  getMinimumBalanceForRentExemptMint connection = Ok mintRent ->
  getAssociatedTokenAddress mintKeypair payer = Ok associatedTokenAddress ->
  let application := withUploadRoute _ trim toUpperCase runtime in
  let alert :=
    "Image upload service is not configured. Please contact the administrator to set up Cloudflare R2 storage. You can create a token without an image for now." in
  (forall send,
      exists message,
        @createToken application connection payer send data mintKeypair = Throw message
        /\ CoinCreator.creationAlert message = alert)
  /\ (estimatedFee fee = None ->
      @CoinCreator.handleConfirm application wallet connection (Some data) fee mintKeypair
      = Alerted (AlertText alert)).
Proof.
  intros Haws Hbucket Hwallet Hrent Hata application alert.
  assert (Hcreate : forall send,
             exists message,
               @createToken application connection payer send data mintKeypair
               = Throw message
               /\ CoinCreator.creationAlert message = alert).
  { intros send. unfold createToken, createToken_transaction.
    rewrite Hrent; cbn [bind].
    change (@getAssociatedTokenAddress application) with (@getAssociatedTokenAddress H).
    rewrite Hata; cbn [bind].
    change (@createTokenMetadata application)
      with (UploadImage.createTokenMetadata (fetchRoute _ trim toUpperCase runtime)).
    unfold UploadImage.createTokenMetadata, fetchRoute, POST.
    rewrite Haws, Hbucket. cbn [fst bind].
    set (text := "R2 not configured. Missing: "
                 ++ join (missingEnvVars runtime ++ missingLocalVars runtime)
                 ++ ". Check your environment variables or wrangler.jsonc file.").
    change (ok (errorResponse 500 text)) with false.
    cbn [negb errorResponse json bind json_error].
    rewrite or_else_text by discriminate. cbn [catch bind].
    eexists. split; [reflexivity |].
    subst text. unfold missingEnvVars, missingLocalVars, missing. cbn [filter snd].
    destruct (falsy_string (CLOUDFLARE_R2_BUCKET_NAME runtime)),
             (falsy_string (CLOUDFLARE_R2_PUBLIC_URL runtime)),
             (falsy_string (CLOUDFLARE_R2_ENDPOINT runtime)),
             (falsy_string (CLOUDFLARE_R2_ACCESS_KEY_ID runtime)),
             (falsy_string (CLOUDFLARE_R2_SECRET_ACCESS_KEY runtime));
      vm_compute; reflexivity. }
  split; [exact Hcreate |].
  intros Hfee. rewrite handleConfirm_of_wallet, Hwallet.
  unfold balanceRefusal. rewrite Hfee.
  destruct (Hcreate (sendTransaction wallet)) as (message & -> & ->). reflexivity.
Qed.

End Application.

(* ===================================================================== *)
(** * The freeze page's mint list *)
(* ===================================================================== *)

Section Chunks.

Import FreezeSelect.

Context {A : Type}.

Lemma slices_concat (size : nat) :
  (0 < size)%nat ->
  forall (rounds : nat) (items : list A),
    (List.length items <= rounds)%nat -> List.concat (slices rounds size items) = items.
Proof.
  intros Hsize. induction rounds as [| rounds IH]; intros items Hrounds.
  - destruct items; [reflexivity | cbn in Hrounds; lia].
  - destruct items as [| item rest]; [reflexivity |].
    cbn [slices List.concat]. rewrite IH.
    + apply firstn_skipn.
    + rewrite List.length_skipn. cbn [List.length] in *. lia.
Qed.

Lemma slices_bounds (size : nat) :
  (0 < size)%nat ->
  forall (rounds : nat) (items : list A),
    Forall (fun chunk => 1 <= List.length chunk <= size)%nat (slices rounds size items).
Proof.
  intros Hsize. induction rounds as [| rounds IH]; intros items; [constructor |].
  destruct items as [| item rest]; [constructor |].
  cbn [slices]. constructor; [| apply IH].
  rewrite List.length_firstn. cbn [List.length]. lia.
Qed.

Lemma slices_count (size : nat) :
  (0 < size)%nat ->
  forall (rounds : nat) (items : list A),
    (List.length items <= rounds)%nat ->
    List.length (slices rounds size items) = ((List.length items + size - 1) / size)%nat.
Proof.
  intros Hsize. induction rounds as [| rounds IH]; intros items Hrounds.
  - destruct items; [| cbn in Hrounds; lia]. cbn.
    symmetry. apply Nat.div_small. lia.
  - destruct items as [| item rest].
    + cbn. symmetry. apply Nat.div_small. lia.
    + cbn [slices List.length]. rewrite IH
        by (rewrite List.length_skipn; cbn [List.length] in *; lia).
      rewrite List.length_skipn. cbn [List.length].
      destruct (Nat.le_gt_cases size (S (List.length rest))) as [Hfull | Hshort].
      * replace (S (List.length rest) + size - 1)%nat
          with ((S (List.length rest) - size + size - 1) + 1 * size)%nat by lia.
        rewrite Nat.div_add by lia. lia.
      * replace (S (List.length rest) - size)%nat with 0%nat by lia.
        rewrite (Nat.div_small (0 + size - 1) size) by lia.
        apply (Nat.div_unique _ _ 1%nat (List.length rest)); lia.
Qed.

Lemma chunked_concat (items : list A) : List.concat (chunked items) = items.
Proof. unfold chunked, CHUNK_SIZE. apply slices_concat; lia. Qed.

(** X26. The chunk loop cuts a list into consecutive pieces of 1 to 100
    items that together are the list, [ceil(n / 100)] of them. *)
Theorem chunked_covers (items : list A) :
  List.concat (chunked items) = items
  /\ Forall (fun chunk => 1 <= List.length chunk <= 100)%nat (chunked items)
  /\ List.length (chunked items) = ((List.length items + 99) / 100)%nat.
Proof.
  unfold chunked, CHUNK_SIZE. split; [| split].
  - apply slices_concat; lia.
  - apply slices_bounds; lia.
  - rewrite slices_count by lia. f_equal. lia.
Qed.

End Chunks.

Section MintList.

Import FreezeSelect.

Context `{SDK}.

Variable decodeMint : Buffer -> result ParsedMint.
Variable formatSupply : Z -> nat -> string.
Variable text : Buffer -> string.

Lemma fetchChunks_aligned (node : Node) (lookup : PublicKey -> option Buffer)
    (chunks : list (list PublicKey)) :
  (forall keys infos,
      getMultipleAccountsInfo node keys = Ok infos -> infos = map lookup keys) ->
  Forall2 (fun key info => info = lookup key \/ info = None)
    (List.concat chunks) (fetchChunks node chunks).
Proof.
  intros Hnode. induction chunks as [| chunk chunks IH]; [constructor |].
  cbn [List.concat fetchChunks flat_map]. apply Forall2_app; [| exact IH].
  destruct (getMultipleAccountsInfo node chunk) as [infos | failure] eqn:Hcall.
  - rewrite (Hnode _ _ Hcall). clear. induction chunk; constructor; auto.
  - clear. induction chunk; constructor; auto.
Qed.

(** X27. When every answer of [getMultipleAccountsInfo] lists its
    accounts in the order of the keys asked, the batch fetch keeps every
    answer at the index of its key, whichever chunks fail: the entry at a
    key's index is that key's account, or [null]. *)
Theorem mint_infos_stay_aligned (node : Node) (lookup : PublicKey -> option Buffer)
    (keys : list PublicKey) :
  (forall chunk infos,
      getMultipleAccountsInfo node chunk = Ok infos -> infos = map lookup chunk) ->
  List.length (fetchChunks node (chunked keys)) = List.length keys
  /\ forall i key,
       nth_error keys i = Some key ->
       nth_error (fetchChunks node (chunked keys)) i = Some (lookup key)
       \/ nth_error (fetchChunks node (chunked keys)) i = Some None.
Proof.
  intros Hnode.
  pose proof (fetchChunks_aligned node lookup (chunked keys) Hnode) as Haligned.
  rewrite (chunked_concat keys) in Haligned.
  revert Haligned. generalize (fetchChunks node (chunked keys)) as infos.
  intros infos Haligned. split.
  - symmetry. exact (Forall2_length Haligned).
  - induction Haligned as [| key info keys' infos' Hhere _ IH]; intros i wanted Hkey.
    + destruct i; discriminate Hkey.
    + destruct i as [| i].
      * injection Hkey as <-. cbn. destruct Hhere as [-> | ->]; auto.
      * cbn in Hkey |- *. now apply IH.
Qed.

Lemma fetchChunks_total (node : Node) (lookup : PublicKey -> option Buffer)
    (keys : list PublicKey) :
  (forall chunk, getMultipleAccountsInfo node chunk = Ok (map lookup chunk)) ->
  fetchChunks node (chunked keys) = map lookup keys.
Proof.
  intros Hnode.
  rewrite <- (chunked_concat keys) at 2.
  generalize (chunked keys) as chunks. intros chunks.
  induction chunks as [| chunk chunks IH]; [reflexivity |].
  cbn [fetchChunks flat_map List.concat]. rewrite Hnode, map_app. f_equal. exact IH.
Qed.

Lemma publicKeys_inv (addresses : list string) (keys : list PublicKey) :
  publicKeys addresses = Ok keys ->
  Forall2 (fun mintAddress key => newPublicKey mintAddress = Ok key) addresses keys.
Proof.
  revert keys. induction addresses as [| mintAddress rest IH]; intros keys Hkeys.
  - injection Hkeys as <-. constructor.
  - cbn [publicKeys] in Hkeys.
    destruct (newPublicKey mintAddress) as [key |] eqn:Hkey; [| discriminate Hkeys].
    cbn [bind] in Hkeys.
    destruct (publicKeys rest) as [keys' |]; [| discriminate Hkeys].
    injection Hkeys as <-. constructor; [exact Hkey | now apply IH].
Qed.



Lemma examine_row (owner : PublicKey) (lookup : PublicKey -> option Buffer)
    (mintAddresses : list string) (mintPubkeys : list PublicKey) (i : nat) (row : string * PublicKey) :
  nth_error mintAddresses i = Some (fst row) ->
  nth_error mintPubkeys i = Some (snd row) ->
  match examine decodeMint formatSupply owner mintAddresses mintPubkeys i
          (lookup (snd row)) with
  | Some found => [found]
  | None => []
  end = pushed decodeMint formatSupply owner lookup i row.
Proof.
  intros Haddress Hkey. unfold examine, pushed, heldMint.
  destruct (lookup (snd row)) as [data |]; [| reflexivity].
  destruct (List.length data <? MintLayout_span)%nat; [reflexivity |].
  destruct (decodeMint data) as [parsedMint |]; [| reflexivity].
  destruct (freezeAuthorityOption parsedMint =? 0)%Z; [reflexivity |].
  destruct (String.eqb (parsed_freezeAuthority parsedMint) owner); [| reflexivity].
  cbn [negb]. now rewrite Haddress, Hkey.
Qed.

Lemma examineAll_rows (owner : PublicKey) (lookup : PublicKey -> option Buffer)
    (rows before : list (string * PublicKey)) :
  examineAll decodeMint formatSupply owner
    (map fst (before ++ rows)) (map snd (before ++ rows)) (List.length before)
    (map (fun row => lookup (snd row)) rows)
  = flat_map (fun entry => pushed decodeMint formatSupply owner lookup (fst entry) (snd entry))
      (combine (seq (List.length before) (List.length rows)) rows).
Proof.
  revert before. induction rows as [| row rows IH]; intros before; [reflexivity |].
  cbn [map examineAll List.length seq combine flat_map fst snd].
  rewrite (examine_row owner lookup _ _ _ row).
  - f_equal.
    specialize (IH (before ++ [row])%list).
    rewrite <- app_assoc in IH. cbn [app] in IH.
    rewrite List.length_app in IH. cbn [List.length] in IH.
    rewrite Nat.add_1_r in IH. exact IH.
  - rewrite map_app, nth_error_app2 by (rewrite List.length_map; lia).
    rewrite List.length_map, Nat.sub_diag. reflexivity.
  - rewrite map_app, nth_error_app2 by (rewrite List.length_map; lia).
    rewrite List.length_map, Nat.sub_diag. reflexivity.
Qed.

Lemma processResults_rows (owner : PublicKey) (lookup : PublicKey -> option Buffer)
    (found : list (ValidMint * PublicKey)) (before : list (option Buffer)) :
  processResults text owner
    (before ++ map (fun entry => lookup (snd entry)) found) (List.length before)
    (map fst found)
  = map (fun entry =>
           let tokenMetadata :=
             match lookup (snd entry) with
             | Some data => metadataFields text data
             | None => (None, None)
             end in
           mkTokenMint (mintAddress (fst entry)) (fst tokenMetadata) (snd tokenMetadata)
             (valid_decimals (fst entry)) (valid_supply (fst entry)) owner)
      found.
Proof.
  revert before. induction found as [| entry found IH]; intros before; [reflexivity |].
  cbn [map processResults].
  rewrite nth_error_app2 by lia. rewrite Nat.sub_diag. cbn [nth_error].
  f_equal.
  specialize (IH (before ++ [lookup (snd entry)])%list).
  rewrite <- app_assoc in IH. cbn [app] in IH.
  rewrite List.length_app in IH. cbn [List.length] in IH.
  rewrite Nat.add_1_r in IH. exact IH.
Qed.

Lemma pushed_finished (owner : PublicKey) (lookup : PublicKey -> option Buffer)
    (rows : list (string * PublicKey)) (start : nat) :
  Forall (fun row => newPublicKey (fst row) = Ok (snd row)) rows ->
  map (finished text owner lookup)
    (flat_map (fun entry => pushed decodeMint formatSupply owner lookup (fst entry) (snd entry))
       (combine (seq start (List.length rows)) rows))
  = flat_map (fun mintAddress =>
                match tokenOf decodeMint formatSupply text lookup owner mintAddress with
                | Some token => [token]
                | None => []
                end)
      (map fst rows).
Proof.
  intros Hrows. revert start.
  induction Hrows as [| row rows Hrow _ IH]; intros start; [reflexivity |].
  cbn [List.length seq combine flat_map map fst snd]. rewrite map_app, IH. f_equal.
  unfold pushed, tokenOf. rewrite Hrow.
  destruct (heldMint decodeMint owner (lookup (snd row))); reflexivity.
Qed.

Lemma pushed_with_metadata (owner : PublicKey) (lookup : PublicKey -> option Buffer)
    (entries : list (nat * (string * PublicKey))) :
  let examined := flat_map (fun entry => pushed decodeMint formatSupply owner lookup (fst entry) (snd entry))
                    entries in
  exists found : list (ValidMint * PublicKey),
    examined = map (fun entry => (fst entry, Some (snd entry))) found.
Proof.
  induction entries as [| entry entries [found IH]]; [now exists [] |].
  cbn [flat_map]. cbv zeta in IH. rewrite IH. unfold pushed.
  destruct (heldMint decodeMint owner (lookup (snd (snd entry)))) as [parsedMint |].
  - eexists ((_, _) :: found). reflexivity.
  - now exists found.
Qed.

Lemma fetchUserMints_is_listing
    (node : Node) (lookup : PublicKey -> option Buffer) (owner : PublicKey)
    (tokenAccounts : list string) (mintPubkeys : list PublicKey) :
  getParsedTokenAccountsByOwner node owner = Ok tokenAccounts ->
  publicKeys (unique [] tokenAccounts) = Ok mintPubkeys ->
  (forall keys, getMultipleAccountsInfo node keys = Ok (map lookup keys)) ->
  fetchUserMints decodeMint formatSupply text node (Some owner)
  = Ok (listing decodeMint formatSupply text lookup owner tokenAccounts).
Proof.
  intros Haccounts Hkeys Hnode. unfold fetchUserMints, listing.
  rewrite Haccounts. cbn [bind].
  destruct (List.length (unique [] tokenAccounts) =? 0)%nat eqn:Hempty.
  { apply Nat.eqb_eq in Hempty.
    destruct (unique [] tokenAccounts); [reflexivity | discriminate Hempty]. }
  rewrite Hkeys. cbn [bind]. f_equal.
  apply publicKeys_inv in Hkeys.
  set (rows := combine (unique [] tokenAccounts) mintPubkeys).
  assert (Haddresses : unique [] tokenAccounts = map fst rows).
  { subst rows. clear -Hkeys. induction Hkeys; cbn; [reflexivity | now f_equal]. }
  assert (Hpubkeys : mintPubkeys = map snd rows).
  { subst rows. clear -Hkeys. induction Hkeys; cbn; [reflexivity | now f_equal]. }
  assert (Hrows : Forall (fun row => newPublicKey (fst row) = Ok (snd row)) rows).
  { subst rows. clear -Hkeys. induction Hkeys; cbn; constructor; assumption. }
  rewrite (fetchChunks_total node lookup mintPubkeys Hnode).
  rewrite Haddresses, Hpubkeys, map_map.
  pose proof (examineAll_rows owner lookup rows []) as Hexamined.
  cbn [app List.length] in Hexamined. rewrite Hexamined.
  rewrite <- (pushed_finished owner lookup rows 0 Hrows).
  destruct (pushed_with_metadata owner lookup (combine (seq 0 (List.length rows)) rows))
    as [found Hfound].
  cbv zeta in Hfound. rewrite Hfound.
  assert (Hpdas :
            flat_map (fun entry : ValidMint * option PublicKey =>
                        match snd entry with
                        | Some metadataPDA => [metadataPDA]
                        | None => []
                        end)
              (map (fun entry : ValidMint * PublicKey => (fst entry, Some (snd entry)))
                 found)
            = map snd found).
  { clear. induction found; cbn; [reflexivity | now f_equal]. }
  rewrite Hpdas.
  assert (Hmetadata :
            (if (0 <? List.length (map snd found))%nat
             then fetchChunks node (chunked (map snd found))
             else [])
            = map (fun entry : ValidMint * PublicKey => lookup (snd entry)) found).
  { rewrite (fetchChunks_total node lookup _ Hnode), map_map.
    destruct found; reflexivity. }
  rewrite Hmetadata.
  rewrite !map_map. cbn [fst].
  pose proof (processResults_rows owner lookup found []) as Hprocessed.
  cbn [app List.length] in Hprocessed. refine (eq_trans Hprocessed _).
  apply map_ext. intros [validMint metadataPDA]. reflexivity.
Qed.

Lemma unique_spec (items seen : list string) :
  NoDup (unique seen items)
  /\ forall item, In item (unique seen items) -> ~ In item seen /\ In item items.
Proof.
  revert seen. induction items as [| item rest IH]; intros seen.
  - split; [constructor | intros item []].
  - cbn [unique].
    destruct (existsb (String.eqb item) seen) eqn:Hseen.
    + destruct (IH seen) as [Hnodup Hin]. split; [exact Hnodup |].
      intros other Hother. destruct (Hin other Hother). split; [assumption | now right].
    + destruct (IH (item :: seen)) as [Hnodup Hin]. split.
      * constructor; [| exact Hnodup].
        intros Hitem. destruct (Hin item Hitem) as [Hnot _]. apply Hnot. now left.
      * intros other [<- | Hother].
        -- split; [| now left]. intros Hitem.
           assert (existsb (String.eqb item) seen = true)
             by (apply existsb_exists; exists item; split;
                 [exact Hitem | apply String.eqb_refl]).
           congruence.
        -- destruct (Hin other Hother) as [Hnot Hrest]. split; [| now right].
           intros Hitem. apply Hnot. now right.
Qed.

Lemma listing_is_sound
    (lookup : PublicKey -> option Buffer) (owner : PublicKey)
    (tokenAccounts : list string) :
  let tokens := listing decodeMint formatSupply text lookup owner tokenAccounts in
  NoDup (map address tokens)
  /\ forall token,
       In token tokens ->
       freezeAuthority token = owner
       /\ exists mintAddress mintPubkey data parsedMint,
            address token = Some mintAddress
            /\ In mintAddress tokenAccounts
            /\ newPublicKey mintAddress = Ok mintPubkey
            /\ lookup mintPubkey = Some data
            /\ (MintLayout_span <= List.length data)%nat
            /\ decodeMint data = Ok parsedMint
            /\ freezeAuthorityOption parsedMint <> 0%Z
            /\ parsed_freezeAuthority parsedMint = owner
            /\ decimals token = parsed_decimals parsedMint.
Proof.
  intros tokens. subst tokens. unfold listing.
  destruct (unique_spec tokenAccounts []) as [Hnodup Hitems].
  assert (Hentry : forall mintAddress token,
             tokenOf decodeMint formatSupply text lookup owner mintAddress = Some token ->
             address token = Some mintAddress
             /\ freezeAuthority token = owner
             /\ exists mintPubkey data parsedMint,
                  newPublicKey mintAddress = Ok mintPubkey
                  /\ lookup mintPubkey = Some data
                  /\ (MintLayout_span <= List.length data)%nat
                  /\ decodeMint data = Ok parsedMint
                  /\ freezeAuthorityOption parsedMint <> 0%Z
                  /\ parsed_freezeAuthority parsedMint = owner
                  /\ decimals token = parsed_decimals parsedMint).
  { intros mintAddress token. unfold tokenOf, heldMint.
    destruct (newPublicKey mintAddress) as [mintPubkey |] eqn:Hkey; [| discriminate].
    destruct (lookup mintPubkey) as [data |] eqn:Hdata; [| discriminate].
    destruct (Nat.ltb_spec (List.length data) MintLayout_span); [discriminate |].
    destruct (decodeMint data) as [parsedMint |] eqn:Hdecoded; [| discriminate].
    destruct (Z.eqb_spec (freezeAuthorityOption parsedMint) 0); [discriminate |].
    destruct (String.eqb_spec (parsed_freezeAuthority parsedMint) owner);
      [| discriminate].
    intros [= <-]. cbn. repeat split.
    exists mintPubkey, data, parsedMint. repeat split; assumption || reflexivity. }
  split.
  - clear Hitems. induction Hnodup as [| mintAddress rest Hfresh _ IH]; [constructor |].
    cbn [flat_map]. rewrite map_app.
    destruct (tokenOf decodeMint formatSupply text lookup owner mintAddress)
      as [token |] eqn:Htoken; [| exact IH].
    cbn [map app]. constructor; [| exact IH].
    destruct (Hentry _ _ Htoken) as [-> _].
    intros Hin. apply in_map_iff in Hin as (other & Haddress & Hother).
    apply in_flat_map in Hother as (otherAddress & Hrest & Hother).
    destruct (tokenOf decodeMint formatSupply text lookup owner otherAddress)
      as [token' |] eqn:Htoken'; [| contradiction].
    destruct Hother as [<- | []].
    destruct (Hentry _ _ Htoken') as [Hsame _].
    rewrite Hsame in Haddress. injection Haddress as ->. contradiction.
  - intros token Hin. apply in_flat_map in Hin as (mintAddress & Hunique & Hin).
    destruct (tokenOf decodeMint formatSupply text lookup owner mintAddress)
      as [token' |] eqn:Htoken; [| contradiction].
    destruct Hin as [<- | []].
    destruct (Hentry _ _ Htoken)
      as (Haddress & Howner & mintPubkey & data & parsedMint & Hfacts).
    split; [exact Howner |].
    exists mintAddress, mintPubkey, data, parsedMint.
    split; [exact Haddress |]. split; [exact (proj2 (Hitems _ Hunique)) | exact Hfacts].
Qed.

Lemma examineAll_in (owner : PublicKey) (mintAddresses : list string)
    (mintPubkeys : list PublicKey) (allMintInfos : list (option Buffer)) (i : nat)
    (found : ValidMint * option PublicKey) :
  In found (examineAll decodeMint formatSupply owner mintAddresses mintPubkeys i
              allMintInfos) ->
  exists j data parsedMint,
    nth_error allMintInfos j = Some (Some data)
    /\ (MintLayout_span <= List.length data)%nat
    /\ decodeMint data = Ok parsedMint
    /\ freezeAuthorityOption parsedMint <> 0%Z
    /\ parsed_freezeAuthority parsedMint = owner
    /\ mintAddress (fst found) = nth_error mintAddresses (i + j)
    /\ valid_decimals (fst found) = parsed_decimals parsedMint.
Proof.
  revert i. induction allMintInfos as [| mintInfo rest IH]; intros i Hin; [contradiction |].
  cbn [examineAll] in Hin. apply in_app_or in Hin as [Hhere | Hlater].
  - exists 0%nat. unfold examine in Hhere.
    destruct mintInfo as [data |]; [| contradiction].
    destruct (Nat.ltb_spec (List.length data) MintLayout_span); [contradiction |].
    destruct (decodeMint data) as [parsedMint |] eqn:Hdecoded; [| contradiction].
    destruct (Z.eqb_spec (freezeAuthorityOption parsedMint) 0); [contradiction |].
    destruct (String.eqb_spec (parsed_freezeAuthority parsedMint) owner);
      [| contradiction].
    destruct Hhere as [<- | []]. exists data, parsedMint.
    rewrite Nat.add_0_r. repeat split; assumption || reflexivity.
  - destruct (IH _ Hlater) as (j & data & parsedMint & Hnth & Hfacts).
    exists (S j), data, parsedMint. split; [exact Hnth |].
    rewrite Nat.add_succ_r. exact Hfacts.
Qed.

Lemma processResults_in (owner : PublicKey) (metadataAccounts : list (option Buffer))
    (validMints : list ValidMint) (i : nat) (token : TokenMint) :
  In token (processResults text owner metadataAccounts i validMints) ->
  exists mint,
    In mint validMints
    /\ address token = mintAddress mint
    /\ decimals token = valid_decimals mint
    /\ freezeAuthority token = owner.
Proof.
  revert i. induction validMints as [| mint rest IH]; intros i Hin; [contradiction |].
  destruct Hin as [<- | Hlater].
  - exists mint. repeat split. now left.
  - destruct (IH _ Hlater) as (other & Hother & Hfacts).
    exists other. split; [now right | exact Hfacts].
Qed.

(** X28. Whichever batch requests fail, as long as the answers that come
    list their accounts in the order of the keys asked, every mint
    [fetchUserMints] lists is a mint of one of the owner's token accounts
    whose own account decodes to a mint with the owner as freeze
    authority: a failed chunk can hide mints, never add one. *)
Theorem listed_mints_are_held_despite_failures
    (node : Node) (lookup : PublicKey -> option Buffer) (owner : PublicKey)
    (tokenAccounts : list string) (tokens : list TokenMint) :
  getParsedTokenAccountsByOwner node owner = Ok tokenAccounts ->
  (forall chunk infos,
      getMultipleAccountsInfo node chunk = Ok infos -> infos = map lookup chunk) ->
  fetchUserMints decodeMint formatSupply text node (Some owner) = Ok tokens ->
  forall token,
    In token tokens ->
    freezeAuthority token = owner
    /\ exists mintAddress mintPubkey data parsedMint,
         address token = Some mintAddress
         /\ In mintAddress tokenAccounts
         /\ newPublicKey mintAddress = Ok mintPubkey
         /\ lookup mintPubkey = Some data
         /\ (MintLayout_span <= List.length data)%nat
         /\ decodeMint data = Ok parsedMint
         /\ freezeAuthorityOption parsedMint <> 0%Z
         /\ parsed_freezeAuthority parsedMint = owner
         /\ decimals token = parsed_decimals parsedMint.
Proof.
  intros Haccounts Hnode Hrun token Hin.
  unfold fetchUserMints in Hrun. rewrite Haccounts in Hrun. cbn [bind] in Hrun.
  destruct (List.length (unique [] tokenAccounts) =? 0)%nat.
  { injection Hrun as <-. contradiction. }
  destruct (publicKeys (unique [] tokenAccounts)) as [mintPubkeys |] eqn:Hkeys;
    [| discriminate Hrun].
  cbn [bind] in Hrun. injection Hrun as <-.
  apply processResults_in in Hin as (mint & Hmint & Haddress & Hdecimals & Howner).
  split; [exact Howner |].
  apply in_map_iff in Hmint as (found & <- & Hfound).
  apply examineAll_in in Hfound
    as (j & data & parsedMint & Hnth & Hspan & Hdecoded & Hoption & Hauthority
        & Hmintaddress & Hvalid).
  cbn [Nat.add] in Hmintaddress.
  pose proof (fetchChunks_aligned node lookup (chunked mintPubkeys) Hnode) as Haligned.
  rewrite chunked_concat in Haligned.
  apply publicKeys_inv in Hkeys.
  assert (Hrow : exists mintAddress mintPubkey,
             nth_error (unique [] tokenAccounts) j = Some mintAddress
             /\ newPublicKey mintAddress = Ok mintPubkey
             /\ lookup mintPubkey = Some data).
  { revert Hnth Haligned Hkeys.
    generalize (fetchChunks node (chunked mintPubkeys)) as infos.
    generalize (unique [] tokenAccounts) as addresses.
    clear. intros addresses infos Hnth Haligned. revert addresses j Hnth.
    induction Haligned as [| key info keys infos Hhere _ IH];
      intros addresses j Hnth Hkeys.
    - destruct j; discriminate Hnth.
    - inversion Hkeys as [| mintAddress key' addresses' keys' Hkey Hrest]; subst.
      destruct j as [| j].
      + injection Hnth as ->. exists mintAddress, key.
        destruct Hhere as [Hhere | Hhere]; [| discriminate Hhere].
        now repeat split.
      + cbn [nth_error] in Hnth |- *. now apply IH. }
  destruct Hrow as (mintAddress & mintPubkey & Haddr & Hkey & Hdata).
  exists mintAddress, mintPubkey, data, parsedMint.
  rewrite Haddress, Hmintaddress, Hdecimals, Hvalid.
  repeat split; try assumption.
  apply nth_error_In in Haddr.
  exact (proj2 (proj2 (unique_spec tokenAccounts []) _ Haddr)).
Qed.

(** X29. With a node that answers every batch request account by account,
    and mint addresses that are all valid keys, [fetchUserMints] sets
    exactly the reference list: the distinct mints of the owner's token
    accounts whose freeze authority is the owner, in order of first
    appearance, each with the name and symbol of its own metadata account.
    No mint is listed twice, and every entry is a mint of one of the owner's
    token accounts whose account decodes to a mint frozen by the owner. *)
Theorem fetchUserMints_lists_held_mints
    (node : Node) (lookup : PublicKey -> option Buffer) (owner : PublicKey)
    (tokenAccounts : list string) (mintPubkeys : list PublicKey) :
  getParsedTokenAccountsByOwner node owner = Ok tokenAccounts ->
  publicKeys (unique [] tokenAccounts) = Ok mintPubkeys ->
  (forall keys, getMultipleAccountsInfo node keys = Ok (map lookup keys)) ->
  exists tokens,
    fetchUserMints decodeMint formatSupply text node (Some owner) = Ok tokens
    /\ tokens = listing decodeMint formatSupply text lookup owner tokenAccounts
    /\ NoDup (map address tokens)
    /\ forall token,
         In token tokens ->
         freezeAuthority token = owner
         /\ exists mintAddress mintPubkey data parsedMint,
              address token = Some mintAddress
              /\ In mintAddress tokenAccounts
              /\ newPublicKey mintAddress = Ok mintPubkey
              /\ lookup mintPubkey = Some data
              /\ (MintLayout_span <= List.length data)%nat
              /\ decodeMint data = Ok parsedMint
              /\ freezeAuthorityOption parsedMint <> 0%Z
              /\ parsed_freezeAuthority parsedMint = owner
              /\ decimals token = parsed_decimals parsedMint.
Proof.
  intros Haccounts Hkeys Hnode.
  exists (listing decodeMint formatSupply text lookup owner tokenAccounts).
  split; [now apply (fetchUserMints_is_listing node lookup owner tokenAccounts mintPubkeys) |].
  split; [reflexivity |].
  exact (listing_is_sound lookup owner tokenAccounts).
Qed.

End MintList.

Section MetadataBytes.

Import FreezeSelect.

Local Open Scope Z_scope.

Lemma byteOf_value (n : Z) : Z.of_N (Byte.to_N (byteOf n)) = n mod 256.
Proof.
  unfold byteOf. pose proof (Z.mod_pos_bound n 256 eq_refl) as Hmod.
  destruct (Byte.of_N (Z.to_N (n mod 256))) as [b |] eqn:Hbyte.
  - apply Byte.to_of_N in Hbyte. rewrite Hbyte. lia.
  - apply Byte.of_N_None_iff in Hbyte. lia.
Qed.

Lemma byteAt_app (before data : Buffer) (k : Z) :
  0 <= k -> byteAt (before ++ data)%list (Z.of_nat (List.length before) + k) = byteAt data k.
Proof.
  intros Hk. induction before as [| b before IH]; [reflexivity |].
  cbn [app byteAt List.length].
  destruct (Z.eqb_spec (Z.of_nat (S (List.length before)) + k) 0); [lia |].
  rewrite <- IH. f_equal. lia.
Qed.

Lemma readUInt32LE_written (before after : Buffer) (n : Z) :
  0 <= n < 2 ^ 32 ->
  readUInt32LE (before ++ writeUInt32LE n ++ after)%list (Z.of_nat (List.length before))
  = Some n.
Proof.
  intros Hn. unfold readUInt32LE.
  destruct (Z.ltb_spec (Z.of_nat (List.length before)) 0); [lia |].
  rewrite <- (Z.add_0_r (Z.of_nat (List.length before))) at 1.
  rewrite !byteAt_app by lia. unfold writeUInt32LE.
  change (byteAt ([byteOf n; byteOf (n / 256); byteOf (n / 65536);
                   byteOf (n / 16777216)] ++ after)%list 0)
    with (Some (Z.of_N (Byte.to_N (byteOf n)))).
  change (byteAt ([byteOf n; byteOf (n / 256); byteOf (n / 65536);
                   byteOf (n / 16777216)] ++ after)%list 1)
    with (Some (Z.of_N (Byte.to_N (byteOf (n / 256))))).
  change (byteAt ([byteOf n; byteOf (n / 256); byteOf (n / 65536);
                   byteOf (n / 16777216)] ++ after)%list 2)
    with (Some (Z.of_N (Byte.to_N (byteOf (n / 65536))))).
  change (byteAt ([byteOf n; byteOf (n / 256); byteOf (n / 65536);
                   byteOf (n / 16777216)] ++ after)%list 3)
    with (Some (Z.of_N (Byte.to_N (byteOf (n / 16777216))))).
  rewrite !byteOf_value. f_equal.
  pose proof (Z.div_mod n 256 ltac:(lia)).
  pose proof (Z.div_mod (n / 256) 256 ltac:(lia)).
  pose proof (Z.div_mod (n / 65536) 256 ltac:(lia)).
  assert (n / 65536 = n / 256 / 256) by (rewrite Z.div_div by lia; reflexivity).
  assert (n / 16777216 = n / 65536 / 256) by (rewrite Z.div_div by lia; reflexivity).
  assert (0 <= n / 16777216 < 256)
    by (split; [apply Z.div_pos; lia | apply Z.div_lt_upper_bound; lia]).
  rewrite (Z.mod_small (n / 16777216) 256) by lia.
  lia.
Qed.

Lemma slice_app (before middle after : Buffer) :
  slice (before ++ middle ++ after)%list (Z.of_nat (List.length before))
    (Z.of_nat (List.length before) + Z.of_nat (List.length middle))
  = middle.
Proof.
  unfold slice. rewrite Nat2Z.id.
  replace (Z.to_nat (Z.of_nat (List.length before) + Z.of_nat (List.length middle)
                     - Z.of_nat (List.length before)))
    with (List.length middle) by lia.
  rewrite skipn_app, skipn_all, Nat.sub_diag. cbn [app skipn].
  rewrite firstn_app, firstn_all, Nat.sub_diag. cbn [firstn]. apply app_nil_r.
Qed.

Variable text : Buffer -> string.

(** X30. From a metadata account laid out as 65 bytes of header, the
    name as a four-byte little-endian length and its bytes, and the symbol
    likewise, [metadataFields] reads exactly the name bytes and the symbol
    bytes (lengths 1 to 49 and 1 to 19), each as a text, dropped when the
    text is empty. *)
Theorem metadataFields_reads_name_and_symbol
    (header nameBytes symbolBytes rest : Buffer) :
  List.length header = 65%nat ->
  (0 < List.length nameBytes < 50)%nat ->
  (0 < List.length symbolBytes < 20)%nat ->
  let data :=
    (header ++ writeUInt32LE (Z.of_nat (List.length nameBytes)) ++ nameBytes
     ++ writeUInt32LE (Z.of_nat (List.length symbolBytes)) ++ symbolBytes ++ rest)%list in
  (100 < List.length data)%nat ->
  metadataFields text data
  = (if String.eqb (text nameBytes) "" then None else Some (text nameBytes),
     if String.eqb (text symbolBytes) "" then None else Some (text symbolBytes)).
Proof.
  intros Hheader Hname Hsymbol data Hlong. unfold metadataFields.
  destruct (Nat.ltb_spec 100 (List.length data)) as [_ | Hshort]; [| lia].
  set (nameLength := Z.of_nat (List.length nameBytes)) in *.
  set (symbolLength := Z.of_nat (List.length symbolBytes)) in *.
  assert (Hread : readUInt32LE data 65 = Some nameLength).
  { subst data. replace 65 with (Z.of_nat (List.length header)) by lia.
    apply readUInt32LE_written. subst nameLength. lia. }
  rewrite Hread.
  pose (front := (header ++ writeUInt32LE nameLength)%list).
  assert (Hfront : List.length front = 69%nat)
    by (subst front; rewrite List.length_app, Hheader; reflexivity).
  assert (Hslice : slice data 69 (69 + nameLength) = nameBytes).
  { subst data. replace 69 with (Z.of_nat (List.length front)) by lia.
    subst nameLength. rewrite !app_assoc. fold front. rewrite <- !app_assoc.
    apply slice_app. }
  rewrite Hslice.
  pose (before := (front ++ nameBytes)%list).
  assert (Hbefore : Z.of_nat (List.length before) = 69 + nameLength)
    by (subst before nameLength; rewrite List.length_app, Hfront; lia).
  assert (Hread' : readUInt32LE data (69 + nameLength) = Some symbolLength).
  { rewrite <- Hbefore. subst data before front.
    replace (header ++ writeUInt32LE nameLength ++ nameBytes
             ++ writeUInt32LE symbolLength ++ symbolBytes ++ rest)%list
      with (((header ++ writeUInt32LE nameLength) ++ nameBytes)
            ++ writeUInt32LE symbolLength ++ symbolBytes ++ rest)%list
      by (rewrite <- !app_assoc; reflexivity).
    apply readUInt32LE_written. subst symbolLength. lia. }
  rewrite Hread'.
  pose (upto := (before ++ writeUInt32LE symbolLength)%list).
  assert (Hupto : Z.of_nat (List.length upto) = 69 + nameLength + 4)
    by (subst upto; rewrite List.length_app; cbn [writeUInt32LE List.length]; lia).
  assert (Hslice' : slice data (69 + nameLength + 4) (69 + nameLength + 4 + symbolLength)
                    = symbolBytes).
  { rewrite <- Hupto. subst data upto before front symbolLength.
    replace (header ++ writeUInt32LE nameLength ++ nameBytes
             ++ writeUInt32LE (Z.of_nat (List.length symbolBytes)) ++ symbolBytes
             ++ rest)%list
      with ((((header ++ writeUInt32LE nameLength) ++ nameBytes)
             ++ writeUInt32LE (Z.of_nat (List.length symbolBytes)))
            ++ symbolBytes ++ rest)%list
      by (rewrite <- !app_assoc; reflexivity).
    apply slice_app. }
  rewrite Hslice'.
  destruct (Z.ltb_spec 0 nameLength); [| subst nameLength; lia].
  destruct (Z.ltb_spec nameLength 50); [| subst nameLength; lia].
  destruct (Z.ltb_spec 0 symbolLength); [| subst symbolLength; lia].
  destruct (Z.ltb_spec symbolLength 20); [| subst symbolLength; lia].
  reflexivity.
Qed.

End MetadataBytes.

(* ===================================================================== *)
(** * The further properties on concrete runs *)
(* ===================================================================== *)

Module RunMore.

Import Sample SampleFailures SampleServices.
Import CreateTokenWithUpload.
Import Stdlib.Strings.Ascii.

(** The form's token preset, a supply of 1,000,000,000 with 9 decimals:
    the product 10^18 is the double [7812500000000000 * 2^7] and is the
    amount minted, in both creation paths.  A supply of 1,000,000 with 9
    decimals: the amount is the integer 1,000,000,000,000,000. *)
Lemma mintAmount_is_nearest_double_run :
  mintTo_amounts
    (createToken_build alice mintKey "metadata" "ata" (JS.of_Z 1461600) "uri"
       "blockhash" (coin 9 1000000000 false false))
  = [JS.Fin 7812500000000000 7]
  /\ mintTo_amounts
       (createUltraCheapToken_build alice mintKey "ata" (JS.of_Z 1461600) "blockhash"
          (ultraCheap 9 1000000000))
     = [JS.Fin 7812500000000000 7]
  /\ JS.to_integer (JS.Fin 7812500000000000 7) = Some 1000000000000000000%Z
  /\ mintTo_amounts
       (createToken_build alice mintKey "metadata" "ata" (JS.of_Z 1461600) "uri"
          "blockhash" (coin 9 1000000 false false))
     = [JS.Fin 1000000000000000 0].
Proof.
  assert (Hm : (0 < 1000000000 <= 2 ^ 53)%Z) by lia.
  pose proof (mintAmount_is_nearest_double 1000000000 0 9 Hm eq_refl eq_refl
                ltac:(repeat constructor)) as Hnearest.
  cbv zeta in Hnearest.
  destruct Hnearest
    as (mantissa & Hcreate & Hcheap & _ & _ & _ & Hexact & _ & _ & _ & Hwhole).
  specialize (Hexact ltac:(vm_compute; reflexivity)).
  change (mantissa * 128 = 1000000000000000000)%Z in Hexact.
  assert (Hmantissa : mantissa = 7812500000000000%Z) by lia.
  subst mantissa.
  assert (Hm' : (0 < 1000000 <= 2 ^ 53)%Z) by lia.
  pose proof (mintAmount_is_nearest_double 1000000 0 9 Hm' eq_refl eq_refl
                ltac:(repeat constructor)) as Hscenario.
  cbv zeta in Hscenario.
  destruct Hscenario as (amount & Hcreate' & _ & _ & _ & _ & _ & Hbelow & _).
  destruct (Hbelow ltac:(vm_compute; reflexivity)) as [_ Hamount].
  change (amount = 1000000000000000%Z) in Hamount. subst amount.
  split; [| split; [| split]].
  - exact (Hcreate alice mintKey "metadata" "ata" (JS.of_Z 1461600) "uri" "blockhash"
             (coin 9 1000000000 false false) eq_refl eq_refl).
  - exact (Hcheap alice mintKey "ata" (JS.of_Z 1461600) "blockhash"
             (ultraCheap 9 1000000000) eq_refl eq_refl).
  - exact (Hwhole ltac:(lia)).
  - exact (Hcreate' alice mintKey "metadata" "ata" (JS.of_Z 1461600) "uri" "blockhash"
             (coin 9 1000000 false false) eq_refl eq_refl).
Defined.

(** An ultra-cheap token of 1000 units with 9 decimals. *)
Lemma createUltraCheapToken_minimal_plan_run :
  exists transaction,
    @createUltraCheapToken_transaction sdk connection alice (ultraCheap 9 1000) mintKey
    = Ok transaction
    /\ shape transaction = [CreateAccount; InitializeMint; CreateAssociatedAccount; MintTo].
Proof.
  destruct (@createUltraCheapToken_minimal_plan sdk connection alice (ultraCheap 9 1000)
              mintKey (JS.of_Z 1461600) ("ata/" ++ mintKey ++ "/" ++ alice)
              (JS.of_Z 1000000000) (mkBlockhash "blockhash" (JS.of_Z 1000))
              eq_refl eq_refl eq_refl eq_refl)
    as (transaction & Hbuilt & _ & Hshape).
  exists transaction. split; assumption.
Defined.

Lemma ultraCheap_estimate_submit_parity_run :
  exists l transaction,
    @estimateUltraCheapTokenFee_transaction sdk connection alice (ultraCheap 9 1000)
      temporaryKey = Ok l
    /\ @createUltraCheapToken_transaction sdk connection alice (ultraCheap 9 1000) mintKey
       = Ok transaction
    /\ shape (ul_transaction l) = shape transaction.
Proof.
  eexists. eexists. split; [reflexivity |]. split; [reflexivity |].
  apply (@ultraCheap_estimate_submit_parity sdk connection connection alice
           (ultraCheap 9 1000) temporaryKey mintKey); reflexivity.
Defined.

(** The upload service answers 503: the wallet is not asked. *)
Lemma createToken_upload_failure_run :
  @createToken sdk_upload_down connection alice (sendTransaction wallet)
    (coin 9 1000 false false) mintKey
  = Throw "Failed to create token metadata: Server error: 503".
Proof.
  apply (@createToken_upload_failure sdk_upload_down connection alice
           (coin 9 1000 false false) mintKey (JS.of_Z 1461600)
           ("ata/" ++ mintKey ++ "/" ++ alice) "Server error: 503");
    reflexivity.
Defined.

(** The balance request fails with a text that contains "insufficient
    funds": it is rethrown unchanged. *)
Lemma createUltraCheapToken_balance_failure_run :
  @createUltraCheapToken sdk connection_without_balance alice (sendTransaction wallet)
    (ultraCheap 9 1000) mintKey
  = Throw "429 Too Many Requests: insufficient funds for rpc".
Proof.
  apply (@createUltraCheapToken_balance_failure sdk connection_without_balance alice
           (ultraCheap 9 1000) mintKey (JS.of_Z 1461600)
           ("ata/" ++ mintKey ++ "/" ++ alice)
           "429 Too Many Requests: insufficient funds for rpc");
    reflexivity.
Defined.

(** The transaction lands with an instruction error. *)
Lemma confirmation_error_handling_run :
  (exists created,
      @createToken sdk connection_confirm_error alice (sendTransaction wallet)
        (coin 9 1000 false false) mintKey = Ok created
      /\ mintPubkey created = mintKey)
  /\ @createUltraCheapToken sdk connection_confirm_error alice (sendTransaction wallet)
       (ultraCheap 9 1000) mintKey
     = Throw "Transaction failed: InstructionError".
Proof.
  destruct (@confirmation_error_handling sdk connection_confirm_error alice
              (sendTransaction wallet) mintKey "signature" "InstructionError" eq_refl)
    as [Hcreate Hcheap].
  split.
  - eexists. split; [eapply Hcreate; reflexivity | reflexivity].
  - erewrite Hcheap; reflexivity.
Defined.

(** Rents of 1,461,600, 2,039,280 and 5,115,600 lamports, the protocol
    fee and a message fee of 10,000 lamports. *)
Lemma estimate_is_exact_sum_run :
  exists total,
    @estimateCreateTokenFee sdk connection alice (coin 9 1000 false false) temporaryKey
    = Ok total
    /\ JS.to_integer total = Some 18626480%Z.
Proof.
  eapply (@estimate_is_exact_sum sdk connection alice (coin 9 1000 false false)
            temporaryKey _ _ _ 1461600 2039280 5115600 10000);
    try reflexivity; lia.
Defined.

(** An estimate of 5,000 lamports against a balance of 1,004,999. *)
Lemma creation_needs_estimate_plus_buffer_run :
  @CoinCreator.handleConfirm sdk wallet (connection_with_balance 1004999)
    (Some (coin 9 1000 false false)) (mkFeeState (Some (JS.of_Z 5000)) false) mintKey
  = Alerted (InsufficientBalanceAlert (JS.of_Z 1004999)
               (JS.add (JS.of_Z 5000) (JS.mul lit_0_001 LAMPORTS_PER_SOL)))
  /\ exists created,
       @CoinCreator.handleConfirm sdk wallet (connection_with_balance 1005000)
         (Some (coin 9 1000 false false)) (mkFeeState (Some (JS.of_Z 5000)) false)
         mintKey
       = Created created.
Proof.
  split.
  - pose proof (@creation_needs_estimate_plus_buffer sdk wallet
                  (connection_with_balance 1004999) alice
                  (mkFeeState (Some (JS.of_Z 5000)) false) (JS.of_Z 5000)
                  (JS.of_Z 1004999) 1004999 5000 mintKey
                  eq_refl eq_refl eq_refl eq_refl eq_refl ltac:(lia) ltac:(lia))
      as Hpages.
    cbv zeta in Hpages. exact (proj1 Hpages (coin 9 1000 false false)).
  - pose proof (@creation_needs_estimate_plus_buffer sdk wallet
                  (connection_with_balance 1005000) alice
                  (mkFeeState (Some (JS.of_Z 5000)) false) (JS.of_Z 5000)
                  (JS.of_Z 1005000) 1005000 5000 mintKey
                  eq_refl eq_refl eq_refl eq_refl eq_refl ltac:(lia) ltac:(lia))
      as Hpages.
    cbv zeta in Hpages. eexists.
    rewrite (proj1 Hpages (coin 9 1000 false false)). reflexivity.
Defined.

(** No estimate, and a node that refuses balance requests. *)
Lemma creation_without_estimate_run :
  @CoinCreator.handleConfirm sdk wallet connection_without_balance
    (Some (coin 9 1000 false false)) (mkFeeState None true) mintKey
  = Created mintKey.
Proof.
  rewrite (proj1 (@creation_without_estimate_skips_balance_check sdk wallet
                    connection_without_balance alice (mkFeeState None true) mintKey
                    eq_refl (or_introl eq_refl))).
  reflexivity.
Defined.

(** A wallet that throws a value that is not an [Error]; and a user who
    declines in the wallet, with an estimate of 5000 lamports and a
    balance that covers it. *)
Lemma ultraCheap_send_failure_alert_run :
  @UltraCheapTokenCreator.onSubmit_sending sdk (Some alice)
    (fun _ _ => Threw OtherValue) connection (mkFeeState None false)
    (ultraCheap 9 1000) mintKey
  = Alerted (AlertText "Failed to create ultra cheap token. Please try again.")
  /\ (@UltraCheapTokenCreator.onSubmit sdk wallet_declining
        (connection_with_balance 2000000) (mkFeeState (Some (JS.of_Z 5000)) false)
        (ultraCheap 9 1000) mintKey
      = Alerted (AlertText "Transaction was not confirmed within the expected time. Please check the Solana explorer to see if your token was created.")
      \/ @UltraCheapTokenCreator.onSubmit sdk wallet_declining
           (connection_with_balance 2000000) (mkFeeState (Some (JS.of_Z 5000)) false)
           (ultraCheap 9 1000) mintKey
         = Alerted (AlertText ("Failed to create ultra cheap token: "
                               ++ "Transaction was rejected by user."))).
Proof.
  split.
  - exact (@ultraCheap_send_failure_alert sdk connection alice
             (fun _ _ => Threw OtherValue) (mkFeeState None false) (ultraCheap 9 1000)
             mintKey _ OtherValue eq_refl eq_refl).
  - exact (@ultraCheap_send_failure_alert sdk (connection_with_balance 2000000) alice
             (fun transaction signers =>
                attempted (sendTransaction wallet_declining transaction signers))
             (mkFeeState (Some (JS.of_Z 5000)) false) (ultraCheap 9 1000) mintKey _
             (ErrorInstance "Transaction was rejected by user.") eq_refl eq_refl).
Defined.

(** [bob] has no account of the token yet: it is created and frozen in
    one transaction. *)
Lemma freeze_creates_missing_account_run :
  exists transaction,
    @FreezeTokensClient.onSubmit sdk wallet connection None
      (FreezeTokensClient.mkFreezeFormData mintKey bob FreezeTokensClient.freeze)
    = Sent transaction (sendAndConfirm wallet connection transaction)
    /\ shape transaction = [CreateAssociatedAccount; FreezeAccount].
Proof.
  eexists. split.
  - apply (@freeze_creates_missing_account sdk wallet connection alice None
             (FreezeTokensClient.mkFreezeFormData mintKey bob FreezeTokensClient.freeze)
             mintKey bob ("ata/" ++ mintKey ++ "/" ++ bob));
      try reflexivity.
    intros info Hinfo. discriminate Hinfo.
  - reflexivity.
Defined.

(** Both authorities of the token belong to [alice], who revokes both. *)
Lemma revoke_only_held_authorities_run :
  exists transaction r,
    @RevokeAuthoritiesClient.onSubmit sdk wallet connection
      (Some (RevokeAuthoritiesClient.mkTokenInfo (Some mintKey) (Some 9%nat)
               (Some alice) (Some alice)))
      (RevokeAuthoritiesClient.mkRevokeFormData mintKey true true)
    = Sent transaction r
    /\ Forall (fun i => exists authorityType,
                   i = createSetAuthorityInstruction mintKey alice authorityType None)
         (instructions transaction).
Proof.
  eexists. eexists. split; [reflexivity |].
  destruct (@revoke_only_held_authorities sdk wallet connection
              (Some (RevokeAuthoritiesClient.mkTokenInfo (Some mintKey) (Some 9%nat)
                       (Some alice) (Some alice)))
              (RevokeAuthoritiesClient.mkRevokeFormData mintKey true true) _ _ eq_refl)
    as (payer & info & mintPubkey & Hwallet & _ & Hkey & _ & _ & Hall).
  injection Hwallet as <-. injection Hkey as <-. exact Hall.
Defined.

(** [bob] looks at a token whose authorities belong to [alice]. *)
Lemma fetchTokenInfo_tells_absent_from_foreign_run :
  @MintTokensPage.fetchTokenInfo sdk (wallet_of bob) connection mintKey
  = Throw "You are not the mint authority for this token"
  /\ @FreezeTokensPage.fetchTokenInfo sdk (wallet_of bob) connection mintKey
     = Throw "You are not the freeze authority for this token".
Proof.
  destruct (@fetchTokenInfo_tells_absent_from_foreign sdk (wallet_of bob) connection bob
              mintKey mintKey
              (mkParsedInfo "mint" (Some 9%nat) "1000000000000000" (Some alice)
                 (Some alice))
              eq_refl eq_refl eq_refl eq_refl)
    as (_ & Hmint & _ & Hfreeze).
  split.
  - apply (Hmint alice); [reflexivity | discriminate | discriminate].
  - apply (Hfreeze alice); [reflexivity | discriminate | discriminate].
Defined.

(** Half a token of a mint with 9 decimals: 500,000,000 base units. *)
Lemma mint_amount_is_whole_run :
  exists transaction r,
    @MintTokensClient.onSubmit sdk wallet connection
      (MintTokensClient.mkMintFormData mintKey bob JS.lit_0_5)
    = Sent transaction r
    /\ exists mintAmount k,
         mintTo_amounts transaction = [mintAmount]
         /\ JS.to_integer mintAmount = Some k /\ (0 <= k)%Z.
Proof.
  eexists. eexists. split; [reflexivity |].
  destruct (@mint_amount_is_whole sdk wallet connection
              (MintTokensClient.mkMintFormData mintKey bob JS.lit_0_5) mintKey
              (mkParsedInfo "mint" (Some 9%nat) "1000000000000000" (Some alice)
                 (Some alice))
              9 1 (-1) _ _ eq_refl eq_refl eq_refl eq_refl eq_refl
              ltac:(lia) ltac:(lia)
              eq_refl ltac:(repeat constructor))
    as (mintAmount & k & Hamounts & Hk & [Hk0 _] & _).
  exists mintAmount, k. repeat split; assumption.
Defined.

(** A balance of 10 base units and a request to burn half a token of a
    mint without decimals: zero base units. *)
Lemma burn_sent_within_balance_run :
  exists transaction r,
    @BurnTokensClient.onSubmit sdk wallet connection
      (Some (BurnTokensClient.mkTokenInfo (Some mintKey) (Some "TKN") (Some 0%nat)
               (Some "10") (Some (JS.of_Z 10))))
      (BurnTokensClient.mkBurnFormData mintKey JS.lit_0_5)
    = Sent transaction r
    /\ shape transaction = [Burn].
Proof.
  eexists. eexists. split; [reflexivity |].
  destruct (@burn_sent_within_balance sdk wallet connection
              (Some (BurnTokensClient.mkTokenInfo (Some mintKey) (Some "TKN") (Some 0%nat)
                       (Some "10") (Some (JS.of_Z 10))))
              (BurnTokensClient.mkBurnFormData mintKey JS.lit_0_5) _ _ eq_refl)
    as (payer & info & raw & mintPubkey & userTokenAccount & _ & _ & _ & _ & _
        & Hinstructions & _).
  unfold shape. rewrite Hinstructions. reflexivity.
Defined.

(** [alice] has no account of the token. *)
Lemma burn_without_token_account_run :
  exists info,
    @BurnTokensPage.fetchTokenInfo sdk (fun _ _ => "0") (fun _ _ => Some "TKN") wallet
      connection mintKey
    = Some (Ok info)
    /\ @BurnTokensClient.onSubmit sdk wallet connection (Some info)
         (BurnTokensClient.mkBurnFormData mintKey JS.lit_0_5)
       = Rejected (Text "You have no tokens to burn for this token.").
Proof.
  destruct (@burn_without_token_account sdk (fun _ _ => "0") (fun _ _ => Some "TKN")
              wallet connection alice mintKey mintKey
              ("ata/" ++ mintKey ++ "/" ++ alice)
              (mkParsedInfo "mint" (Some 9%nat) "1000000000000000" (Some alice)
                 (Some alice))
              "TokenAccountNotFoundError" eq_refl eq_refl eq_refl eq_refl eq_refl eq_refl)
    as (info & Hfetched & _ & _ & Hrejected).
  exists info. split; [exact Hfetched | apply Hrejected].
Defined.

(** A token with a PNG picture, stored by a configured worker. *)
Lemma upload_writes_stay_in_token_folder_run :
  exists response image document,
    @UploadRoute.POST sdk trim toUpperCase runtime (Ok posted)
    = (response, [image; document])
    /\ UploadRoute.Key image = "tokens/" ++ mintKey ++ "/image.png"
    /\ exists formData mintId leaf,
         Ok posted = Ok formData
         /\ form_mintId formData = Some mintId
         /\ @newPublicKey sdk mintId = Ok mintId
         /\ (32 <= String.length mintId <= 44)%nat
         /\ (forall c, In c (list_ascii_of_string mintId) ->
               c <> "/"%char /\ c <> "\"%char /\ c <> "."%char)
         /\ UploadRoute.Key document = "tokens/" ++ mintId ++ "/" ++ leaf
         /\ In leaf ["image.webp"; "image.png"; "image.jpg"; "image.img"; "metadata.json"].
Proof.
  eexists. eexists. eexists. split; [reflexivity |]. split; [reflexivity |].
  eapply (@upload_writes_stay_in_token_folder sdk trim toUpperCase runtime (Ok posted));
    [reflexivity | right; left; reflexivity].
Defined.

Lemma upload_success_means_stored_run :
  exists response written metadata,
    @UploadRoute.POST sdk trim toUpperCase runtime (Ok posted) = (response, written)
    /\ status response = 200%Z
    /\ last written (UploadRoute.mkPutObject "" (UploadRoute.ImageBody picture) "" "")
       = UploadRoute.mkPutObject ("tokens/" ++ mintKey ++ "/metadata.json")
           (UploadRoute.MetadataBody metadata) "application/json"
           "public, max-age=31536000"
    /\ UploadRoute.md_name metadata = "Token"
    /\ UploadRoute.md_symbol metadata = "TKN".
Proof.
  destruct (@upload_success_means_stored sdk trim toUpperCase runtime (Ok posted)
              _ _ eq_refl eq_refl)
    as (formData & mintId & name & symbol & metadata & before & Hfacts).
  cbv zeta in Hfacts.
  destruct Hfacts as (Hrequest & Hmint & Hname & Hsymbol & Hwritten & Hmdname & Hmdsymbol
                      & _).
  injection Hrequest as <-. injection Hmint as <-. injection Hname as <-.
  injection Hsymbol as <-.
  eexists. eexists. exists metadata. split; [reflexivity |]. split; [reflexivity |].
  split; [| split; assumption].
  rewrite Hwritten. apply last_last.
Defined.

(** The bucket fails on the metadata document: the picture stays. *)
Lemma upload_failure_stores_no_metadata_run :
  exists response image,
    @UploadRoute.POST sdk trim toUpperCase runtime_metadata_down (Ok posted)
    = (response, [image])
    /\ status response = 500%Z
    /\ UploadRoute.Body image = UploadRoute.ImageBody picture.
Proof.
  eexists. eexists. split; [reflexivity |]. split; [reflexivity |].
  destruct (@upload_failure_stores_no_metadata sdk trim toUpperCase runtime_metadata_down
              (Ok posted) _ _ eq_refl eq_refl)
    as [[Hstatus _] | [_ [Hnothing | (formData & imageFile & image & Hrequest & Himage
                                      & Hwritten & Hbody)]]].
  - discriminate Hstatus.
  - discriminate Hnothing.
  - injection Hrequest as <-. injection Himage as <-. injection Hwritten as <-.
    exact Hbody.
Defined.

(** A one-line form is not refused; a description of 512 characters in
    two lines passes [coinSchema], arrives with 513 characters and is
    answered with status 400. *)
Lemma schema_valid_form_refusal_run :
  status (fst (@UploadRoute.POST sdk trim toUpperCase runtime (Ok (transmitted posted))))
  <> 400%Z
  /\ coinSchema CreationType.token coin_two_lines = true
  /\ status (fst (@UploadRoute.POST sdk trim toUpperCase runtime
                    (Ok (transmitted
                           (mkForm (Some mintKey) (Some "Token") (Some "TKN")
                              (Some two_lines) (Some picture) None)))))
     = 400%Z.
Proof.
  assert (Himage : forall data imageFile,
             CreateTokenWithUpload.imageFile data = Some picture ->
             CreateTokenWithUpload.imageFile data = Some imageFile ->
             String.prefix "image/" (file_type imageFile) = true).
  { intros data imageFile -> [= <-]. reflexivity. }
  assert (Hschema : coinSchema CreationType.token coin_two_lines = true)
    by (vm_compute; reflexivity).
  split; [| split; [exact Hschema |]].
  - pose proof (@schema_valid_form_refusal sdk trim toUpperCase runtime
                  CreationType.nft coin_with_picture mintKey eq_refl eq_refl eq_refl
                  (fun imageFile => Himage coin_with_picture imageFile eq_refl))
      as Hform.
    cbv zeta in Hform. apply (proj2 Hform); reflexivity.
  - pose proof (@schema_valid_form_refusal sdk trim toUpperCase runtime
                  CreationType.token coin_two_lines mintKey Hschema eq_refl eq_refl
                  (fun imageFile => Himage coin_two_lines imageFile eq_refl))
      as Hform.
    cbv zeta in Hform. apply (proj2 (proj1 Hform)).
    split; [right; discriminate |].
    right; right. apply Nat.ltb_lt. vm_compute. reflexivity.
Defined.

(** A deployment without storage configuration. *)
Lemma unconfigured_storage_alert_run :
  @CoinCreator.handleConfirm (withUploadRoute sdk trim toUpperCase runtime_unconfigured)
    wallet connection (Some coin_with_picture) (mkFeeState None false) mintKey
  = Alerted (AlertText "Image upload service is not configured. Please contact the administrator to set up Cloudflare R2 storage. You can create a token without an image for now.").
Proof.
  pose proof (@unconfigured_storage_alert sdk trim toUpperCase runtime_unconfigured
                wallet connection alice coin_with_picture (mkFeeState None false)
                mintKey (JS.of_Z 1461600) ("ata/" ++ mintKey ++ "/" ++ alice)
                eq_refl eq_refl eq_refl eq_refl eq_refl) as Hpage.
  cbv zeta in Hpage. exact (proj2 Hpage eq_refl).
Defined.

(** Two keys asked from a node that answers in order. *)
Lemma mint_infos_stay_aligned_run :
  nth_error (FreezeSelect.fetchChunks node (FreezeSelect.chunked [mintKey; temporaryKey]))
    1
  = Some (lookup temporaryKey).
Proof.
  destruct (@mint_infos_stay_aligned node lookup [mintKey; temporaryKey]) as [_ Hat].
  - intros chunk infos [= <-]. reflexivity.
  - destruct (Hat 1%nat temporaryKey eq_refl) as [Hanswer | Hnull].
    + exact Hanswer.
    + discriminate Hnull.
Defined.

(** [alice] holds accounts of two mints and is the freeze authority of
    one of them. *)
Lemma fetchUserMints_lists_held_mints_run :
  @FreezeSelect.fetchUserMints sdk decodeMint formatSupply text node (Some alice)
  = Ok [FreezeSelect.mkTokenMint (Some mintKey) (Some "EasyMint") (Some "EZM") 9 "1000"
          alice].
Proof.
  destruct (@fetchUserMints_lists_held_mints sdk decodeMint formatSupply text node lookup
              alice [mintKey; temporaryKey; mintKey] [mintKey; temporaryKey]
              eq_refl eq_refl (fun keys => eq_refl))
    as (tokens & Hrun & Htokens & _).
  rewrite Hrun, Htokens. reflexivity.
Defined.

Lemma listed_mints_are_held_despite_failures_run :
  FreezeSelect.freezeAuthority
    (FreezeSelect.mkTokenMint (Some mintKey) (Some "EasyMint") (Some "EZM") 9 "1000" alice)
  = alice.
Proof.
  refine (proj1 (@listed_mints_are_held_despite_failures sdk decodeMint formatSupply text
                   node lookup alice [mintKey; temporaryKey; mintKey] _ eq_refl _
                   eq_refl _ (or_introl eq_refl))).
  intros chunk infos [= <-]. reflexivity.
Defined.

Lemma metadataFields_reads_name_and_symbol_run :
  FreezeSelect.metadataFields text metadataAccount = (Some "EasyMint", Some "EZM").
Proof.
  pose proof (@metadataFields_reads_name_and_symbol text (repeat Byte.x04 65) nameBytes
                symbolBytes (repeat Byte.x00 40) eq_refl) as Hfields.
  cbv zeta in Hfields. apply Hfields; cbn; lia.
Defined.

(** The target's account is already frozen and the action is "freeze":
    the button is disabled and a submission would be rejected. *)
Lemma freeze_button_matches_state_check_run :
  exists e,
    @FreezeTokensClient.onSubmit sdk wallet connection
      (Some (FreezeTokensClient.mkAccountInfo true true))
      (FreezeTokensClient.mkFreezeFormData mintKey bob FreezeTokensClient.freeze)
    = Rejected e.
Proof.
  apply (proj2 (@freeze_button_matches_state_check sdk wallet connection false
                  (Some (FreezeTokensPage.mkTokenInfo (Some mintKey) (Some 9%nat)))
                  (Some (FreezeTokensClient.mkAccountInfo true true))
                  (FreezeTokensClient.mkFreezeFormData mintKey bob
                     FreezeTokensClient.freeze))
           alice (FreezeTokensPage.mkTokenInfo (Some mintKey) (Some 9%nat))
           (FreezeTokensClient.mkAccountInfo true true) eq_refl eq_refl eq_refl eq_refl).
  reflexivity.
Defined.

(** [alice] resolves her own token on the mint page. *)
Lemma fetchTokenInfo_resolves_only_held_tokens_run :
  exists payer mintPubkey parsedData,
    publicKey wallet = Some payer
    /\ @newPublicKey sdk mintKey = Ok mintPubkey
    /\ getParsedAccountInfo connection mintPubkey = Ok (Some (ParsedData parsedData))
    /\ info_mintAuthority parsedData = Some payer.
Proof.
  apply (proj1 (@fetchTokenInfo_resolves_only_held_tokens sdk wallet connection mintKey)
           (MintTokensPage.mkTokenInfo (Some mintKey) (Some 9%nat))).
  reflexivity.
Defined.

(** The client against a configured worker, against one without
    storage, and with a description of 512 characters in two lines, which
    arrives with 513. *)
Lemma createTokenMetadata_round_trip_run :
  (exists imageUrl,
      UploadImage.createTokenMetadata (fetchRoute sdk trim toUpperCase runtime)
        (mkTokenMetadataRequest mintKey "Token" "TKN" "A token" (Some picture))
      = Ok (mkTokenMetadataResult
              ("https://cdn.example/tokens/" ++ mintKey ++ "/metadata.json") imageUrl))
  /\ (exists error,
         UploadImage.createTokenMetadata
           (fetchRoute sdk trim toUpperCase runtime_unconfigured)
           (mkTokenMetadataRequest mintKey "Token" "TKN" "A token" (Some picture))
         = Throw error)
  /\ UploadImage.createTokenMetadata (fetchRoute sdk trim toUpperCase runtime)
       (mkTokenMetadataRequest mintKey "Token" "TKN" two_lines (Some picture))
     = Throw "Description must be 512 characters or less".
Proof.
  split; [| split].
  - pose proof (@createTokenMetadata_round_trip sdk trim toUpperCase runtime
                  (mkTokenMetadataRequest mintKey "Token" "TKN" "A token" (Some picture)))
      as Htrip.
    cbv zeta in Htrip. destruct (proj1 Htrip eq_refl) as (imageUrl & Hcreated & _).
    exists imageUrl. exact Hcreated.
  - pose proof (@createTokenMetadata_round_trip sdk trim toUpperCase runtime_unconfigured
                  (mkTokenMetadataRequest mintKey "Token" "TKN" "A token" (Some picture)))
      as Htrip.
    cbv zeta in Htrip. destruct (proj2 Htrip eq_refl) as (error & _ & Hthrown).
    exists error. exact Hthrown.
  - pose proof (@createTokenMetadata_round_trip sdk trim toUpperCase runtime
                  (mkTokenMetadataRequest mintKey "Token" "TKN" two_lines (Some picture)))
      as Htrip.
    cbv zeta in Htrip.
    destruct (proj2 Htrip ltac:(vm_compute; reflexivity)) as (error & Hjson & Hthrown).
    assert (Hanswer :
              json (fst (@UploadRoute.POST sdk trim toUpperCase runtime
                           (Ok (transmitted
                                  (mkForm (Some mintKey) (Some "Token") (Some "TKN")
                                     (Some two_lines) (Some picture) None)))))
              = Ok (ErrorJson (Some "Description must be 512 characters or less")))
      by (vm_compute; reflexivity).
    assert (Herror :
              @Ok Json (ErrorJson (Some error))
              = Ok (ErrorJson (Some "Description must be 512 characters or less")))
      by exact (eq_trans (eq_sym Hjson) Hanswer).
    injection Herror as ->. exact Hthrown.
Defined.

End RunMore.
